(** * UDPSocketPosix: a shallow embedding of net/socket/udp_socket_posix.cc

    The asynchronous datagram socket engine is embedded as functions over an
    explicit socket record ([UDPSocketPosix]) and an explicit model of
    everything outside the object ([World]): the kernel's answers to system
    calls, [errno], the process-wide counters, and the chronological trace
    of the effects the engine performed. *)

From Stdlib Require Import ZArith List Bool Lia.
Import ListNotations.
Open Scope Z_scope.

(** ** Net error codes

    The values of net/base/net_error_list.h, which the engine returns as
    plain [int]s next to byte counts. *)

Definition OK : Z := 0.
Definition ERR_IO_PENDING : Z := -1.
Definition ERR_INVALID_ARGUMENT : Z := -4.
Definition ERR_NOT_IMPLEMENTED : Z := -11.
Definition ERR_INSUFFICIENT_RESOURCES : Z := -12.
Definition ERR_SOCKET_NOT_CONNECTED : Z := -15.
Definition ERR_SOCKET_IS_CONNECTED : Z := -23.
Definition ERR_ADDRESS_INVALID : Z := -108.
Definition ERR_MSG_TOO_BIG : Z := -142.
Definition ERR_ADDRESS_IN_USE : Z := -147.

(** ** Constants of the anonymous namespace (udp_socket_posix.cc, 73-78) *)

Definition kBindRetries : Z := 10.
Definition kPortStart : Z := 1024.
Definition kPortEnd : Z := 65535.
Definition kActivityMonitorBytesThreshold : Z := 65535.
Definition kActivityMonitorMinimumSamplesForThroughputEstimate : Z := 2.
(** [base::Milliseconds(100)], kept in milliseconds. *)
Definition kActivityMonitorMsThreshold : Z := 100.

Definition kInvalidSocket : Z := -1.

(** ** System constants

    [errno] numbers and address families are only ever compared with their
    symbolic names; the Linux numbering is used. *)

Definition EINTR : Z := 4.
Definition EIO : Z := 5.
Definition EAGAIN : Z := 11.
Definition EINVAL : Z := 22.
Definition EPROTOTYPE : Z := 91.
Definition ENOPROTOOPT : Z := 92.
Definition EADDRINUSE : Z := 98.
Definition EADDRNOTAVAIL : Z := 99.
Definition ENOTCONN : Z := 107.

Definition AF_UNSPEC : Z := 0.
Definition AF_INET : Z := 2.
Definition AF_INET6 : Z := 10.

Definition IP_DEFAULT_MULTICAST_TTL : Z := 1.
Definition MSG_CONFIRM : Z := 2048.
Definition INADDR_ANY : Z := 0.

(** Unsigned 32-bit wrap-around ([uint32_t] arithmetic). *)
Definition u32 (z : Z) : Z := z mod 2 ^ 32.

(** The conversion of a [uint32_t] to [int], as in the assignment of
    [multicast_interface_] to the [int] field [imr_ifindex]: the value with
    the same 32 bits, so that values from 2^31 on become negative. *)
Definition int_of_uint32 (z : Z) : Z := (z + 2 ^ 31) mod 2 ^ 32 - 2 ^ 31.

(** ** Addresses *)

(** [IPAddress]: the bytes of the address, most significant first. *)
Definition IPAddress := list Z.

Definition kIPv4AddressSize : nat := 4.
Definition kIPv6AddressSize : nat := 16.

Definition AllZeros (num_zero_bytes : nat) : IPAddress := repeat 0 num_zero_bytes.

Record IPEndPoint := mkIPEndPoint { address : IPAddress; port : Z }.

(** The contents of a [SockaddrStorage] after it has been filled in. *)
Record SockAddr := mkSockAddr { sa_family : Z; sa_addr : list Z; sa_port : Z }.

(** Modelled from the spec: [IPEndPoint::ToSockAddr] (net/base/ip_endpoint.cc
    is not among the sources).  The conversion of a destination address can
    fail ("destination address conversion failure", [AddressInvalid] for a
    "malformed/unsupported sockaddr"): it succeeds exactly for addresses of
    the IPv4 or of the IPv6 size. *)
Definition ToSockAddr (ep : IPEndPoint) : option SockAddr :=
  if Nat.eqb (length (address ep)) kIPv4AddressSize
  then Some (mkSockAddr AF_INET (address ep) (port ep))
  else if Nat.eqb (length (address ep)) kIPv6AddressSize
  then Some (mkSockAddr AF_INET6 (address ep) (port ep))
  else None.

(** Modelled from the spec: [IPEndPoint::FromSockAddr]; "the sender's address
    fails to parse into the expected endpoint type" unless it is a
    well-formed IPv4 or IPv6 socket address. *)
Definition FromSockAddr (sa : SockAddr) : option IPEndPoint :=
  if (sa_family sa =? AF_INET) && Nat.eqb (length (sa_addr sa)) kIPv4AddressSize
  then Some (mkIPEndPoint (sa_addr sa) (sa_port sa))
  else if (sa_family sa =? AF_INET6) && Nat.eqb (length (sa_addr sa)) kIPv6AddressSize
  then Some (mkIPEndPoint (sa_addr sa) (sa_port sa))
  else None.

(** Modelled from the spec: [IPEndPoint::GetSockAddrFamily], the address
    family an endpoint converts to. *)
Definition GetSockAddrFamily (ep : IPEndPoint) : Z :=
  if Nat.eqb (length (address ep)) kIPv4AddressSize then AF_INET
  else if Nat.eqb (length (address ep)) kIPv6AddressSize then AF_INET6
  else AF_UNSPEC.

(** ** Socket tags *)

(** Modelled from the spec: the "socket tag" attribute of the socket
    (net/socket/socket_tag.h is not among the sources): a pair of
    identifiers, both unset in the default tag [SocketTag()]. *)
Record SocketTag := mkSocketTag { tag_uid : Z; tag_traffic_stats : Z }.

Definition SocketTag_default : SocketTag := mkSocketTag (-1) (-1).

Definition SocketTag_eqb (a b : SocketTag) : bool :=
  (tag_uid a =? tag_uid b) && (tag_traffic_stats a =? tag_traffic_stats b).

(** ** The world outside the socket object *)

Inductive SockLevel := SOL_SOCKET | IPPROTO_IP | IPPROTO_IPV6.

Inductive SockOpt :=
| SO_ERROR
| IP_MULTICAST_LOOP | IP_MULTICAST_TTL | IP_MULTICAST_IF
| IP_ADD_MEMBERSHIP | IP_DROP_MEMBERSHIP | IP_TOS
| IPV6_MULTICAST_LOOP | IPV6_MULTICAST_HOPS | IPV6_MULTICAST_IF
| IPV6_JOIN_GROUP | IPV6_LEAVE_GROUP | IPV6_TCLASS.

(** The value handed to [setsockopt]. *)
Inductive OptVal :=
| OptUChar (v : Z)
| OptInt (v : Z)
| OptUInt (v : Z)
| OptMreqn (imr_multiaddr : list Z) (imr_address : Z) (imr_ifindex : Z)
| OptMreq6 (ipv6mr_multiaddr : list Z) (ipv6mr_interface : Z).

Inductive WatchMode := WATCH_READ | WATCH_WRITE.

(** The calls the engine makes into the kernel (and into the thin platform
    wrappers around it). *)
Inductive Call :=
| c_socket (family : Z)                       (* CreatePlatformSocket(family, SOCK_DGRAM, 0) *)
| c_change_fdguard (fd : Z)                   (* change_fdguard_np *)
| c_set_nonblocking (fd : Z)                  (* base::SetNonBlocking *)
| c_close (fd : Z)
| c_guarded_close (fd : Z)                    (* guarded_close_np *)
| c_bind (fd : Z) (sa : SockAddr)
| c_connect (fd : Z) (sa : SockAddr)
| c_read (fd : Z) (buf : option nat) (len : Z)
| c_recvmsg (fd : Z) (buf : option nat) (len : Z)
| c_sendto (fd : Z) (buf : option nat) (len : Z) (flags : Z) (dest : option SockAddr)
| c_getsockname (fd : Z)
| c_watch (fd : Z) (mode : WatchMode)         (* CurrentIOThread::WatchFileDescriptor *)
| c_getpeername (fd : Z)
| c_getsockopt (fd : Z) (level : SockLevel) (opt : SockOpt)
| c_setsockopt (fd : Z) (level : SockLevel) (opt : SockOpt) (v : OptVal).

(** What the kernel answers: a failure with its (positive) [errno], a success with its
    non-negative value (a descriptor, a byte count; ignored by calls that
    only report success), or a received datagram with its size and the
    sender's socket address. *)
Inductive SysAnswer :=
| SysErr (e : positive)
| SysOk (v : N)
| SysMsg (size : N) (name : SockAddr).

(** The effects the engine performs, as they appear in the trace. *)
Inductive Event :=
| EvSys (c : Call) (a : SysAnswer)
| EvRandInt (min max result : Z)                 (* base::RandInt *)
| EvTagApply (tag : SocketTag) (fd : Z)          (* SocketTag::Apply *)
| EvStopWatching (mode : WatchMode)              (* StopWatchingFileDescriptor *)
| EvTimerStart (delay_ms : Z)
| EvTimerReset
| EvTimerStop
| EvBytesReceived (bytes : Z)                    (* activity_monitor::IncrementBytesReceived *)
| EvHistogram (sample : Z)                       (* Net.UdpSocketRandomBindErrorCode *)
| EvRunCallback (callback : nat) (rv : Z).       (* CompletionOnceCallback::Run *)

Record World := mkWorld {
  script : list SysAnswer;           (* the kernel's answers to the calls to come *)
  entropy : list Z;                  (* the random numbers to come *)
  errno : Z;
  trace : list Event;                (* oldest first *)
  udp_socket_count : Z;              (* the admission gate's count of open sockets *)
  bytes_received : Z;                (* the process-wide throughput counter *)
  memory : list (nat * IPEndPoint)   (* the callers' IPEndPoint out-parameters *)
}.

Definition emit (e : Event) (w : World) : World :=
  mkWorld (script w) (entropy w) (errno w) (trace w ++ [e])
          (udp_socket_count w) (bytes_received w) (memory w).

Definition set_errno (e : Z) (w : World) : World :=
  mkWorld (script w) (entropy w) e (trace w)
          (udp_socket_count w) (bytes_received w) (memory w).

Definition set_script (sc : list SysAnswer) (w : World) : World :=
  mkWorld sc (entropy w) (errno w) (trace w)
          (udp_socket_count w) (bytes_received w) (memory w).

Definition set_entropy (en : list Z) (w : World) : World :=
  mkWorld (script w) en (errno w) (trace w)
          (udp_socket_count w) (bytes_received w) (memory w).

Definition set_udp_socket_count (n : Z) (w : World) : World :=
  mkWorld (script w) (entropy w) (errno w) (trace w)
          n (bytes_received w) (memory w).

Definition set_bytes_received (n : Z) (w : World) : World :=
  mkWorld (script w) (entropy w) (errno w) (trace w)
          (udp_socket_count w) n (memory w).

Definition store_endpoint (loc : nat) (ep : IPEndPoint) (w : World) : World :=
  mkWorld (script w) (entropy w) (errno w) (trace w)
          (udp_socket_count w) (bytes_received w) ((loc, ep) :: memory w).

Fixpoint load_endpoint (loc : nat) (m : list (nat * IPEndPoint)) : option IPEndPoint :=
  match m with
  | [] => None
  | (l, ep) :: m' => if Nat.eqb l loc then Some ep else load_endpoint loc m'
  end.

(** Modelled from the spec: [activity_monitor::IncrementBytesReceived], the
    "process-wide throughput counter" (net/base/network_activity_monitor.cc
    is not among the sources). *)
Definition IncrementBytesReceived (bytes : Z) (w : World) : World :=
  emit (EvBytesReceived bytes) (set_bytes_received (bytes_received w + bytes) w).

(** ** ReceivedActivityMonitor (udp_socket_posix.cc, 179-222) *)

Module ReceivedActivityMonitor.

(** [bytes_] and [increments_] are [uint32_t]; of [base::RepeatingTimer timer_]
    only whether it is running is state, what is done to it goes to the
    trace. *)
Record t := mk { bytes_ : Z; increments_ : Z; timer_running : bool }.

(** A freshly constructed monitor. *)
Definition init : t := mk 0 0 false.

Definition Update (m : t) (w : World) : t * World :=
  if bytes_ m =? 0 then (m, w)
  else (mk 0 (increments_ m) (timer_running m), IncrementBytesReceived (bytes_ m) w).

Definition Increment (bytes : Z) (m : t) (w : World) : t * World :=
  if bytes =? 0 then (m, w)
  else
    let timer_running0 := timer_running m in
    let m1 := mk (u32 (bytes_ m + bytes)) (u32 (increments_ m + 1)) (timer_running m) in
    let '(m2, w2) :=
      if (increments_ m1 <? kActivityMonitorMinimumSamplesForThroughputEstimate)
         || (bytes_ m1 >? kActivityMonitorBytesThreshold)
      then
        let '(m', w') := Update m1 w in
        if timer_running0 then (m', emit EvTimerReset w') else (m', w')
      else (m1, w) in
    if negb timer_running0
    then (mk (bytes_ m2) (increments_ m2) true,
          emit (EvTimerStart kActivityMonitorMsThreshold) w2)
    else (m2, w2).

Definition OnClose (m : t) (w : World) : t * World :=
  Update (mk (bytes_ m) (increments_ m) false) (emit EvTimerStop w).

Definition OnTimerFired (m : t) (w : World) : t * World :=
  let m1 := mk (bytes_ m) 0 (timer_running m) in
  if bytes_ m1 =? 0
  then (mk (bytes_ m1) (increments_ m1) false, emit EvTimerStop w)
  else Update m1 w.

(** *** Histories

    What can happen to a monitor between two quiescent points: the socket
    reports received bytes, the running timer fires (a stopped timer does
    not), or the socket is closed. *)
Inductive Op := OpIncrement (bytes : Z) | OpTimerFired | OpClose.

Definition step (st : t * World) (op : Op) : t * World :=
  match op with
  | OpIncrement bytes => Increment (u32 bytes) (fst st) (snd st)
  | OpTimerFired =>
      if timer_running (fst st) then OnTimerFired (fst st) (snd st) else st
  | OpClose => OnClose (fst st) (snd st)
  end.

Definition run (h : list Op) (st : t * World) : t * World := fold_left step h st.

(** The number of reports to the process-wide counter (flushes) in a trace. *)
Fixpoint flush_count (tr : list Event) : nat :=
  match tr with
  | [] => O
  | EvBytesReceived _ :: tr' => S (flush_count tr')
  | _ :: tr' => flush_count tr'
  end.

(** Whether a step flushed. *)
Definition flushed (before after : t * World) : bool :=
  negb (Nat.eqb (flush_count (trace (snd after))) (flush_count (trace (snd before)))).

(** Bookkeeping kept next to a run, for stating the claims: the number of
    samples (non-zero increments) since the last flush, and since the timer
    last fired. *)
Record Ghost := mkGhost { samples_since_flush : Z; samples_since_fire : Z }.

Definition gstep (gst : Ghost * (t * World)) (op : Op) : Ghost * (t * World) :=
  let '(g, st) := gst in
  let st' := step st op in
  let sample := match op with
                | OpIncrement bytes => if u32 bytes =? 0 then 0 else 1
                | _ => 0
                end in
  let fired := match op with
               | OpTimerFired => timer_running (fst st)
               | _ => false
               end in
  (mkGhost (if flushed st st' then 0 else samples_since_flush g + sample)
           (if fired then 0 else samples_since_fire g + sample),
   st').

Definition grun (h : list Op) (st : t * World) : Ghost * (t * World) :=
  fold_left gstep h (mkGhost 0 0, st).

End ReceivedActivityMonitor.

(** ** Build configuration

    The preprocessor conditions of the file, [MapSystemError]
    (net/base/net_errors_posix.cc, the "OS error -> semantic error" mapping,
    not among the sources) and the capacity of the admission gate are
    parameters of the embedding. *)

Record Config := mkConfig {
  IS_APPLE : bool;
  CRONET_BUILD : bool;
  IS_CHROMEOS_ASH : bool;
  IS_FUCHSIA : bool;
  trace_base_enabled : bool;   (* whether the "base" tracing category is on *)
  MapSystemError : Z -> Z;
  max_udp_sockets : Z
}.

(** ** The socket object *)

Inductive BindType := RANDOM_BIND | DEFAULT_BIND.

Definition BindType_eqb (a b : BindType) : bool :=
  match a, b with
  | RANDOM_BIND, RANDOM_BIND | DEFAULT_BIND, DEFAULT_BIND => true
  | _, _ => false
  end.

Inductive AddressFamily :=
| ADDRESS_FAMILY_UNSPECIFIED | ADDRESS_FAMILY_IPV4 | ADDRESS_FAMILY_IPV6.

(** Modelled from the spec: [ConvertAddressFamily] (net/base/address_family.cc
    is not among the sources), the OS address family of [Open(family)]. *)
Definition ConvertAddressFamily (address_family : AddressFamily) : Z :=
  match address_family with
  | ADDRESS_FAMILY_UNSPECIFIED => AF_UNSPEC
  | ADDRESS_FAMILY_IPV4 => AF_INET
  | ADDRESS_FAMILY_IPV6 => AF_INET6
  end.

(** [enum SocketOptions] of the header: the one flag the file uses. *)
Definition SOCKET_OPTION_MULTICAST_LOOP : Z := Z.shiftl 1 0.

(** [DSCP_NO_CHANGE] of [enum DiffServCodePoint]. *)
Definition DSCP_NO_CHANGE : Z := -1.

(** The data members of the class that the embedded member functions use.
    Buffers, out-parameters and callbacks are known by a number; [None] is
    the null pointer or the null callback. *)
Record UDPSocketPosix := mkUDPSocketPosix {
  socket_ : Z;   (* the descriptor, or kInvalidSocket *)
  socket_hash_ : Z;   (* the descriptor fingerprint *)
  addr_family_ : Z;
  is_connected_ : bool;
  socket_options_ : Z;   (* bit flags, SOCKET_OPTION_MULTICAST_LOOP *)
  sendto_flags_ : Z;   (* flags passed to sendto *)
  multicast_interface_ : Z;   (* uint32_t *)
  multicast_time_to_live_ : Z;
  bind_type_ : BindType;
  local_address_ : option IPEndPoint;   (* mutable cache *)
  remote_address_ : option IPEndPoint;   (* mutable cache *)
  read_socket_watcher_ : bool;   (* whether the read watcher is registered *)
  write_socket_watcher_ : bool;   (* whether the write watcher is registered *)
  read_buf_ : option nat;
  read_buf_len_ : Z;
  recv_from_address_ : option nat;
  write_buf_ : option nat;
  write_buf_len_ : Z;
  send_to_address_ : option IPEndPoint;
  read_callback_ : option nat;   (* None: the null callback *)
  write_callback_ : option nat;
  tag_ : SocketTag;
  owned_socket_count_ : bool;   (* true: holds an admission token *)
  received_activity_monitor_ : ReceivedActivityMonitor.t;
  experimental_recv_optimization_enabled_ : bool;
  always_update_bytes_received_ : bool;
  dont_close_ : bool
}.

Definition set_socket_ (v : Z) (s : UDPSocketPosix) : UDPSocketPosix :=
  mkUDPSocketPosix
    v (socket_hash_ s) (addr_family_ s) (is_connected_ s) (socket_options_ s)
    (sendto_flags_ s) (multicast_interface_ s) (multicast_time_to_live_ s)
    (bind_type_ s) (local_address_ s) (remote_address_ s) (read_socket_watcher_ s)
    (write_socket_watcher_ s) (read_buf_ s) (read_buf_len_ s) (recv_from_address_ s)
    (write_buf_ s) (write_buf_len_ s) (send_to_address_ s) (read_callback_ s)
    (write_callback_ s) (tag_ s) (owned_socket_count_ s) (received_activity_monitor_ s)
    (experimental_recv_optimization_enabled_ s) (always_update_bytes_received_ s)
    (dont_close_ s).

Definition set_socket_hash_ (v : Z) (s : UDPSocketPosix) : UDPSocketPosix :=
  mkUDPSocketPosix
    (socket_ s) v (addr_family_ s) (is_connected_ s) (socket_options_ s)
    (sendto_flags_ s) (multicast_interface_ s) (multicast_time_to_live_ s)
    (bind_type_ s) (local_address_ s) (remote_address_ s) (read_socket_watcher_ s)
    (write_socket_watcher_ s) (read_buf_ s) (read_buf_len_ s) (recv_from_address_ s)
    (write_buf_ s) (write_buf_len_ s) (send_to_address_ s) (read_callback_ s)
    (write_callback_ s) (tag_ s) (owned_socket_count_ s) (received_activity_monitor_ s)
    (experimental_recv_optimization_enabled_ s) (always_update_bytes_received_ s)
    (dont_close_ s).

Definition set_addr_family_ (v : Z) (s : UDPSocketPosix) : UDPSocketPosix :=
  mkUDPSocketPosix
    (socket_ s) (socket_hash_ s) v (is_connected_ s) (socket_options_ s)
    (sendto_flags_ s) (multicast_interface_ s) (multicast_time_to_live_ s)
    (bind_type_ s) (local_address_ s) (remote_address_ s) (read_socket_watcher_ s)
    (write_socket_watcher_ s) (read_buf_ s) (read_buf_len_ s) (recv_from_address_ s)
    (write_buf_ s) (write_buf_len_ s) (send_to_address_ s) (read_callback_ s)
    (write_callback_ s) (tag_ s) (owned_socket_count_ s) (received_activity_monitor_ s)
    (experimental_recv_optimization_enabled_ s) (always_update_bytes_received_ s)
    (dont_close_ s).

Definition set_is_connected_ (v : bool) (s : UDPSocketPosix) : UDPSocketPosix :=
  mkUDPSocketPosix
    (socket_ s) (socket_hash_ s) (addr_family_ s) v (socket_options_ s)
    (sendto_flags_ s) (multicast_interface_ s) (multicast_time_to_live_ s)
    (bind_type_ s) (local_address_ s) (remote_address_ s) (read_socket_watcher_ s)
    (write_socket_watcher_ s) (read_buf_ s) (read_buf_len_ s) (recv_from_address_ s)
    (write_buf_ s) (write_buf_len_ s) (send_to_address_ s) (read_callback_ s)
    (write_callback_ s) (tag_ s) (owned_socket_count_ s) (received_activity_monitor_ s)
    (experimental_recv_optimization_enabled_ s) (always_update_bytes_received_ s)
    (dont_close_ s).

Definition set_socket_options_ (v : Z) (s : UDPSocketPosix) : UDPSocketPosix :=
  mkUDPSocketPosix
    (socket_ s) (socket_hash_ s) (addr_family_ s) (is_connected_ s) v (sendto_flags_ s)
    (multicast_interface_ s) (multicast_time_to_live_ s) (bind_type_ s)
    (local_address_ s) (remote_address_ s) (read_socket_watcher_ s)
    (write_socket_watcher_ s) (read_buf_ s) (read_buf_len_ s) (recv_from_address_ s)
    (write_buf_ s) (write_buf_len_ s) (send_to_address_ s) (read_callback_ s)
    (write_callback_ s) (tag_ s) (owned_socket_count_ s) (received_activity_monitor_ s)
    (experimental_recv_optimization_enabled_ s) (always_update_bytes_received_ s)
    (dont_close_ s).

Definition set_sendto_flags_ (v : Z) (s : UDPSocketPosix) : UDPSocketPosix :=
  mkUDPSocketPosix
    (socket_ s) (socket_hash_ s) (addr_family_ s) (is_connected_ s) (socket_options_ s)
    v (multicast_interface_ s) (multicast_time_to_live_ s) (bind_type_ s)
    (local_address_ s) (remote_address_ s) (read_socket_watcher_ s)
    (write_socket_watcher_ s) (read_buf_ s) (read_buf_len_ s) (recv_from_address_ s)
    (write_buf_ s) (write_buf_len_ s) (send_to_address_ s) (read_callback_ s)
    (write_callback_ s) (tag_ s) (owned_socket_count_ s) (received_activity_monitor_ s)
    (experimental_recv_optimization_enabled_ s) (always_update_bytes_received_ s)
    (dont_close_ s).

Definition set_multicast_interface_ (v : Z) (s : UDPSocketPosix) : UDPSocketPosix :=
  mkUDPSocketPosix
    (socket_ s) (socket_hash_ s) (addr_family_ s) (is_connected_ s) (socket_options_ s)
    (sendto_flags_ s) v (multicast_time_to_live_ s) (bind_type_ s) (local_address_ s)
    (remote_address_ s) (read_socket_watcher_ s) (write_socket_watcher_ s) (read_buf_ s)
    (read_buf_len_ s) (recv_from_address_ s) (write_buf_ s) (write_buf_len_ s)
    (send_to_address_ s) (read_callback_ s) (write_callback_ s) (tag_ s)
    (owned_socket_count_ s) (received_activity_monitor_ s)
    (experimental_recv_optimization_enabled_ s) (always_update_bytes_received_ s)
    (dont_close_ s).

Definition set_multicast_time_to_live_ (v : Z) (s : UDPSocketPosix) : UDPSocketPosix :=
  mkUDPSocketPosix
    (socket_ s) (socket_hash_ s) (addr_family_ s) (is_connected_ s) (socket_options_ s)
    (sendto_flags_ s) (multicast_interface_ s) v (bind_type_ s) (local_address_ s)
    (remote_address_ s) (read_socket_watcher_ s) (write_socket_watcher_ s) (read_buf_ s)
    (read_buf_len_ s) (recv_from_address_ s) (write_buf_ s) (write_buf_len_ s)
    (send_to_address_ s) (read_callback_ s) (write_callback_ s) (tag_ s)
    (owned_socket_count_ s) (received_activity_monitor_ s)
    (experimental_recv_optimization_enabled_ s) (always_update_bytes_received_ s)
    (dont_close_ s).

Definition set_local_address_ (v : option IPEndPoint) (s : UDPSocketPosix) : UDPSocketPosix :=
  mkUDPSocketPosix
    (socket_ s) (socket_hash_ s) (addr_family_ s) (is_connected_ s) (socket_options_ s)
    (sendto_flags_ s) (multicast_interface_ s) (multicast_time_to_live_ s)
    (bind_type_ s) v (remote_address_ s) (read_socket_watcher_ s)
    (write_socket_watcher_ s) (read_buf_ s) (read_buf_len_ s) (recv_from_address_ s)
    (write_buf_ s) (write_buf_len_ s) (send_to_address_ s) (read_callback_ s)
    (write_callback_ s) (tag_ s) (owned_socket_count_ s) (received_activity_monitor_ s)
    (experimental_recv_optimization_enabled_ s) (always_update_bytes_received_ s)
    (dont_close_ s).

Definition set_remote_address_ (v : option IPEndPoint) (s : UDPSocketPosix) : UDPSocketPosix :=
  mkUDPSocketPosix
    (socket_ s) (socket_hash_ s) (addr_family_ s) (is_connected_ s) (socket_options_ s)
    (sendto_flags_ s) (multicast_interface_ s) (multicast_time_to_live_ s)
    (bind_type_ s) (local_address_ s) v (read_socket_watcher_ s)
    (write_socket_watcher_ s) (read_buf_ s) (read_buf_len_ s) (recv_from_address_ s)
    (write_buf_ s) (write_buf_len_ s) (send_to_address_ s) (read_callback_ s)
    (write_callback_ s) (tag_ s) (owned_socket_count_ s) (received_activity_monitor_ s)
    (experimental_recv_optimization_enabled_ s) (always_update_bytes_received_ s)
    (dont_close_ s).

Definition set_read_socket_watcher_ (v : bool) (s : UDPSocketPosix) : UDPSocketPosix :=
  mkUDPSocketPosix
    (socket_ s) (socket_hash_ s) (addr_family_ s) (is_connected_ s) (socket_options_ s)
    (sendto_flags_ s) (multicast_interface_ s) (multicast_time_to_live_ s)
    (bind_type_ s) (local_address_ s) (remote_address_ s) v (write_socket_watcher_ s)
    (read_buf_ s) (read_buf_len_ s) (recv_from_address_ s) (write_buf_ s)
    (write_buf_len_ s) (send_to_address_ s) (read_callback_ s) (write_callback_ s)
    (tag_ s) (owned_socket_count_ s) (received_activity_monitor_ s)
    (experimental_recv_optimization_enabled_ s) (always_update_bytes_received_ s)
    (dont_close_ s).

Definition set_write_socket_watcher_ (v : bool) (s : UDPSocketPosix) : UDPSocketPosix :=
  mkUDPSocketPosix
    (socket_ s) (socket_hash_ s) (addr_family_ s) (is_connected_ s) (socket_options_ s)
    (sendto_flags_ s) (multicast_interface_ s) (multicast_time_to_live_ s)
    (bind_type_ s) (local_address_ s) (remote_address_ s) (read_socket_watcher_ s) v
    (read_buf_ s) (read_buf_len_ s) (recv_from_address_ s) (write_buf_ s)
    (write_buf_len_ s) (send_to_address_ s) (read_callback_ s) (write_callback_ s)
    (tag_ s) (owned_socket_count_ s) (received_activity_monitor_ s)
    (experimental_recv_optimization_enabled_ s) (always_update_bytes_received_ s)
    (dont_close_ s).

Definition set_read_buf_ (v : option nat) (s : UDPSocketPosix) : UDPSocketPosix :=
  mkUDPSocketPosix
    (socket_ s) (socket_hash_ s) (addr_family_ s) (is_connected_ s) (socket_options_ s)
    (sendto_flags_ s) (multicast_interface_ s) (multicast_time_to_live_ s)
    (bind_type_ s) (local_address_ s) (remote_address_ s) (read_socket_watcher_ s)
    (write_socket_watcher_ s) v (read_buf_len_ s) (recv_from_address_ s) (write_buf_ s)
    (write_buf_len_ s) (send_to_address_ s) (read_callback_ s) (write_callback_ s)
    (tag_ s) (owned_socket_count_ s) (received_activity_monitor_ s)
    (experimental_recv_optimization_enabled_ s) (always_update_bytes_received_ s)
    (dont_close_ s).

Definition set_read_buf_len_ (v : Z) (s : UDPSocketPosix) : UDPSocketPosix :=
  mkUDPSocketPosix
    (socket_ s) (socket_hash_ s) (addr_family_ s) (is_connected_ s) (socket_options_ s)
    (sendto_flags_ s) (multicast_interface_ s) (multicast_time_to_live_ s)
    (bind_type_ s) (local_address_ s) (remote_address_ s) (read_socket_watcher_ s)
    (write_socket_watcher_ s) (read_buf_ s) v (recv_from_address_ s) (write_buf_ s)
    (write_buf_len_ s) (send_to_address_ s) (read_callback_ s) (write_callback_ s)
    (tag_ s) (owned_socket_count_ s) (received_activity_monitor_ s)
    (experimental_recv_optimization_enabled_ s) (always_update_bytes_received_ s)
    (dont_close_ s).

Definition set_recv_from_address_ (v : option nat) (s : UDPSocketPosix) : UDPSocketPosix :=
  mkUDPSocketPosix
    (socket_ s) (socket_hash_ s) (addr_family_ s) (is_connected_ s) (socket_options_ s)
    (sendto_flags_ s) (multicast_interface_ s) (multicast_time_to_live_ s)
    (bind_type_ s) (local_address_ s) (remote_address_ s) (read_socket_watcher_ s)
    (write_socket_watcher_ s) (read_buf_ s) (read_buf_len_ s) v (write_buf_ s)
    (write_buf_len_ s) (send_to_address_ s) (read_callback_ s) (write_callback_ s)
    (tag_ s) (owned_socket_count_ s) (received_activity_monitor_ s)
    (experimental_recv_optimization_enabled_ s) (always_update_bytes_received_ s)
    (dont_close_ s).

Definition set_write_buf_ (v : option nat) (s : UDPSocketPosix) : UDPSocketPosix :=
  mkUDPSocketPosix
    (socket_ s) (socket_hash_ s) (addr_family_ s) (is_connected_ s) (socket_options_ s)
    (sendto_flags_ s) (multicast_interface_ s) (multicast_time_to_live_ s)
    (bind_type_ s) (local_address_ s) (remote_address_ s) (read_socket_watcher_ s)
    (write_socket_watcher_ s) (read_buf_ s) (read_buf_len_ s) (recv_from_address_ s) v
    (write_buf_len_ s) (send_to_address_ s) (read_callback_ s) (write_callback_ s)
    (tag_ s) (owned_socket_count_ s) (received_activity_monitor_ s)
    (experimental_recv_optimization_enabled_ s) (always_update_bytes_received_ s)
    (dont_close_ s).

Definition set_write_buf_len_ (v : Z) (s : UDPSocketPosix) : UDPSocketPosix :=
  mkUDPSocketPosix
    (socket_ s) (socket_hash_ s) (addr_family_ s) (is_connected_ s) (socket_options_ s)
    (sendto_flags_ s) (multicast_interface_ s) (multicast_time_to_live_ s)
    (bind_type_ s) (local_address_ s) (remote_address_ s) (read_socket_watcher_ s)
    (write_socket_watcher_ s) (read_buf_ s) (read_buf_len_ s) (recv_from_address_ s)
    (write_buf_ s) v (send_to_address_ s) (read_callback_ s) (write_callback_ s)
    (tag_ s) (owned_socket_count_ s) (received_activity_monitor_ s)
    (experimental_recv_optimization_enabled_ s) (always_update_bytes_received_ s)
    (dont_close_ s).

Definition set_send_to_address_ (v : option IPEndPoint) (s : UDPSocketPosix) : UDPSocketPosix :=
  mkUDPSocketPosix
    (socket_ s) (socket_hash_ s) (addr_family_ s) (is_connected_ s) (socket_options_ s)
    (sendto_flags_ s) (multicast_interface_ s) (multicast_time_to_live_ s)
    (bind_type_ s) (local_address_ s) (remote_address_ s) (read_socket_watcher_ s)
    (write_socket_watcher_ s) (read_buf_ s) (read_buf_len_ s) (recv_from_address_ s)
    (write_buf_ s) (write_buf_len_ s) v (read_callback_ s) (write_callback_ s) (tag_ s)
    (owned_socket_count_ s) (received_activity_monitor_ s)
    (experimental_recv_optimization_enabled_ s) (always_update_bytes_received_ s)
    (dont_close_ s).

Definition set_read_callback_ (v : option nat) (s : UDPSocketPosix) : UDPSocketPosix :=
  mkUDPSocketPosix
    (socket_ s) (socket_hash_ s) (addr_family_ s) (is_connected_ s) (socket_options_ s)
    (sendto_flags_ s) (multicast_interface_ s) (multicast_time_to_live_ s)
    (bind_type_ s) (local_address_ s) (remote_address_ s) (read_socket_watcher_ s)
    (write_socket_watcher_ s) (read_buf_ s) (read_buf_len_ s) (recv_from_address_ s)
    (write_buf_ s) (write_buf_len_ s) (send_to_address_ s) v (write_callback_ s)
    (tag_ s) (owned_socket_count_ s) (received_activity_monitor_ s)
    (experimental_recv_optimization_enabled_ s) (always_update_bytes_received_ s)
    (dont_close_ s).

Definition set_write_callback_ (v : option nat) (s : UDPSocketPosix) : UDPSocketPosix :=
  mkUDPSocketPosix
    (socket_ s) (socket_hash_ s) (addr_family_ s) (is_connected_ s) (socket_options_ s)
    (sendto_flags_ s) (multicast_interface_ s) (multicast_time_to_live_ s)
    (bind_type_ s) (local_address_ s) (remote_address_ s) (read_socket_watcher_ s)
    (write_socket_watcher_ s) (read_buf_ s) (read_buf_len_ s) (recv_from_address_ s)
    (write_buf_ s) (write_buf_len_ s) (send_to_address_ s) (read_callback_ s) v (tag_ s)
    (owned_socket_count_ s) (received_activity_monitor_ s)
    (experimental_recv_optimization_enabled_ s) (always_update_bytes_received_ s)
    (dont_close_ s).

Definition set_tag_ (v : SocketTag) (s : UDPSocketPosix) : UDPSocketPosix :=
  mkUDPSocketPosix
    (socket_ s) (socket_hash_ s) (addr_family_ s) (is_connected_ s) (socket_options_ s)
    (sendto_flags_ s) (multicast_interface_ s) (multicast_time_to_live_ s)
    (bind_type_ s) (local_address_ s) (remote_address_ s) (read_socket_watcher_ s)
    (write_socket_watcher_ s) (read_buf_ s) (read_buf_len_ s) (recv_from_address_ s)
    (write_buf_ s) (write_buf_len_ s) (send_to_address_ s) (read_callback_ s)
    (write_callback_ s) v (owned_socket_count_ s) (received_activity_monitor_ s)
    (experimental_recv_optimization_enabled_ s) (always_update_bytes_received_ s)
    (dont_close_ s).

Definition set_owned_socket_count_ (v : bool) (s : UDPSocketPosix) : UDPSocketPosix :=
  mkUDPSocketPosix
    (socket_ s) (socket_hash_ s) (addr_family_ s) (is_connected_ s) (socket_options_ s)
    (sendto_flags_ s) (multicast_interface_ s) (multicast_time_to_live_ s)
    (bind_type_ s) (local_address_ s) (remote_address_ s) (read_socket_watcher_ s)
    (write_socket_watcher_ s) (read_buf_ s) (read_buf_len_ s) (recv_from_address_ s)
    (write_buf_ s) (write_buf_len_ s) (send_to_address_ s) (read_callback_ s)
    (write_callback_ s) (tag_ s) v (received_activity_monitor_ s)
    (experimental_recv_optimization_enabled_ s) (always_update_bytes_received_ s)
    (dont_close_ s).

Definition set_received_activity_monitor_ (v : ReceivedActivityMonitor.t) (s : UDPSocketPosix) : UDPSocketPosix :=
  mkUDPSocketPosix
    (socket_ s) (socket_hash_ s) (addr_family_ s) (is_connected_ s) (socket_options_ s)
    (sendto_flags_ s) (multicast_interface_ s) (multicast_time_to_live_ s)
    (bind_type_ s) (local_address_ s) (remote_address_ s) (read_socket_watcher_ s)
    (write_socket_watcher_ s) (read_buf_ s) (read_buf_len_ s) (recv_from_address_ s)
    (write_buf_ s) (write_buf_len_ s) (send_to_address_ s) (read_callback_ s)
    (write_callback_ s) (tag_ s) (owned_socket_count_ s) v
    (experimental_recv_optimization_enabled_ s) (always_update_bytes_received_ s)
    (dont_close_ s).

Definition set_experimental_recv_optimization_enabled_ (v : bool) (s : UDPSocketPosix) : UDPSocketPosix :=
  mkUDPSocketPosix
    (socket_ s) (socket_hash_ s) (addr_family_ s) (is_connected_ s) (socket_options_ s)
    (sendto_flags_ s) (multicast_interface_ s) (multicast_time_to_live_ s)
    (bind_type_ s) (local_address_ s) (remote_address_ s) (read_socket_watcher_ s)
    (write_socket_watcher_ s) (read_buf_ s) (read_buf_len_ s) (recv_from_address_ s)
    (write_buf_ s) (write_buf_len_ s) (send_to_address_ s) (read_callback_ s)
    (write_callback_ s) (tag_ s) (owned_socket_count_ s) (received_activity_monitor_ s)
    v (always_update_bytes_received_ s) (dont_close_ s).

Definition set_dont_close_ (v : bool) (s : UDPSocketPosix) : UDPSocketPosix :=
  mkUDPSocketPosix
    (socket_ s) (socket_hash_ s) (addr_family_ s) (is_connected_ s) (socket_options_ s)
    (sendto_flags_ s) (multicast_interface_ s) (multicast_time_to_live_ s)
    (bind_type_ s) (local_address_ s) (remote_address_ s) (read_socket_watcher_ s)
    (write_socket_watcher_ s) (read_buf_ s) (read_buf_len_ s) (recv_from_address_ s)
    (write_buf_ s) (write_buf_len_ s) (send_to_address_ s) (read_callback_ s)
    (write_callback_ s) (tag_ s) (owned_socket_count_ s) (received_activity_monitor_ s)
    (experimental_recv_optimization_enabled_ s) (always_update_bytes_received_ s) v.
(** A freshly constructed socket: the constructor's member initialisers and
    the default member initialisers of the header (udp_socket_posix.h, which
    is not among the sources): multicast loopback requested, multicast
    time-to-live 1, no multicast interface, nothing pending, the default
    tag. *)
Definition UDPSocketPosix_new (bind_type : BindType)
    (always_update_bytes_received : bool) : UDPSocketPosix :=
  mkUDPSocketPosix kInvalidSocket 0 0 false SOCKET_OPTION_MULTICAST_LOOP 0 0 1
    bind_type None None false false
    None 0 None None 0 None None None SocketTag_default false
    ReceivedActivityMonitor.init false always_update_bytes_received false.

(** ** The monad of the member functions

    A member function reads and writes the object and the world, and either
    returns or dies on a failed [CHECK]/[PCHECK].  ([DCHECK]s are debug-only
    and state preconditions; they are kept as comments.) *)

Inductive Outcome (A : Type) : Type :=
| Done (a : A) (s : UDPSocketPosix) (w : World)
| Fatal (w : World).
Arguments Done {A} a s w.
Arguments Fatal {A} w.

Definition M (A : Type) : Type := UDPSocketPosix -> World -> Outcome A.

Definition ret {A} (a : A) : M A := fun s w => Done a s w.

Definition bind {A B} (m : M A) (k : A -> M B) : M B :=
  fun s w =>
    match m s w with
    | Done a s' w' => k a s' w'
    | Fatal w' => Fatal w'
    end.

Declare Scope udp_scope.
Delimit Scope udp_scope with udp.
Notation "x <- m ;; k" := (bind m (fun x => k))
  (at level 61, m at next level, right associativity) : udp_scope.
Notation "m ;; k" := (bind m (fun _ => k))
  (at level 61, right associativity) : udp_scope.
Open Scope udp_scope.

Definition gets {A} (f : UDPSocketPosix -> A) : M A := fun s w => Done (f s) s w.
Definition modify (f : UDPSocketPosix -> UDPSocketPosix) : M unit :=
  fun s w => Done tt (f s) w.
Definition liftW {A} (f : World -> A * World) : M A :=
  fun s w => let '(a, w') := f w in Done a s w'.
Definition effect (f : World -> World) : M unit := fun s w => Done tt s (f w).
Definition CHECK (b : bool) : M unit := fun s w => if b then Done tt s w else Fatal w.

(** ** System calls *)

(** The kernel's next answer.  A script that has run out answers [EIO] (5)
    to everything. *)
Definition next_answer (w : World) : SysAnswer * World :=
  match script w with
  | [] => (SysErr 5, w)
  | a :: rest => (a, set_script rest w)
  end.

(** One call: the answer is taken, a failure sets [errno], and the call goes
    to the trace with its answer. *)
Definition syscall (c : Call) (w : World) : SysAnswer * World :=
  let '(a, w1) := next_answer w in
  (a, emit (EvSys c a) (match a with SysErr e => set_errno (Zpos e) w1 | _ => w1 end)).

(** Calls that return 0 or -1. *)
Definition sys_status (c : Call) (w : World) : Z * World :=
  let '(a, w') := syscall c w in
  (match a with SysErr _ => -1 | _ => 0 end, w').

Definition answer_size (a : SysAnswer) : Z :=
  match a with
  | SysErr _ => -1
  | SysOk v => Z.of_N v
  | SysMsg size _ => Z.of_N size
  end.

(** Calls that return a new descriptor or -1. *)
Definition sys_value (c : Call) (w : World) : Z * World :=
  let '(a, w') := syscall c w in (answer_size a, w').

(** Calls that move at most [len] bytes of a datagram and return the number
    of bytes moved, or -1. *)
Definition sys_transfer (c : Call) (len : Z) (w : World) : Z * World :=
  let '(a, w') := syscall c w in
  (match a with SysErr _ => -1 | _ => Z.min (answer_size a) len end, w').

(** [recvmsg]: the byte count (or -1), the sender's address as the kernel
    filled it in, and whether [MSG_TRUNC] is set in [msg_flags]. *)
Definition sys_recvmsg (fd : Z) (buf : option nat) (len : Z) (w : World)
  : (Z * option SockAddr * bool) * World :=
  let '(a, w') := syscall (c_recvmsg fd buf len) w in
  (match a with
   | SysErr _ => (-1, None, false)
   | SysOk v => (Z.min (Z.of_N v) len, None, len <? Z.of_N v)
   | SysMsg size name => (Z.min (Z.of_N size) len, Some name, len <? Z.of_N size)
   end, w').

(** [getpeername]/[getsockname]: the status and the address filled in. *)
Definition sys_getname (c : Call) (w : World) : (Z * option SockAddr) * World :=
  let '(a, w') := syscall c w in
  (match a with
   | SysErr _ => (-1, None)
   | SysOk _ => (0, None)
   | SysMsg _ name => (0, Some name)
   end, w').

(** [HANDLE_EINTR(x)], the macro of base/posix/eintr_wrapper.h (not among
    the sources), as release builds have it:
    [do { r = x; } while (r == -1 && errno == EINTR)].
    Every repetition consumes one scripted answer, so the length of the
    script bounds the number of repetitions. *)
Fixpoint eintr_loop {A} (result : A -> Z) (fuel : nat) (x : World -> A * World)
    (w : World) : A * World :=
  let '(r, w') := x w in
  match fuel with
  | O => (r, w')
  | S fuel' =>
      if (result r =? -1) && (errno w' =? EINTR)
      then eintr_loop result fuel' x w'
      else (r, w')
  end.

Definition HANDLE_EINTR (x : World -> Z * World) (w : World) : Z * World :=
  eintr_loop (fun r => r) (length (script w)) x w.

(** [HANDLE_EINTR(recvmsg(...))], whose result comes with what the call left
    in the [msghdr]. *)
Definition HANDLE_EINTR_recvmsg (x : World -> (Z * option SockAddr * bool) * World)
    (w : World) : (Z * option SockAddr * bool) * World :=
  eintr_loop (fun r => fst (fst r)) (length (script w)) x w.

(** [IGNORE_EINTR(x)], of the same header: an interrupted call counts as
    done. *)
Definition IGNORE_EINTR (x : World -> Z * World) (w : World) : Z * World :=
  let '(r, w') := x w in
  (if (r =? -1) && (errno w' =? EINTR) then 0 else r, w').

(** Modelled from the spec: [base::RandInt(min, max)] (base/rand_util.cc is
    not among the sources), "a uniformly random port in [1024, 65535]": a
    number between [min] and [max] inclusive, taken from the world's
    entropy. *)
Definition RandInt (min max : Z) (w : World) : Z * World :=
  let result := min + hd 0 (entropy w) mod (max - min + 1) in
  (result, emit (EvRandInt min max result) (set_entropy (tl (entropy w)) w)).

(** Modelled from the spec: the admission gate, "[TryAcquire() -> Token |
    Empty]", which "bounds the number of simultaneously open sockets
    process-wide to a fixed capacity" (net/socket/udp_socket_global_limits.cc
    is not among the sources).  [true] is a token. *)
Definition TryAcquireGlobalUDPSocketCount (cfg : Config) (w : World) : bool * World :=
  if udp_socket_count w <? max_udp_sockets cfg
  then (true, set_udp_socket_count (udp_socket_count w + 1) w)
  else (false, w).

(** Releasing a token "returns capacity to the gate"; releasing the empty
    handle does nothing ([OwnedUDPSocketCount::Reset] and its destructor). *)
Definition OwnedUDPSocketCount_Reset (owned : bool) (w : World) : World :=
  if owned then set_udp_socket_count (udp_socket_count w - 1) w else w.

Definition GetSocketFDHash (fd : Z) : Z := Z.lxor fd 1595649551.

(** ** The member functions of UDPSocketPosix *)

Section Engine.

Context (cfg : Config).

(** [#if BUILDFLAG(IS_APPLE) && !BUILDFLAG(CRONET_BUILD)]: the descriptor is
    guarded. *)
Definition fd_guarded : bool := IS_APPLE cfg && negb (CRONET_BUILD cfg).

Definition get_errno : M Z := fun s w => Done (errno w) s w.

(** Run a member function of [received_activity_monitor_]. *)
Definition monitor_do
    (f : ReceivedActivityMonitor.t -> World -> ReceivedActivityMonitor.t * World)
  : M unit :=
  fun s w =>
    let '(m', w') := f (received_activity_monitor_ s) w in
    Done tt (set_received_activity_monitor_ m' s) w'.

Definition option_bind {A B} (f : A -> option B) (o : option A) : option B :=
  match o with
  | Some a => f a
  | None => None
  end.

(** [GetPeerAddress(IPEndPoint* address)]: the result and what is assigned to
    [*address]. *)
Definition GetPeerAddress : M (Z * option IPEndPoint) :=
  connected <- gets is_connected_ ;;
  if negb connected then ret (ERR_SOCKET_NOT_CONNECTED, None) else
  remote <- gets remote_address_ ;;
  match remote with
  | Some ep => ret (OK, Some ep)
  | None =>
      fd <- gets socket_ ;;
      r <- liftW (sys_getname (c_getpeername fd)) ;;
      if negb (fst r =? 0) then e <- get_errno ;; ret (MapSystemError cfg e, None) else
      match option_bind FromSockAddr (snd r) with
      | None => ret (ERR_ADDRESS_INVALID, None)
      | Some endpoint =>
          modify (set_remote_address_ (Some endpoint)) ;;
          ret (OK, Some endpoint)
      end
  end.

Definition GetLocalAddress : M (Z * option IPEndPoint) :=
  connected <- gets is_connected_ ;;
  if negb connected then ret (ERR_SOCKET_NOT_CONNECTED, None) else
  local <- gets local_address_ ;;
  match local with
  | Some ep => ret (OK, Some ep)
  | None =>
      fd <- gets socket_ ;;
      r <- liftW (sys_getname (c_getsockname fd)) ;;
      if negb (fst r =? 0) then e <- get_errno ;; ret (MapSystemError cfg e, None) else
      match option_bind FromSockAddr (snd r) with
      | None => ret (ERR_ADDRESS_INVALID, None)
      | Some endpoint =>
          modify (set_local_address_ (Some endpoint)) ;;
          ret (OK, Some endpoint)
      end
  end.

(** The platform's way of closing the descriptor (lines 251-278). *)
Definition PlatformClose (fd : Z) : M unit :=
  if fd_guarded then
    (* TRACE_EVENT: PeerIsZeroIPv4 chooses the name of the trace event *)
    (if trace_base_enabled cfg then _ <- GetPeerAddress ;; ret tt else ret tt) ;;
    _ <- liftW (HANDLE_EINTR (sys_status (c_getsockopt fd SOL_SOCKET SO_ERROR))) ;;
    r <- liftW (IGNORE_EINTR (sys_status (c_guarded_close fd))) ;;
    if negb (r =? 0)
    then e <- get_errno ;; CHECK ((e =? ENOTCONN) || (e =? EPROTOTYPE))
    else ret tt
  else
    r <- liftW (IGNORE_EINTR (sys_status (c_close fd))) ;;
    CHECK (r =? 0).

Definition Close : M unit :=
  dont_close <- gets dont_close_ ;;
  CHECK (negb dont_close) ;;
  owned <- gets owned_socket_count_ ;;
  effect (OwnedUDPSocketCount_Reset owned) ;;
  modify (set_owned_socket_count_ false) ;;
  fd <- gets socket_ ;;
  if fd =? kInvalidSocket then ret tt else
  (* Zero out any pending read/write callback state. *)
  modify (set_read_buf_ None) ;;
  modify (set_read_buf_len_ 0) ;;
  modify (set_read_callback_ None) ;;
  modify (set_recv_from_address_ None) ;;
  modify (set_write_buf_ None) ;;
  modify (set_write_buf_len_ 0) ;;
  modify (set_write_callback_ None) ;;
  modify (set_send_to_address_ None) ;;
  effect (emit (EvStopWatching WATCH_READ)) ;;
  modify (set_read_socket_watcher_ false) ;;
  effect (emit (EvStopWatching WATCH_WRITE)) ;;
  modify (set_write_socket_watcher_ false) ;;
  (* Verify that |socket_| hasn't been corrupted. *)
  hash <- gets socket_hash_ ;;
  CHECK (hash =? GetSocketFDHash fd) ;;
  PlatformClose fd ;;
  modify (set_socket_ kInvalidSocket) ;;
  modify (set_addr_family_ 0) ;;
  modify (set_is_connected_ false) ;;
  modify (set_tag_ SocketTag_default) ;;
  monitor_do ReceivedActivityMonitor.OnClose.

Definition Open (address_family : AddressFamily) : M Z :=
  (* DCHECK_EQ(socket_, kInvalidSocket) *)
  owned_socket_count <- liftW (TryAcquireGlobalUDPSocketCount cfg) ;;
  if negb owned_socket_count then ret ERR_INSUFFICIENT_RESOURCES else
  modify (set_addr_family_ (ConvertAddressFamily address_family)) ;;
  family <- gets addr_family_ ;;
  fd <- liftW (sys_value (c_socket family)) ;;
  modify (set_socket_ fd) ;;
  if fd =? kInvalidSocket then
    e <- get_errno ;;
    effect (OwnedUDPSocketCount_Reset owned_socket_count) ;;
    ret (MapSystemError cfg e)
  else
  (if fd_guarded
   then r <- liftW (sys_status (c_change_fdguard fd)) ;; CHECK (r =? 0)
   else ret tt) ;;
  modify (set_socket_hash_ (GetSocketFDHash fd)) ;;
  nonblocking <- liftW (sys_status (c_set_nonblocking fd)) ;;
  if negb (nonblocking =? 0) then
    e <- get_errno ;;
    let err := MapSystemError cfg e in
    Close ;;
    effect (OwnedUDPSocketCount_Reset owned_socket_count) ;;
    ret err
  else
  tag <- gets tag_ ;;
  (if negb (SocketTag_eqb tag SocketTag_default)
   then effect (emit (EvTagApply tag fd))
   else ret tt) ;;
  (* owned_socket_count_ = std::move(owned_socket_count) *)
  previous <- gets owned_socket_count_ ;;
  effect (OwnedUDPSocketCount_Reset previous) ;;
  modify (set_owned_socket_count_ owned_socket_count) ;;
  ret OK.

(** [LogRead], without the net log: what it does to the byte counters. *)
Definition LogRead (result : Z) : M unit :=
  if result <? 0 then ret tt else
  always <- gets always_update_bytes_received_ ;;
  if always
  then effect (IncrementBytesReceived result)
  else monitor_do (ReceivedActivityMonitor.Increment (u32 result)).

Definition InternalRecvFromConnectedSocket (buf : option nat) (buf_len : Z)
    (address : option nat) : M Z :=
  (* DCHECK(is_connected_); DCHECK(remote_address_) *)
  fd <- gets socket_ ;;
  bytes_transferred <-
    liftW (HANDLE_EINTR (sys_transfer (c_read fd buf buf_len) buf_len)) ;;
  if bytes_transferred <? 0 then
    e <- get_errno ;;
    let result := MapSystemError cfg e in
    if result =? ERR_IO_PENDING then ret result
    else LogRead result ;; ret result
  else if bytes_transferred =? buf_len then
    LogRead ERR_MSG_TOO_BIG ;; ret ERR_MSG_TOO_BIG
  else
    remote <- gets remote_address_ ;;
    match address, remote with
    | Some loc, Some ep => effect (store_endpoint loc ep)
    | _, _ => ret tt
    end ;;
    LogRead bytes_transferred ;;
    ret bytes_transferred.

Definition InternalRecvFromNonConnectedSocket (buf : option nat) (buf_len : Z)
    (address : option nat) : M Z :=
  fd <- gets socket_ ;;
  r <- liftW (HANDLE_EINTR_recvmsg (sys_recvmsg fd buf buf_len)) ;;
  let '(bytes_transferred, name, msg_trunc) := r in
  if bytes_transferred <? 0 then
    e <- get_errno ;;
    let result := MapSystemError cfg e in
    if result =? ERR_IO_PENDING then ret result
    else LogRead result ;; ret result
  else if msg_trunc then
    LogRead ERR_MSG_TOO_BIG ;; ret ERR_MSG_TOO_BIG
  else
    match address with
    | Some loc =>
        match option_bind FromSockAddr name with
        | None => LogRead ERR_ADDRESS_INVALID ;; ret ERR_ADDRESS_INVALID
        | Some ep =>
            effect (store_endpoint loc ep) ;;
            LogRead bytes_transferred ;; ret bytes_transferred
        end
    | None => LogRead bytes_transferred ;; ret bytes_transferred
    end.

Definition is_some {A} (o : option A) : bool :=
  match o with Some _ => true | None => false end.

Definition InternalRecvFrom (buf : option nat) (buf_len : Z) (address : option nat)
  : M Z :=
  optimization <- gets experimental_recv_optimization_enabled_ ;;
  connected <- gets is_connected_ ;;
  remote <- gets remote_address_ ;;
  if optimization && connected && is_some remote
  then InternalRecvFromConnectedSocket buf buf_len address
  else InternalRecvFromNonConnectedSocket buf buf_len address.

Definition RecvFrom (buf : option nat) (buf_len : Z) (address : option nat)
    (callback : option nat) : M Z :=
  (* DCHECK_NE(kInvalidSocket, socket_); DCHECK(!recv_from_address_);
     DCHECK(!callback.is_null()); DCHECK_GT(buf_len, 0) *)
  pending <- gets read_callback_ ;;
  CHECK (negb (is_some pending)) ;;
  nread <- InternalRecvFrom buf buf_len address ;;
  if negb (nread =? ERR_IO_PENDING) then ret nread else
  fd <- gets socket_ ;;
  watching <- liftW (sys_status (c_watch fd WATCH_READ)) ;;
  if negb (watching =? 0) then
    e <- get_errno ;;
    let result := MapSystemError cfg e in
    LogRead result ;; ret result
  else
  modify (set_read_socket_watcher_ true) ;;
  modify (set_read_buf_ buf) ;;
  modify (set_read_buf_len_ buf_len) ;;
  modify (set_recv_from_address_ address) ;;
  modify (set_read_callback_ callback) ;;
  ret ERR_IO_PENDING.

Definition Read (buf : option nat) (buf_len : Z) (callback : option nat) : M Z :=
  RecvFrom buf buf_len None callback.

(** [std::move(read_callback_).Run(rv)]: the member is left null, the
    callback runs. *)
Definition DoReadCallback (rv : Z) : M unit :=
  callback <- gets read_callback_ ;;
  modify (set_read_callback_ None) ;;
  match callback with
  | Some c => effect (emit (EvRunCallback c rv))
  | None => ret tt
  end.

Definition DidCompleteRead : M unit :=
  buf <- gets read_buf_ ;;
  buf_len <- gets read_buf_len_ ;;
  address <- gets recv_from_address_ ;;
  result <- InternalRecvFrom buf buf_len address ;;
  if negb (result =? ERR_IO_PENDING) then
    modify (set_read_buf_ None) ;;
    modify (set_read_buf_len_ 0) ;;
    modify (set_recv_from_address_ None) ;;
    effect (emit (EvStopWatching WATCH_READ)) ;;
    modify (set_read_socket_watcher_ false) ;;
    DoReadCallback result
  else ret tt.

(** [ReadWatcher::OnFileCanReadWithoutBlocking] *)
Definition OnFileCanReadWithoutBlocking : M unit :=
  callback <- gets read_callback_ ;;
  if is_some callback then DidCompleteRead else ret tt.

Definition fail_with_errno : M Z := e <- get_errno ;; ret (MapSystemError cfg e).

Definition InternalSendTo (buf : option nat) (buf_len : Z)
    (address : option IPEndPoint) : M Z :=
  fd <- gets socket_ ;;
  flags <- gets sendto_flags_ ;;
  match address, option_bind ToSockAddr address with
  | Some _, None => ret ERR_ADDRESS_INVALID
  | _, dest =>
      result <- liftW (HANDLE_EINTR
                         (sys_transfer (c_sendto fd buf buf_len flags dest) buf_len)) ;;
      if result <? 0 then fail_with_errno else ret result
  end.

Definition SendToOrWrite (buf : option nat) (buf_len : Z)
    (address : option IPEndPoint) (callback : option nat) : M Z :=
  (* DCHECK_NE(kInvalidSocket, socket_); DCHECK(!callback.is_null());
     DCHECK_GT(buf_len, 0) *)
  pending <- gets write_callback_ ;;
  CHECK (negb (is_some pending)) ;;
  result <- InternalSendTo buf buf_len address ;;
  if negb (result =? ERR_IO_PENDING) then ret result else
  fd <- gets socket_ ;;
  watching <- liftW (sys_status (c_watch fd WATCH_WRITE)) ;;
  if negb (watching =? 0) then fail_with_errno else
  modify (set_write_socket_watcher_ true) ;;
  modify (set_write_buf_ buf) ;;
  modify (set_write_buf_len_ buf_len) ;;
  (* DCHECK(!send_to_address_.get()) *)
  match address with
  | Some _ => modify (set_send_to_address_ address)
  | None => ret tt
  end ;;
  modify (set_write_callback_ callback) ;;
  ret ERR_IO_PENDING.

Definition Write (buf : option nat) (buf_len : Z) (callback : option nat) : M Z :=
  SendToOrWrite buf buf_len None callback.

Definition SendTo (buf : option nat) (buf_len : Z) (address : IPEndPoint)
    (callback : option nat) : M Z :=
  SendToOrWrite buf buf_len (Some address) callback.

Definition DoWriteCallback (rv : Z) : M unit :=
  callback <- gets write_callback_ ;;
  modify (set_write_callback_ None) ;;
  match callback with
  | Some c => effect (emit (EvRunCallback c rv))
  | None => ret tt
  end.

Definition DidCompleteWrite : M unit :=
  buf <- gets write_buf_ ;;
  buf_len <- gets write_buf_len_ ;;
  address <- gets send_to_address_ ;;
  result <- InternalSendTo buf buf_len address ;;
  if negb (result =? ERR_IO_PENDING) then
    modify (set_write_buf_ None) ;;
    modify (set_write_buf_len_ 0) ;;
    modify (set_send_to_address_ None) ;;
    effect (emit (EvStopWatching WATCH_WRITE)) ;;
    modify (set_write_socket_watcher_ false) ;;
    DoWriteCallback result
  else ret tt.

(** [WriteWatcher::OnFileCanWriteWithoutBlocking] *)
Definition OnFileCanWriteWithoutBlocking : M unit :=
  callback <- gets write_callback_ ;;
  if is_some callback then DidCompleteWrite else ret tt.

Definition DoBind (address : IPEndPoint) : M Z :=
  match ToSockAddr address with
  | None => ret ERR_ADDRESS_INVALID
  | Some storage =>
      fd <- gets socket_ ;;
      rv <- liftW (sys_status (c_bind fd storage)) ;;
      if rv =? 0 then ret OK else
      last_error <- get_errno ;;
      if IS_CHROMEOS_ASH cfg then
        if last_error =? EINVAL then ret ERR_ADDRESS_IN_USE
        else ret (MapSystemError cfg last_error)
      else if IS_APPLE cfg then
        if last_error =? EADDRNOTAVAIL then ret ERR_ADDRESS_IN_USE
        else ret (MapSystemError cfg last_error)
      else ret (MapSystemError cfg last_error)
  end.

(** The loop of [RandomBind], with [remaining = kBindRetries - i] rounds to
    go, and the fall-back to port 0 after it. *)
Fixpoint RandomBind_loop (remaining : nat) (address : IPAddress) : M Z :=
  match remaining with
  | O => DoBind (mkIPEndPoint address 0)
  | S remaining' =>
      port <- liftW (RandInt kPortStart kPortEnd) ;;
      rv <- DoBind (mkIPEndPoint address port) ;;
      if negb (rv =? ERR_ADDRESS_IN_USE) then ret rv
      else RandomBind_loop remaining' address
  end.

Definition RandomBind (address : IPAddress) : M Z :=
  (* DCHECK_EQ(bind_type_, DatagramSocket::RANDOM_BIND) *)
  RandomBind_loop (Z.to_nat kBindRetries) address.

Definition SetMulticastOptions : M Z :=
  fd <- gets socket_ ;;
  family <- gets addr_family_ ;;
  options <- gets socket_options_ ;;
  time_to_live <- gets multicast_time_to_live_ ;;
  interface <- gets multicast_interface_ ;;
  let set_interface : M Z :=
    if negb (interface =? 0) then
      if family =? AF_INET then
        rv <- liftW (sys_status (c_setsockopt fd IPPROTO_IP IP_MULTICAST_IF
                                   (OptMreqn [0; 0; 0; 0] INADDR_ANY
                                      (int_of_uint32 interface)))) ;;
        if negb (rv =? 0) then fail_with_errno else ret OK
      else if family =? AF_INET6 then
        rv <- liftW (sys_status (c_setsockopt fd IPPROTO_IPV6 IPV6_MULTICAST_IF
                                   (OptUInt interface))) ;;
        if negb (rv =? 0) then fail_with_errno else ret OK
      else ret ERR_ADDRESS_INVALID   (* NOTREACHED() *)
    else ret OK in
  let set_time_to_live : M Z :=
    if negb (time_to_live =? IP_DEFAULT_MULTICAST_TTL) then
      rv <- liftW (sys_status
                     (if family =? AF_INET
                      then c_setsockopt fd IPPROTO_IP IP_MULTICAST_TTL
                             (OptUChar (time_to_live mod 256))
                      else c_setsockopt fd IPPROTO_IPV6 IPV6_MULTICAST_HOPS
                             (OptInt time_to_live))) ;;
      if rv <? 0 then fail_with_errno else set_interface
    else set_interface in
  if Z.land options SOCKET_OPTION_MULTICAST_LOOP =? 0 then
    rv <- liftW (sys_status
                   (if family =? AF_INET
                    then c_setsockopt fd IPPROTO_IP IP_MULTICAST_LOOP (OptUChar 0)
                    else c_setsockopt fd IPPROTO_IPV6 IPV6_MULTICAST_LOOP (OptUInt 0))) ;;
    if rv <? 0 then fail_with_errno else set_time_to_live
  else set_time_to_live.

Definition InternalConnect (address : IPEndPoint) : M Z :=
  (* DCHECK(!is_connected()); DCHECK(!remote_address_.get()) *)
  bind_type <- gets bind_type_ ;;
  rv <- (if BindType_eqb bind_type RANDOM_BIND then
           let addr_size := if GetSockAddrFamily address =? AF_INET
                            then kIPv4AddressSize else kIPv6AddressSize in
           RandomBind (AllZeros addr_size)
         else ret 0) ;;
  (* else connect() does the DatagramSocket::DEFAULT_BIND *)
  if rv <? 0 then
    effect (emit (EvHistogram (- rv))) ;;
    ret rv
  else
  match ToSockAddr address with
  | None => ret ERR_ADDRESS_INVALID
  | Some storage =>
      fd <- gets socket_ ;;
      rv <- liftW (HANDLE_EINTR (sys_status (c_connect fd storage))) ;;
      if rv <? 0 then fail_with_errno else
      modify (set_remote_address_ (Some address)) ;;
      ret rv
  end.

Definition Connect (address : IPEndPoint) : M Z :=
  (* DCHECK_NE(socket_, kInvalidSocket) *)
  rv <- SetMulticastOptions ;;
  if negb (rv =? OK) then ret rv else
  rv <- InternalConnect address ;;
  modify (set_is_connected_ (rv =? OK)) ;;
  (if negb (rv =? OK) then modify (set_tag_ SocketTag_default) else ret tt) ;;
  ret rv.

Definition Bind (address : IPEndPoint) : M Z :=
  (* DCHECK_NE(socket_, kInvalidSocket); DCHECK(!is_connected()) *)
  rv <- SetMulticastOptions ;;
  if rv <? 0 then ret rv else
  rv <- DoBind address ;;
  if rv <? 0 then ret rv else
  modify (set_is_connected_ true) ;;
  modify (set_local_address_ None) ;;
  ret rv.

Definition JoinGroup (group_address : IPAddress) : M Z :=
  connected <- gets is_connected_ ;;
  if negb connected then ret ERR_SOCKET_NOT_CONNECTED else
  fd <- gets socket_ ;;
  family <- gets addr_family_ ;;
  interface <- gets multicast_interface_ ;;
  if Nat.eqb (length group_address) kIPv4AddressSize then
    if negb (family =? AF_INET) then ret ERR_ADDRESS_INVALID else
    rv <- liftW (sys_status (c_setsockopt fd IPPROTO_IP IP_ADD_MEMBERSHIP
                               (OptMreqn group_address INADDR_ANY
                                  (int_of_uint32 interface)))) ;;
    if rv <? 0 then fail_with_errno else ret OK
  else if Nat.eqb (length group_address) kIPv6AddressSize then
    if negb (family =? AF_INET6) then ret ERR_ADDRESS_INVALID else
    rv <- liftW (sys_status (c_setsockopt fd IPPROTO_IPV6 IPV6_JOIN_GROUP
                               (OptMreq6 group_address interface))) ;;
    if rv <? 0 then fail_with_errno else ret OK
  else ret ERR_ADDRESS_INVALID.   (* NOTREACHED() *)

Definition LeaveGroup (group_address : IPAddress) : M Z :=
  connected <- gets is_connected_ ;;
  if negb connected then ret ERR_SOCKET_NOT_CONNECTED else
  fd <- gets socket_ ;;
  family <- gets addr_family_ ;;
  interface <- gets multicast_interface_ ;;
  if Nat.eqb (length group_address) kIPv4AddressSize then
    if negb (family =? AF_INET) then ret ERR_ADDRESS_INVALID else
    rv <- liftW (sys_status (c_setsockopt fd IPPROTO_IP IP_DROP_MEMBERSHIP
                               (OptMreqn group_address INADDR_ANY
                                  (int_of_uint32 interface)))) ;;
    if rv <? 0 then fail_with_errno else ret OK
  else if Nat.eqb (length group_address) kIPv6AddressSize then
    if negb (family =? AF_INET6) then ret ERR_ADDRESS_INVALID else
    rv <- liftW (sys_status (c_setsockopt fd IPPROTO_IPV6 IPV6_LEAVE_GROUP
                               (OptMreq6 group_address
                                  (if IS_FUCHSIA cfg then interface else 0)))) ;;
    if rv <? 0 then fail_with_errno else ret OK
  else ret ERR_ADDRESS_INVALID.   (* NOTREACHED() *)

Definition SetMulticastInterface (interface_index : Z) : M Z :=
  connected <- gets is_connected_ ;;
  if connected then ret ERR_SOCKET_IS_CONNECTED else
  modify (set_multicast_interface_ (u32 interface_index)) ;;
  ret OK.

Definition SetMulticastTimeToLive (time_to_live : Z) : M Z :=
  connected <- gets is_connected_ ;;
  if connected then ret ERR_SOCKET_IS_CONNECTED else
  if (time_to_live <? 0) || (time_to_live >? 255) then ret ERR_INVALID_ARGUMENT else
  modify (set_multicast_time_to_live_ time_to_live) ;;
  ret OK.

Definition SetMulticastLoopbackMode (loopback : bool) : M Z :=
  connected <- gets is_connected_ ;;
  if connected then ret ERR_SOCKET_IS_CONNECTED else
  options <- gets socket_options_ ;;
  modify (set_socket_options_
            (if loopback
             then Z.lor options SOCKET_OPTION_MULTICAST_LOOP
             else Z.land options (Z.lnot SOCKET_OPTION_MULTICAST_LOOP))) ;;
  ret OK.

Definition SetDiffServCodePoint (dscp : Z) : M Z :=
  if dscp =? DSCP_NO_CHANGE then ret OK else
  let dscp_and_ecn := Z.shiftl dscp 2 in
  fd <- gets socket_ ;;
  family <- gets addr_family_ ;;
  (* Set the IPv4 option in all cases to support dual-stack sockets. *)
  rv <- liftW (sys_status (c_setsockopt fd IPPROTO_IP IP_TOS (OptInt dscp_and_ecn))) ;;
  rv <- (if family =? AF_INET6
         then liftW (sys_status (c_setsockopt fd IPPROTO_IPV6 IPV6_TCLASS
                                   (OptInt dscp_and_ecn)))
         else ret rv) ;;
  if rv <? 0 then fail_with_errno else ret OK.

Definition ApplySocketTag (tag : SocketTag) : M unit :=
  fd <- gets socket_ ;;
  current <- gets tag_ ;;
  (if negb (fd =? kInvalidSocket) && negb (SocketTag_eqb tag current)
   then effect (emit (EvTagApply tag fd))
   else ret tt) ;;
  modify (set_tag_ tag).

Definition SetMsgConfirm (confirm : bool) : M unit :=
  if IS_APPLE cfg then ret tt else
  flags <- gets sendto_flags_ ;;
  modify (set_sendto_flags_
            (if confirm
             then Z.lor flags MSG_CONFIRM
             else Z.land flags (Z.lnot MSG_CONFIRM))).

Definition SetDontClose (dont_close : bool) : M unit :=
  modify (set_dont_close_ dont_close).

End Engine.

(** ** Example inputs *)

(** A world with nothing scripted and nothing done yet. *)
Definition empty_world : World := mkWorld [] [] 0 [] 0 0 [].

(** The cases of [MapSystemError] that the examples use; everything else is
    [ERR_FAILED] (-2). *)
Definition example_MapSystemError (e : Z) : Z :=
  if e =? 0 then OK
  else if e =? EAGAIN then ERR_IO_PENDING
  else if e =? EADDRINUSE then ERR_ADDRESS_IN_USE
  else if e =? EINVAL then ERR_INVALID_ARGUMENT
  else -2.

(** A build for neither Apple, ChromeOS nor Fuchsia, with room for 6000
    sockets. *)
Definition example_config : Config :=
  mkConfig false false false false false example_MapSystemError 6000.

(** ** The claims about the activity monitor, as the specification words them *)

Module MonitorClaims.
Import ReceivedActivityMonitor.

(** "[Increment] flushes immediately if and only if fewer than 2 samples have
    been accumulated since the last flush or the accumulated bytes exceed
    65535", for the increment that follows the history [h]. *)
Definition flush_rule_since_flush (h : list Op) (bytes : Z) (w : World) : Prop :=
  let '(g, st) := grun h (init, w) in
  flushed st (step st (OpIncrement bytes)) = true <->
  (samples_since_flush g + 1 < 2 \/ bytes_ (fst st) + bytes > 65535).

(** "The timer runs iff unreported bytes are non-zero", at the quiescent
    point after the history [h]. *)
Definition timer_iff_bytes (h : list Op) (w : World) : Prop :=
  let m := fst (run h (init, w)) in
  timer_running m = true <-> bytes_ m <> 0.

(** What holds of every monitor at a quiescent point. *)
Definition wf (gst : Ghost * (t * World)) : Prop :=
  let '(g, (m, _)) := gst in
  0 <= bytes_ m <= kActivityMonitorBytesThreshold /\
  0 <= samples_since_fire g /\
  increments_ m = u32 (samples_since_fire g) /\
  (bytes_ m <> 0 -> timer_running m = true).

End MonitorClaims.

(** ** Vocabulary for the claims about the socket *)

Definition result_of {A} (o : Outcome A) : option A :=
  match o with
  | Done a _ _ => Some a
  | Fatal _ => None
  end.

(** "Success or the mapped OS error": how a member function that issues one
    socket option call ends, given the kernel's answer to that call. *)
Definition option_outcome (cfg : Config) (s : UDPSocketPosix)
    (answered : SysAnswer * World) : Outcome Z :=
  Done (match fst answered with
        | SysErr e => MapSystemError cfg (Zpos e)
        | _ => OK
        end) s (snd answered).

(** Whether the kernel's answer is a failure. *)
Definition failed (a : SysAnswer) : bool :=
  match a with SysErr _ => true | _ => false end.

(** A socket that has been opened for IPv4 and bound: [Open] and [Bind] run
    on a fresh socket, with a kernel that grants everything (descriptor 3). *)
Definition example_bound_socket : UDPSocketPosix * World :=
  match (Open example_config ADDRESS_FAMILY_IPV4 ;;
         Bind example_config (mkIPEndPoint [127; 0; 0; 1] 5000))
          (UDPSocketPosix_new DEFAULT_BIND false)
          (set_script [SysOk 3; SysOk 0; SysOk 0] empty_world) with
  | Done _ s w => (s, w)
  | Fatal w => (UDPSocketPosix_new DEFAULT_BIND false, w)
  end.

(** A socket with the receive optimisation enabled that has been opened for
    IPv4 and connected to 192.0.2.1:53, again with a kernel that grants
    everything. *)
Definition example_connected_socket : UDPSocketPosix * World :=
  match (Open example_config ADDRESS_FAMILY_IPV4 ;;
         Connect example_config (mkIPEndPoint [192; 0; 2; 1] 53))
          (set_experimental_recv_optimization_enabled_ true
             (UDPSocketPosix_new DEFAULT_BIND false))
          (set_script [SysOk 3; SysOk 0; SysOk 0] empty_world) with
  | Done _ s w => (s, w)
  | Fatal w => (UDPSocketPosix_new DEFAULT_BIND false, w)
  end.

(** A socket that has been opened for IPv6 and nothing else. *)
Definition example_open_socket_v6 : UDPSocketPosix * World :=
  match Open example_config ADDRESS_FAMILY_IPV6
          (UDPSocketPosix_new DEFAULT_BIND false)
          (set_script [SysOk 3; SysOk 0] empty_world) with
  | Done _ s w => (s, w)
  | Fatal w => (UDPSocketPosix_new DEFAULT_BIND false, w)
  end.

(** A member function that always returns and leaves the socket object as
    it found it. *)
Definition preserves {A} (m : M A) : Prop :=
  forall s w, exists a w', m s w = Done a s w'.

(** C6 as the specification words it, for the socket [s] in the world [w]:
    256 and -1 are refused as invalid arguments; 0 and 255 are stored while
    the socket is not connected and refused while it is. *)
Definition C6_as_stated (s : UDPSocketPosix) (w : World) : Prop :=
  SetMulticastTimeToLive 256 s w = Done ERR_INVALID_ARGUMENT s w /\
  SetMulticastTimeToLive (-1) s w = Done ERR_INVALID_ARGUMENT s w /\
  (is_connected_ s = false ->
   SetMulticastTimeToLive 0 s w = Done OK (set_multicast_time_to_live_ 0 s) w /\
   SetMulticastTimeToLive 255 s w = Done OK (set_multicast_time_to_live_ 255 s) w) /\
  (is_connected_ s = true ->
   SetMulticastTimeToLive 0 s w = Done ERR_SOCKET_IS_CONNECTED s w /\
   SetMulticastTimeToLive 255 s w = Done ERR_SOCKET_IS_CONNECTED s w).

(** C5 as the specification words it, for an IPv6-family socket: a failure
    of the IPv4 option is surfaced (the call does not return [OK]), and a
    failure of the IPv6 option alone is tolerated (the call returns [OK]). *)
Definition C5_as_stated (cfg : Config) (dscp : Z) (s : UDPSocketPosix) (w : World)
  : Prop :=
  dscp <> DSCP_NO_CHANGE ->
  addr_family_ s = AF_INET6 ->
  forall a4 a6 rest, script w = a4 :: a6 :: rest ->
    (failed a4 = true ->
     result_of (SetDiffServCodePoint cfg dscp s w) <> Some OK) /\
    (failed a4 = false -> failed a6 = true ->
     result_of (SetDiffServCodePoint cfg dscp s w) = Some OK).

(** ** Vocabulary for [Close] and [Open] *)

(** The object once [Close] has released the token, dropped the pending
    read and write and unregistered the watchers (lines 228-246). *)
Definition pending_cleared (s : UDPSocketPosix) : UDPSocketPosix :=
  set_write_socket_watcher_ false
    (set_read_socket_watcher_ false
       (set_send_to_address_ None
          (set_write_callback_ None
             (set_write_buf_len_ 0
                (set_write_buf_ None
                   (set_recv_from_address_ None
                      (set_read_callback_ None
                         (set_read_buf_len_ 0
                            (set_read_buf_ None
                               (set_owned_socket_count_ false s)))))))))).

(** The world at that point. *)
Definition watchers_stopped (s : UDPSocketPosix) (w : World) : World :=
  emit (EvStopWatching WATCH_WRITE)
    (emit (EvStopWatching WATCH_READ)
       (OwnedUDPSocketCount_Reset (owned_socket_count_ s) w)).

(** The call that closes the descriptor on this platform. *)
Definition close_call (cfg : Config) (fd : Z) : Call :=
  if fd_guarded cfg then c_guarded_close fd else c_close fd.

Definition is_syscall (e : Event) : Prop :=
  match e with
  | EvSys _ _ => True
  | _ => False
  end.

(** The answers to [close] that the plain close path survives: success, and
    [EINTR] (4), which [IGNORE_EINTR] counts as success. *)
Definition close_accepted (a : SysAnswer) : bool :=
  match a with
  | SysErr e => Pos.eqb e 4
  | _ => true
  end.

(** The world changed by system calls only: the trace grew by system calls,
    and the process-wide counters and the callers' memory are as before. *)
Definition sys_extends (w w' : World) : Prop :=
  exists evs, trace w' = trace w ++ evs /\ Forall is_syscall evs /\
    udp_socket_count w' = udp_socket_count w /\
    bytes_received w' = bytes_received w /\
    memory w' = memory w.

(** The object differs from [s] at most in the cached remote endpoint. *)
Definition same_but_remote (s s' : UDPSocketPosix) : Prop :=
  s' = set_remote_address_ (remote_address_ s') s.

(** A socket with a pending read: [Open] and [Read] (callback 9, buffer 1 of
    512 bytes) run on a fresh socket whose kernel has no datagram yet
    ([EAGAIN]). *)
Definition example_pending_read : UDPSocketPosix * World :=
  match (Open example_config ADDRESS_FAMILY_IPV4 ;;
         Read example_config (Some 1%nat) 512 (Some 9%nat))
          (UDPSocketPosix_new DEFAULT_BIND false)
          (set_script [SysOk 3; SysOk 0; SysErr 11; SysOk 0] empty_world) with
  | Done _ s w => (s, w)
  | Fatal w => (UDPSocketPosix_new DEFAULT_BIND false, w)
  end.

(** The pending read and write have been dropped and both watchers are
    unregistered. *)
Definition pending_dropped (s : UDPSocketPosix) : Prop :=
  read_buf_ s = None /\ read_buf_len_ s = 0 /\
  recv_from_address_ s = None /\ read_callback_ s = None /\
  write_buf_ s = None /\ write_buf_len_ s = 0 /\
  send_to_address_ s = None /\ write_callback_ s = None /\
  read_socket_watcher_ s = false /\ write_socket_watcher_ s = false.

(** The descriptor is gone, the connection, address-family and tag state is
    reset, and no admission token is held. *)
Definition connection_reset (s : UDPSocketPosix) : Prop :=
  socket_ s = kInvalidSocket /\ addr_family_ s = 0 /\ is_connected_ s = false /\
  tag_ s = SocketTag_default /\ owned_socket_count_ s = false.

(** The activity monitor holds no unreported bytes and its timer is
    stopped. *)
Definition monitor_flushed (s : UDPSocketPosix) : Prop :=
  ReceivedActivityMonitor.bytes_ (received_activity_monitor_ s) = 0 /\
  ReceivedActivityMonitor.timer_running (received_activity_monitor_ s) = false.

(** What a completed [Close] of the open socket [s] in the world [w] has
    done, in the object [s'] and the world [w'] it leaves. *)
Definition closed_from (cfg : Config) (s : UDPSocketPosix) (w : World)
    (s' : UDPSocketPosix) (w' : World) : Prop :=
  pending_dropped s' /\ connection_reset s' /\ monitor_flushed s' /\
  udp_socket_count w' =
    udp_socket_count w - (if owned_socket_count_ s then 1 else 0) /\
  bytes_received w' =
    bytes_received w + ReceivedActivityMonitor.bytes_ (received_activity_monitor_ s) /\
  (exists platform_events a,
     Forall is_syscall platform_events /\
     trace w' =
       trace w ++ [EvStopWatching WATCH_READ; EvStopWatching WATCH_WRITE]
         ++ platform_events
         ++ [EvSys (close_call cfg (socket_ s)) a]
         ++ EvTimerStop
            :: (if ReceivedActivityMonitor.bytes_ (received_activity_monitor_ s) =? 0
                then []
                else [EvBytesReceived
                        (ReceivedActivityMonitor.bytes_ (received_activity_monitor_ s))])) /\
  (forall callback rv,
     In (EvRunCallback callback rv) (trace w') -> In (EvRunCallback callback rv) (trace w)).

(** The object [Open] has built when setting the non-blocking mode of the
    new descriptor [fd] fails. *)
Definition partially_opened (address_family : AddressFamily) (fd : Z)
    (s : UDPSocketPosix) : UDPSocketPosix :=
  set_socket_hash_ (GetSocketFDHash fd)
    (set_socket_ fd (set_addr_family_ (ConvertAddressFamily address_family) s)).

(** The world at that point: the token has been asked for, the descriptor
    created (and guarded, on a platform that guards descriptors), and the
    non-blocking mode asked for. *)
Definition nonblocking_failed (cfg : Config) (address_family : AddressFamily)
    (fd : Z) (w : World) : World :=
  let w0 := snd (TryAcquireGlobalUDPSocketCount cfg w) in
  let w1 := snd (sys_value (c_socket (ConvertAddressFamily address_family)) w0) in
  let w2 := if fd_guarded cfg then snd (sys_status (c_change_fdguard fd) w1) else w1 in
  snd (sys_status (c_set_nonblocking fd) w2).

(** ** Vocabulary for the random bind *)

(** What [DoBind] returns for the kernel's answer to its [bind]. *)
Definition DoBind_result (cfg : Config) (a : SysAnswer) : Z :=
  match a with
  | SysErr e =>
      if IS_CHROMEOS_ASH cfg then
        if Zpos e =? EINVAL then ERR_ADDRESS_IN_USE else MapSystemError cfg (Zpos e)
      else if IS_APPLE cfg then
        if Zpos e =? EADDRNOTAVAIL then ERR_ADDRESS_IN_USE
        else MapSystemError cfg (Zpos e)
      else MapSystemError cfg (Zpos e)
  | _ => OK
  end.

(** The socket address of the wildcard address [address] at port [p]. *)
Definition bind_sockaddr (address : IPAddress) (p : Z) : SockAddr :=
  mkSockAddr (if Nat.eqb (length address) kIPv4AddressSize then AF_INET else AF_INET6)
    address p.

(** One round of the retry loop, given as the port drawn and the kernel's
    answer to the bind at that port, as it appears in the trace. *)
Definition random_attempt (fd : Z) (address : IPAddress) (attempt : Z * SysAnswer)
  : list Event :=
  [EvRandInt kPortStart kPortEnd (fst attempt);
   EvSys (c_bind fd (bind_sockaddr address (fst attempt))) (snd attempt)].

Definition port_in_range (attempt : Z * SysAnswer) : Prop :=
  kPortStart <= fst attempt <= kPortEnd.

Definition address_in_use (cfg : Config) (attempt : Z * SysAnswer) : Prop :=
  DoBind_result cfg (snd attempt) = ERR_ADDRESS_IN_USE.

(** What a run of the random bind with at most [retries] rounds, on the
    descriptor [fd], from the world [w] to the world [w'] and with the
    result [rv], looks like: either some round within the first [retries]
    ended the loop, all rounds before it having found the address in use and
    it having found something else, which is the result; or all [retries]
    rounds found the address in use and the bind of port 0 that followed
    gave the result. *)
Definition random_bind_run (cfg : Config) (retries : nat) (fd : Z)
    (address : IPAddress) (attempts : list (Z * SysAnswer)) (rv : Z)
    (w w' : World) : Prop :=
  Forall port_in_range attempts /\
  ((exists before last,
      attempts = before ++ [last] /\ (length attempts <= retries)%nat /\
      Forall (address_in_use cfg) before /\
      rv = DoBind_result cfg (snd last) /\ rv <> ERR_ADDRESS_IN_USE /\
      trace w' = trace w ++ flat_map (random_attempt fd address) attempts) \/
   (exists fallback,
      length attempts = retries /\
      Forall (address_in_use cfg) attempts /\
      rv = DoBind_result cfg fallback /\
      trace w' = trace w ++ flat_map (random_attempt fd address) attempts
                   ++ [EvSys (c_bind fd (bind_sockaddr address 0)) fallback])).

(** The trace grew by events of one kind only. *)
Definition trace_extends (P : Event -> Prop) (w w' : World) : Prop :=
  exists evs, trace w' = trace w ++ evs /\ Forall P evs.

Definition is_connect_call (e : Event) : Prop :=
  match e with
  | EvSys (c_connect _ _) _ => True
  | _ => False
  end.

(** ** Vocabulary for [Connect] *)

(** The object after a [Connect] on [s] that failed after the
    multicast-option stage (lines 430-432): not connected, default tag. *)
Definition connect_failed (s : UDPSocketPosix) : UDPSocketPosix :=
  set_tag_ SocketTag_default (set_is_connected_ false s).

(** The object after a [Connect] on [s] to [address] that succeeded (lines
    465 and 430): the remote endpoint cached, connected. *)
Definition connect_succeeded (address : IPEndPoint) (s : UDPSocketPosix)
  : UDPSocketPosix :=
  set_is_connected_ true (set_remote_address_ (Some address) s).

(** The wildcard address that the random bind before a connect to
    [address] binds (lines 445-448). *)
Definition connect_wildcard (address : IPEndPoint) : IPAddress :=
  AllZeros (if GetSockAddrFamily address =? AF_INET
            then kIPv4AddressSize else kIPv6AddressSize).

(** ** Vocabulary for further properties of the activity monitor *)

Module MonitorAccounts.
Import ReceivedActivityMonitor.

(** The bytes a history hands to [Increment]. *)
Fixpoint increment_sum (h : list Op) : Z :=
  match h with
  | [] => 0
  | OpIncrement bytes :: h' => bytes + increment_sum h'
  | _ :: h' => increment_sum h'
  end.

(** Every increment of the history is a byte count of a read: an [int] that
    is not negative. *)
Definition int_counts (h : list Op) : Prop :=
  Forall (fun op => match op with
                    | OpIncrement bytes => 0 <= bytes < 2 ^ 31
                    | _ => True
                    end) h.

(** The bytes a monitor has accounted for: those reported to the
    process-wide counter and those it still holds. *)
Definition accounted (st : t * World) : Z :=
  bytes_received (snd st) + bytes_ (fst st).

(** No report to the process-wide counter is empty. *)
Definition reports_positive (tr : list Event) : Prop :=
  Forall (fun e => match e with
                   | EvBytesReceived bytes => 0 < bytes
                   | _ => True
                   end) tr.

End MonitorAccounts.

(** ** Vocabulary for the life cycle of a socket *)

(** The object [Open] leaves when it succeeds with the new descriptor
    [fd]. *)
Definition opened (address_family : AddressFamily) (fd : Z) (s : UDPSocketPosix)
  : UDPSocketPosix :=
  set_owned_socket_count_ true (partially_opened address_family fd s).

(** What applying the tag [tag] to the descriptor [fd] leaves in the trace:
    nothing for the default tag. *)
Definition tag_applied (tag : SocketTag) (fd : Z) : list Event :=
  if SocketTag_eqb tag SocketTag_default then [] else [EvTagApply tag fd].

(** What [Close] leaves alone: how the socket was configured, and the
    cached local endpoint. *)
Definition same_settings (s s' : UDPSocketPosix) : Prop :=
  bind_type_ s' = bind_type_ s /\
  socket_options_ s' = socket_options_ s /\
  sendto_flags_ s' = sendto_flags_ s /\
  multicast_interface_ s' = multicast_interface_ s /\
  multicast_time_to_live_ s' = multicast_time_to_live_ s /\
  experimental_recv_optimization_enabled_ s' =
    experimental_recv_optimization_enabled_ s /\
  always_update_bytes_received_ s' = always_update_bytes_received_ s /\
  dont_close_ s' = dont_close_ s /\
  local_address_ s' = local_address_ s.

(** ** Vocabulary for the read and write paths *)

(** The object differs from [s] at most in the activity monitor. *)
Definition monitor_only (s s' : UDPSocketPosix) : Prop :=
  s' = set_received_activity_monitor_ (received_activity_monitor_ s') s.

(** An event other than the run of a completion callback. *)
Definition not_callback (e : Event) : Prop :=
  match e with
  | EvRunCallback _ _ => False
  | _ => True
  end.

(** The received bytes the socket has accounted for: those reported to the
    process-wide counter and those its monitor still holds. *)
Definition bytes_accounted (s : UDPSocketPosix) (w : World) : Z :=
  bytes_received w + ReceivedActivityMonitor.bytes_ (received_activity_monitor_ s).

(** The monitor of the socket holds at most the threshold. *)
Definition monitor_bounded (s : UDPSocketPosix) : Prop :=
  0 <= ReceivedActivityMonitor.bytes_ (received_activity_monitor_ s)
    <= kActivityMonitorBytesThreshold.

(** The object once [RecvFrom] has stored a pending read (lines 361-364,
    with the watcher registered at 351). *)
Definition read_pending (buf : option nat) (buf_len : Z) (address : option nat)
    (callback : option nat) (s : UDPSocketPosix) : UDPSocketPosix :=
  set_read_callback_ callback
    (set_recv_from_address_ address
       (set_read_buf_len_ buf_len
          (set_read_buf_ buf (set_read_socket_watcher_ true s)))).

(** The object once [DidCompleteRead] has dropped the pending read and
    taken the callback out (lines 657-661 and 641). *)
Definition read_completed (s : UDPSocketPosix) : UDPSocketPosix :=
  set_read_callback_ None
    (set_read_socket_watcher_ false
       (set_recv_from_address_ None
          (set_read_buf_len_ 0 (set_read_buf_ None s)))).

(** The same for a pending write (lines 410-416) and its completion (lines
    697-701 and 650). *)
Definition write_pending (buf : option nat) (buf_len : Z)
    (address : option IPEndPoint) (callback : option nat) (s : UDPSocketPosix)
  : UDPSocketPosix :=
  let s1 := set_write_buf_len_ buf_len
              (set_write_buf_ buf (set_write_socket_watcher_ true s)) in
  set_write_callback_ callback
    (match address with
     | Some _ => set_send_to_address_ address s1
     | None => s1
     end).

(** A socket with a pending write: [Open] and [Write] (callback 4, buffer 2
    of 16 bytes) run on a fresh socket whose kernel cannot take the datagram
    yet ([EAGAIN]). *)
Definition example_pending_write : UDPSocketPosix * World :=
  match (Open example_config ADDRESS_FAMILY_IPV4 ;;
         Write example_config (Some 2%nat) 16 (Some 4%nat))
          (UDPSocketPosix_new DEFAULT_BIND false)
          (set_script [SysOk 3; SysOk 0; SysErr 11; SysOk 0] empty_world) with
  | Done _ s w => (s, w)
  | Fatal w => (UDPSocketPosix_new DEFAULT_BIND false, w)
  end.

Definition write_completed (s : UDPSocketPosix) : UDPSocketPosix :=
  set_write_callback_ None
    (set_write_socket_watcher_ false
       (set_send_to_address_ None
          (set_write_buf_len_ 0 (set_write_buf_ None s)))).

(** What the general receive path returns for a datagram of [size] bytes
    from the sender [name], read into a buffer of [buf_len] bytes (lines
    781-794). *)
Definition general_receive_result (buf_len : Z) (address : option nat) (size : N)
    (name : SockAddr) : Z :=
  if buf_len <? Z.of_N size then ERR_MSG_TOO_BIG
  else match address, FromSockAddr name with
       | Some _, None => ERR_ADDRESS_INVALID
       | _, _ => Z.of_N size
       end.

(** ** Vocabulary for the socket options *)

(** The option calls [SetMulticastOptions] has to make for the settings of
    the socket [s], in the order in which it makes them (lines 827-881):
    loopback off, a time to live other than the default, an interface other
    than the default (whose index the IPv4 option carries in the [int] field
    [imr_ifindex], line 860). *)
Definition multicast_calls (s : UDPSocketPosix) : list Call :=
  let fd := socket_ s in
  let v4 := addr_family_ s =? AF_INET in
  (if Z.land (socket_options_ s) SOCKET_OPTION_MULTICAST_LOOP =? 0
   then [if v4 then c_setsockopt fd IPPROTO_IP IP_MULTICAST_LOOP (OptUChar 0)
         else c_setsockopt fd IPPROTO_IPV6 IPV6_MULTICAST_LOOP (OptUInt 0)]
   else [])
  ++ (if multicast_time_to_live_ s =? IP_DEFAULT_MULTICAST_TTL then []
      else [if v4
            then c_setsockopt fd IPPROTO_IP IP_MULTICAST_TTL
                   (OptUChar (multicast_time_to_live_ s mod 256))
            else c_setsockopt fd IPPROTO_IPV6 IPV6_MULTICAST_HOPS
                   (OptInt (multicast_time_to_live_ s))])
  ++ (if multicast_interface_ s =? 0 then []
      else [if v4
            then c_setsockopt fd IPPROTO_IP IP_MULTICAST_IF
                   (OptMreqn [0; 0; 0; 0] INADDR_ANY
                      (int_of_uint32 (multicast_interface_ s)))
            else c_setsockopt fd IPPROTO_IPV6 IPV6_MULTICAST_IF
                   (OptUInt (multicast_interface_ s))]).

(** Making calls in order until one fails: [OK] when none fails, the mapped
    error of the first failure otherwise, and the world after the last call
    made. *)
Fixpoint attempt_calls (cfg : Config) (calls : list Call) (w : World) : Z * World :=
  match calls with
  | [] => (OK, w)
  | c :: rest =>
      match syscall c w with
      | (SysErr e, w') => (MapSystemError cfg (Zpos e), w')
      | (_, w') => attempt_calls cfg rest w'
      end
  end.

(** A [sendto] call with the flags [flags]. *)
Definition sends_with (flags : Z) (e : Event) : Prop :=
  match e with
  | EvSys (c_sendto _ _ _ f _) _ => f = flags
  | _ => False
  end.

(** * Part II: the claims *)

(** ** The activity monitor *)

(** Projections of an updated world. *)
Ltac wsimpl :=
  cbn [trace errno script entropy udp_socket_count bytes_received memory
       emit set_errno set_script set_entropy set_udp_socket_count
       set_bytes_received store_endpoint IncrementBytesReceived
       OwnedUDPSocketCount_Reset fst snd].

(** An updated world, field by field. *)
Ltac wnorm :=
  unfold IncrementBytesReceived, OwnedUDPSocketCount_Reset, emit, set_errno,
    set_script, set_entropy, set_udp_socket_count, set_bytes_received,
    store_endpoint;
  cbn [trace errno script entropy udp_socket_count bytes_received memory].

Section MonitorFacts.
Import ReceivedActivityMonitor MonitorClaims.

Lemma u32_small z : 0 <= z < 2 ^ 32 -> u32 z = z.
Proof. intros H. unfold u32. now apply Z.mod_small. Qed.

Lemma u32_range z : 0 <= u32 z < 2 ^ 32.
Proof. unfold u32. apply Z.mod_pos_bound. lia. Qed.

Lemma flush_count_app t1 t2 :
  flush_count (t1 ++ t2) = (flush_count t1 + flush_count t2)%nat.
Proof.
  induction t1 as [|e t1 IH]; simpl; [reflexivity|].
  destruct e; simpl; rewrite IH; reflexivity.
Qed.

Lemma Update_bytes m w : bytes_ (fst (Update m w)) = 0.
Proof.
  unfold Update. destruct (bytes_ m =? 0) eqn:E; simpl; [lia|reflexivity].
Qed.

Lemma Increment_zero m w : Increment 0 m w = (m, w).
Proof. reflexivity. Qed.

(** The full effect of a non-zero increment. *)
Lemma Increment_nonzero bytes m w :
  bytes <> 0 ->
  let total := u32 (bytes_ m + bytes) in
  let samples := u32 (increments_ m + 1) in
  let flush := (samples <? 2) || (total >? 65535) in
  Increment bytes m w =
  (mk (if flush then 0 else total) samples true,
   let w1 := if flush && negb (total =? 0) then IncrementBytesReceived total w else w in
   let w2 := if flush && timer_running m then emit EvTimerReset w1 else w1 in
   if timer_running m then w2 else emit (EvTimerStart 100) w2).
Proof.
  intros Hb. unfold Increment.
  apply Z.eqb_neq in Hb. rewrite Hb. cbn [bytes_ increments_ timer_running].
  unfold kActivityMonitorMinimumSamplesForThroughputEstimate,
    kActivityMonitorBytesThreshold, kActivityMonitorMsThreshold.
  destruct ((u32 (increments_ m + 1) <? 2) || (u32 (bytes_ m + bytes) >? 65535)) eqn:F.
  - unfold Update. cbn [bytes_ increments_ timer_running].
    destruct (u32 (bytes_ m + bytes) =? 0) eqn:Z0; destruct (timer_running m);
      cbn; try reflexivity.
    all: apply Z.eqb_eq in Z0; rewrite Z0; reflexivity.
  - destruct (timer_running m); cbn; reflexivity.
Qed.

Ltac wf_done :=
  repeat split; try lia; try reflexivity; try assumption; try (intros; lia).

Lemma wf_step gst op : wf gst -> wf (gstep gst op).
Proof.
  destruct gst as [g [m w]]. unfold wf, gstep.
  intros (Hb & Hs & Hi & Ht).
  unfold kActivityMonitorBytesThreshold in *.
  destruct op as [bytes| |]; cbn [step fst snd].
  - destruct (u32 bytes =? 0) eqn:E0.
    + apply Z.eqb_eq in E0. rewrite E0, Increment_zero.
      rewrite !Z.add_0_r. destruct (flushed _ _); cbn; auto.
    + apply Z.eqb_neq in E0. rewrite (Increment_nonzero _ m w E0).
      cbv zeta. cbn [bytes_ increments_ timer_running samples_since_fire].
      pose proof (u32_range (bytes_ m + u32 bytes)) as R.
      split; [|split; [|split]].
      * destruct (_ || _) eqn:F; [lia|].
        apply orb_false_iff in F. destruct F as [_ F]. lia.
      * lia.
      * rewrite Hi. unfold u32. rewrite Zplus_mod_idemp_l. reflexivity.
      * reflexivity.
  - destruct (timer_running m) eqn:T; cbn [fst snd].
    + unfold OnTimerFired. cbn [bytes_ increments_ timer_running].
      destruct (bytes_ m =? 0) eqn:E.
      * apply Z.eqb_eq in E. cbn. rewrite E. wf_done.
      * unfold Update. cbn [bytes_]. rewrite E. cbn. wf_done.
    + rewrite !Z.add_0_r. cbn. wf_done.
  - unfold OnClose, Update. cbn [bytes_ increments_ timer_running].
    rewrite !Z.add_0_r.
    destruct (bytes_ m =? 0) eqn:E; cbn [fst snd bytes_ increments_ timer_running].
    + apply Z.eqb_eq in E. wf_done.
    + wf_done.
Qed.

Lemma wf_fold h : forall gst, wf gst -> wf (fold_left gstep h gst).
Proof.
  induction h as [|op h IH]; intros gst H; simpl; [exact H|].
  apply IH, wf_step, H.
Qed.

Lemma wf_grun h w : wf (grun h (init, w)).
Proof.
  apply wf_fold. unfold wf, init, kActivityMonitorBytesThreshold. cbn.
  wf_done.
Qed.

Lemma gstep_snd gst op : snd (gstep gst op) = step (snd gst) op.
Proof. destruct gst as [g st]. reflexivity. Qed.

Lemma grun_run h : forall g st, snd (fold_left gstep h (g, st)) = run h st.
Proof.
  unfold run.
  induction h as [|op h IH]; intros g st; simpl; [reflexivity|].
  destruct (gstep (g, st) op) as [g' st'] eqn:E.
  assert (st' = step st op) as ->.
  { pose proof (gstep_snd (g, st) op) as G. rewrite E in G. exact G. }
  apply IH.
Qed.

End MonitorFacts.

Section MonitorClaimsProved.
Import ReceivedActivityMonitor MonitorClaims.

Lemma flushed_app m w m' w' new :
  trace w' = trace w ++ new ->
  flushed (m, w) (m', w') = negb (Nat.eqb (flush_count new) 0).
Proof.
  intros H. unfold flushed. cbn [snd]. rewrite H, flush_count_app.
  destruct (flush_count new) as [|k]; cbn.
  - rewrite Nat.add_0_r, Nat.eqb_refl. reflexivity.
  - replace (flush_count (trace w) + S k)%nat with (S k + flush_count (trace w))%nat by lia.
    destruct (Nat.eqb_spec (S k + flush_count (trace w)) (flush_count (trace w)));
      [lia|reflexivity].
Qed.

(** C3, as the specification words it, fails: on a fresh monitor the first
    increment flushes, and the second one does not flush although only one
    sample has been accumulated since that flush and the bytes are far below
    65535. *)
Lemma C3_flush_rule_counterexample :
  ~ flush_rule_since_flush [OpIncrement 1] 100 empty_world.
Proof.
  unfold flush_rule_since_flush. vm_compute. intros [_ H].
  assert (false = true) as F by (apply H; left; reflexivity).
  discriminate F.
Qed.

(** C3, amended: [Increment(0)] does nothing.  A non-zero [Increment(bytes)]
    counts one more sample and adds [bytes] to the accumulator; it flushes
    (reports the accumulated bytes to the process-wide counter and resets
    them to zero) if and only if fewer than 2 samples have been counted
    since the timer last fired (or since construction), this one included,
    or the accumulated bytes exceed 65535; after such a flush a running
    timer is restarted, and a timer that is not running is started with a
    period of 100 ms.  When the timer fires the sample counter is reset, and
    the timer is stopped exactly when no bytes have accumulated since the
    last flush; otherwise the bytes are flushed and the timer keeps
    running.  (The byte count is one that [LogRead] can pass, an [int], and
    fewer than 2^32 samples are counted between two timer fires, so that
    neither [uint32_t] counter wraps around.) *)
Theorem C3_increment_and_timer_fire (h : list Op) (w : World) (bytes : Z)
    (g : Ghost) (m : t) (w0 : World) :
  grun h (init, w) = (g, (m, w0)) ->
  0 <= bytes < 2 ^ 31 ->
  samples_since_fire g + 1 < 2 ^ 32 ->
  Increment 0 m w0 = (m, w0) /\
  (bytes <> 0 ->
   forall m' w', Increment bytes m w0 = (m', w') ->
     increments_ m' = increments_ m + 1 /\
     increments_ m' = samples_since_fire g + 1 /\
     timer_running m' = true /\
     (flushed (m, w0) (m', w') = true <->
      samples_since_fire g + 1 < 2 \/ bytes_ m + bytes > 65535) /\
     (flushed (m, w0) (m', w') = true ->
      bytes_ m' = 0 /\
      bytes_received w' = bytes_received w0 + (bytes_ m + bytes) /\
      trace w' = trace w0 ++ EvBytesReceived (bytes_ m + bytes)
                   :: (if timer_running m then [EvTimerReset] else [EvTimerStart 100])) /\
     (flushed (m, w0) (m', w') = false ->
      bytes_ m' = bytes_ m + bytes /\
      bytes_received w' = bytes_received w0 /\
      trace w' = trace w0 ++ (if timer_running m then [] else [EvTimerStart 100]))) /\
  (forall m' w', OnTimerFired m w0 = (m', w') ->
     increments_ m' = 0 /\
     (bytes_ m = 0 ->
      timer_running m' = false /\ trace w' = trace w0 ++ [EvTimerStop] /\
      bytes_received w' = bytes_received w0) /\
     (bytes_ m <> 0 ->
      timer_running m' = timer_running m /\ bytes_ m' = 0 /\
      trace w' = trace w0 ++ [EvBytesReceived (bytes_ m)] /\
      bytes_received w' = bytes_received w0 + bytes_ m)).
Proof.
  intros Hrun Hbytes Hsamples.
  pose proof (wf_grun h w) as Hwf. rewrite Hrun in Hwf.
  destruct Hwf as (Hb & Hs & Hi & _).
  unfold kActivityMonitorBytesThreshold in Hb.
  assert (increments_ m = samples_since_fire g) as Hi'.
  { rewrite Hi. apply u32_small. lia. }
  split; [reflexivity|]. split.
  - intros Hnz m' w' Hinc.
    rewrite (Increment_nonzero bytes m w0 Hnz) in Hinc. cbv zeta in Hinc.
    rewrite (u32_small (bytes_ m + bytes)) in Hinc by lia.
    rewrite (u32_small (increments_ m + 1)) in Hinc by lia.
    assert ((bytes_ m + bytes =? 0) = false) as Hz by (apply Z.eqb_neq; lia).
    rewrite Hz in Hinc. rewrite andb_true_r in Hinc.
    injection Hinc as <- <-.
    cbn [bytes_ increments_ timer_running].
    destruct ((increments_ m + 1 <? 2) || (bytes_ m + bytes >? 65535)) eqn:F.
    + assert (samples_since_fire g + 1 < 2 \/ bytes_ m + bytes > 65535) as Hcond.
      { apply orb_true_iff in F. destruct F as [F|F]; [left|right]; lia. }
      destruct (timer_running m) eqn:T; cbn [andb].
      * rewrite (flushed_app m w0 _ _ [EvBytesReceived (bytes_ m + bytes); EvTimerReset]).
        2:{ wsimpl.
            rewrite <- ?app_assoc. reflexivity. }
        cbn. repeat split; try lia; try tauto; try discriminate.
        wsimpl.
        rewrite <- ?app_assoc. reflexivity.
      * rewrite (flushed_app m w0 _ _ [EvBytesReceived (bytes_ m + bytes); EvTimerStart 100]).
        2:{ wsimpl.
            rewrite <- ?app_assoc. reflexivity. }
        cbn. repeat split; try lia; try tauto; try discriminate.
        wsimpl.
        rewrite <- ?app_assoc. reflexivity.
    + assert (~ (samples_since_fire g + 1 < 2 \/ bytes_ m + bytes > 65535)) as Hcond.
      { apply orb_false_iff in F. destruct F as [F1 F2]. lia. }
      destruct (timer_running m) eqn:T; cbn [andb].
      * rewrite (flushed_app m w0 _ _ nil) by (rewrite app_nil_r; reflexivity).
        cbn. repeat split; try lia; try tauto; try discriminate.
        rewrite app_nil_r. reflexivity.
      * rewrite (flushed_app m w0 _ _ [EvTimerStart 100]) by reflexivity.
        cbn. repeat split; try lia; try tauto; try discriminate.
  - intros m' w' Hfire. unfold OnTimerFired in Hfire.
    cbn [bytes_ increments_ timer_running] in Hfire.
    destruct (bytes_ m =? 0) eqn:E.
    + apply Z.eqb_eq in E. injection Hfire as <- <-. cbn.
      repeat split; try lia; try reflexivity; intros; lia.
    + apply Z.eqb_neq in E. unfold Update in Hfire. cbn [bytes_] in Hfire.
      destruct (bytes_ m =? 0) eqn:E'; [apply Z.eqb_eq in E'; lia|].
      injection Hfire as <- <-. cbn.
      repeat split; try lia; try reflexivity; intros; lia.
Qed.

(** The theorem after one increment of a fresh monitor: the monitor has
    counted one sample and holds no bytes, and a second increment, of 100
    bytes, is not flushed. *)
Lemma C3_increment_and_timer_fire_witness :
  let w0 := snd (snd (grun [OpIncrement 1] (init, empty_world))) in
  grun [OpIncrement 1] (init, empty_world) = (mkGhost 0 1, (mk 0 1 true, w0)) /\
  (flushed (mk 0 1 true, w0) (Increment 100 (mk 0 1 true) w0) = true <->
   1 + 1 < 2 \/ 0 + 100 > 65535).
Proof.
  intros w0. split; [reflexivity|].
  destruct (C3_increment_and_timer_fire [OpIncrement 1] empty_world 100
              (mkGhost 0 1) (mk 0 1 true) w0
              eq_refl ltac:(lia) ltac:(cbn; lia)) as (_ & H & _).
  destruct (Increment 100 (mk 0 1 true) w0) as [m' w'] eqn:E.
  destruct (H ltac:(lia) m' w' eq_refl) as (_ & _ & _ & Hiff & _).
  exact Hiff.
Defined.

(** C4, as the specification words it, fails: after the first increment of a
    fresh monitor the bytes have been flushed (none are unreported) and the
    timer is running. *)
Lemma C4_timer_iff_bytes_counterexample :
  ~ timer_iff_bytes [OpIncrement 1] empty_world.
Proof.
  unfold timer_iff_bytes. vm_compute. intros [H _].
  apply H; reflexivity.
Qed.

(** C4, amended: at every quiescent point of a monitor (after any sequence
    of increments, timer fires and closes), if the count of unreported
    accumulated bytes is non-zero then the coalescing timer is running.
    (The timer also runs with no unreported bytes, from a flush until a
    timer fire finds nothing accumulated.) *)
Theorem C4_unreported_bytes_imply_timer (h : list Op) (w : World) :
  bytes_ (fst (run h (init, w))) <> 0 ->
  timer_running (fst (run h (init, w))) = true.
Proof.
  pose proof (wf_grun h w) as Hwf.
  rewrite <- (grun_run h (mkGhost 0 0) (init, w)).
  unfold grun in Hwf.
  destruct (fold_left gstep h (mkGhost 0 0, (init, w))) as [g [m w']].
  cbn [fst snd]. destruct Hwf as (_ & _ & _ & H). exact H.
Qed.

Lemma C4_unreported_bytes_imply_timer_witness :
  bytes_ (fst (run [OpIncrement 1; OpIncrement 100] (init, empty_world))) = 100 /\
  timer_running (fst (run [OpIncrement 1; OpIncrement 100] (init, empty_world))) = true.
Proof.
  split; [reflexivity|].
  apply (C4_unreported_bytes_imply_timer [OpIncrement 1; OpIncrement 100] empty_world).
  vm_compute. discriminate.
Defined.

End MonitorClaimsProved.

(** ** The socket: facts about the primitives *)

Ltac msimpl :=
  cbn [bind ret gets modify liftW effect CHECK get_errno
       monitor_do is_some option_bind negb andb orb].

Lemma bind_liftW {A B} (f : World -> A * World) (k : A -> M B) s w :
  bind (liftW f) k s w = k (fst (f w)) s (snd (f w)).
Proof. unfold bind, liftW. destruct (f w). reflexivity. Qed.

Lemma bind_gets {A B} (f : UDPSocketPosix -> A) (k : A -> M B) s w :
  bind (gets f) k s w = k (f s) s w.
Proof. reflexivity. Qed.

Lemma bind_modify {B} (f : UDPSocketPosix -> UDPSocketPosix) (k : unit -> M B) s w :
  bind (modify f) k s w = k tt (f s) w.
Proof. reflexivity. Qed.

Lemma bind_effect {B} (f : World -> World) (k : unit -> M B) s w :
  bind (effect f) k s w = k tt s (f w).
Proof. reflexivity. Qed.

Lemma bind_ret {A B} (a : A) (k : A -> M B) s w : bind (ret a) k s w = k a s w.
Proof. reflexivity. Qed.

Lemma bind_CHECK {B} (b : bool) (k : unit -> M B) s w :
  bind (CHECK b) k s w = if b then k tt s w else Fatal w.
Proof. destruct b; reflexivity. Qed.

Lemma bind_get_errno {B} (k : Z -> M B) s w : bind get_errno k s w = k (errno w) s w.
Proof. reflexivity. Qed.

Lemma bind_assoc {A B C} (m : M A) (f : A -> M B) (g : B -> M C) s w :
  bind (bind m f) g s w = bind m (fun a => bind (f a) g) s w.
Proof. unfold bind. destruct (m s w); reflexivity. Qed.

Lemma bind_Done {A B} (m : M A) (k : A -> M B) s w a s' w' :
  m s w = Done a s' w' -> bind m k s w = k a s' w'.
Proof. intros H. unfold bind. rewrite H. reflexivity. Qed.

Lemma bind_Fatal {A B} (m : M A) (k : A -> M B) s w w' :
  m s w = Fatal w' -> bind m k s w = Fatal w'.
Proof. intros H. unfold bind. rewrite H. reflexivity. Qed.

(** The steps of a member function that make no call. *)
Ltac mpure :=
  repeat first
    [ rewrite bind_assoc
    | rewrite bind_gets | rewrite bind_modify | rewrite bind_effect
    | rewrite bind_ret | rewrite bind_CHECK | rewrite bind_get_errno ].

(** One step of a member function at a time. *)
Ltac mstep :=
  repeat first
    [ rewrite bind_gets | rewrite bind_modify | rewrite bind_effect
    | rewrite bind_ret | rewrite bind_CHECK | rewrite bind_get_errno
    | rewrite bind_liftW ].

Lemma syscall_errno c w e w' :
  syscall c w = (SysErr e, w') -> errno w' = Zpos e.
Proof.
  unfold syscall, next_answer. intros H.
  destruct (script w) as [|a rest]; cbn in H.
  - injection H as He Hw. subst. reflexivity.
  - destruct a; try discriminate H. injection H as He Hw. subst. reflexivity.
Qed.

Lemma sys_status_spec c w :
  sys_status c w = (if failed (fst (syscall c w)) then -1 else 0, snd (syscall c w)).
Proof.
  unfold sys_status. destruct (syscall c w) as [a w']. destruct a; reflexivity.
Qed.

(** How a member function ends that issues one socket option call and maps
    its failure. *)
Lemma option_call_outcome cfg c s w :
  (rv <- liftW (sys_status c) ;;
   if rv <? 0 then fail_with_errno cfg else ret OK) s w =
  option_outcome cfg s (syscall c w).
Proof.
  unfold option_outcome, bind, liftW, fail_with_errno, get_errno, ret.
  rewrite sys_status_spec.
  destruct (syscall c w) as [a w'] eqn:E. cbn [fst snd].
  destruct a; cbn; try reflexivity.
  rewrite (syscall_errno _ _ _ _ E). reflexivity.
Qed.

(** ** C6: SetMulticastTimeToLive *)

(** C6, as the specification words it, fails on a connected socket: there
    256 is refused because the socket is connected, not as an invalid
    argument. *)
Lemma C6_counterexample :
  ~ C6_as_stated (fst example_bound_socket) (snd example_bound_socket).
Proof.
  unfold C6_as_stated. intros [H _]. vm_compute in H. discriminate H.
Qed.

(** C6, amended: while the socket is not connected,
    [SetMulticastTimeToLive(256)] and [SetMulticastTimeToLive(-1)] (every
    value outside 0..255) fail with [ERR_INVALID_ARGUMENT], and
    [SetMulticastTimeToLive(0)] and [(255)] (every value in 0..255) succeed
    and store the value; while the socket is connected every call, whatever
    the value, fails with [ERR_SOCKET_IS_CONNECTED].  No call touches the
    world. *)
Theorem C6_SetMulticastTimeToLive (s : UDPSocketPosix) (w : World) :
  (is_connected_ s = false ->
   SetMulticastTimeToLive 256 s w = Done ERR_INVALID_ARGUMENT s w /\
   SetMulticastTimeToLive (-1) s w = Done ERR_INVALID_ARGUMENT s w /\
   SetMulticastTimeToLive 0 s w = Done OK (set_multicast_time_to_live_ 0 s) w /\
   SetMulticastTimeToLive 255 s w = Done OK (set_multicast_time_to_live_ 255 s) w /\
   (forall ttl, ttl < 0 \/ 255 < ttl ->
      SetMulticastTimeToLive ttl s w = Done ERR_INVALID_ARGUMENT s w) /\
   (forall ttl, 0 <= ttl <= 255 ->
      SetMulticastTimeToLive ttl s w =
      Done OK (set_multicast_time_to_live_ ttl s) w)) /\
  (is_connected_ s = true ->
   forall ttl, SetMulticastTimeToLive ttl s w = Done ERR_SOCKET_IS_CONNECTED s w).
Proof.
  assert (forall ttl, is_connected_ s = false -> ttl < 0 \/ 255 < ttl ->
            SetMulticastTimeToLive ttl s w = Done ERR_INVALID_ARGUMENT s w) as Hout.
  { intros ttl Hc Hr. unfold SetMulticastTimeToLive. msimpl. rewrite Hc.
    destruct (ttl <? 0) eqn:A; destruct (ttl >? 255) eqn:B; cbn; try reflexivity. lia. }
  assert (forall ttl, is_connected_ s = false -> 0 <= ttl <= 255 ->
            SetMulticastTimeToLive ttl s w =
            Done OK (set_multicast_time_to_live_ ttl s) w) as Hin.
  { intros ttl Hc Hr. unfold SetMulticastTimeToLive. msimpl. rewrite Hc.
    destruct (ttl <? 0) eqn:A; destruct (ttl >? 255) eqn:B; cbn; try reflexivity; lia. }
  split.
  - intros Hc. repeat split; intros;
      first [ apply Hout; [assumption|lia] | apply Hin; [assumption|lia] ].
  - intros Hc ttl. unfold SetMulticastTimeToLive. msimpl. rewrite Hc. reflexivity.
Qed.

(** The theorem on the bound (hence connected) example socket and on a fresh
    one. *)
Lemma C6_SetMulticastTimeToLive_witness :
  SetMulticastTimeToLive 256
    (fst example_bound_socket) (snd example_bound_socket) =
  Done ERR_SOCKET_IS_CONNECTED (fst example_bound_socket) (snd example_bound_socket) /\
  SetMulticastTimeToLive 256
    (UDPSocketPosix_new DEFAULT_BIND false) empty_world =
  Done ERR_INVALID_ARGUMENT (UDPSocketPosix_new DEFAULT_BIND false) empty_world.
Proof.
  split.
  - destruct (C6_SetMulticastTimeToLive
                (fst example_bound_socket) (snd example_bound_socket)) as [_ H].
    apply H. reflexivity.
  - destruct (C6_SetMulticastTimeToLive
                (UDPSocketPosix_new DEFAULT_BIND false) empty_world) as [H _].
    destruct (H eq_refl) as [H256 _]. exact H256.
Defined.

(** ** C10: JoinGroup and LeaveGroup *)

(** C10: [JoinGroup] and [LeaveGroup] return [ERR_SOCKET_NOT_CONNECTED]
    whenever the socket is not connected.  On a connected socket they return
    [ERR_ADDRESS_INVALID] whenever the size of the group address is neither
    the IPv4 nor the IPv6 size, or does not match the socket's address
    family; otherwise they issue the membership socket option of that family
    (on the socket's descriptor, for the group address) and return [OK] or
    the mapped OS error.  The IPv4 option carries the interface index as
    the [int] that the assignment to [imr_ifindex] makes of the [uint32_t]
    [multicast_interface_]; the IPv6 option carries it unsigned.  The socket
    object is never changed. *)
Theorem C10_JoinGroup_LeaveGroup (cfg : Config) (group : IPAddress)
    (s : UDPSocketPosix) (w : World) :
  (is_connected_ s = false ->
   JoinGroup cfg group s w = Done ERR_SOCKET_NOT_CONNECTED s w /\
   LeaveGroup cfg group s w = Done ERR_SOCKET_NOT_CONNECTED s w) /\
  (is_connected_ s = true ->
   (length group <> kIPv4AddressSize /\ length group <> kIPv6AddressSize) \/
   (length group = kIPv4AddressSize /\ addr_family_ s <> AF_INET) \/
   (length group = kIPv6AddressSize /\ addr_family_ s <> AF_INET6) ->
   JoinGroup cfg group s w = Done ERR_ADDRESS_INVALID s w /\
   LeaveGroup cfg group s w = Done ERR_ADDRESS_INVALID s w) /\
  (is_connected_ s = true ->
   length group = kIPv4AddressSize -> addr_family_ s = AF_INET ->
   JoinGroup cfg group s w =
   option_outcome cfg s
     (syscall (c_setsockopt (socket_ s) IPPROTO_IP IP_ADD_MEMBERSHIP
                 (OptMreqn group INADDR_ANY
                    (int_of_uint32 (multicast_interface_ s)))) w) /\
   LeaveGroup cfg group s w =
   option_outcome cfg s
     (syscall (c_setsockopt (socket_ s) IPPROTO_IP IP_DROP_MEMBERSHIP
                 (OptMreqn group INADDR_ANY
                    (int_of_uint32 (multicast_interface_ s)))) w)) /\
  (is_connected_ s = true ->
   length group = kIPv6AddressSize -> addr_family_ s = AF_INET6 ->
   JoinGroup cfg group s w =
   option_outcome cfg s
     (syscall (c_setsockopt (socket_ s) IPPROTO_IPV6 IPV6_JOIN_GROUP
                 (OptMreq6 group (multicast_interface_ s))) w) /\
   LeaveGroup cfg group s w =
   option_outcome cfg s
     (syscall (c_setsockopt (socket_ s) IPPROTO_IPV6 IPV6_LEAVE_GROUP
                 (OptMreq6 group
                    (if IS_FUCHSIA cfg then multicast_interface_ s else 0))) w)).
Proof.
  unfold kIPv4AddressSize, kIPv6AddressSize.
  split; [|split; [|split]].
  - intros Hc. unfold JoinGroup, LeaveGroup. msimpl. rewrite Hc. split; reflexivity.
  - intros Hc Hbad. unfold JoinGroup, LeaveGroup, kIPv4AddressSize, kIPv6AddressSize.
    msimpl. rewrite Hc. msimpl.
    destruct Hbad as [[H4 H16]|[[H4 Hf]|[H16 Hf]]].
    + apply Nat.eqb_neq in H4, H16. rewrite H4, H16. split; reflexivity.
    + rewrite H4. cbn [Nat.eqb]. apply Z.eqb_neq in Hf. rewrite Hf. split; reflexivity.
    + rewrite H16. cbn [Nat.eqb]. apply Z.eqb_neq in Hf. rewrite Hf. split; reflexivity.
  - intros Hc H4 Hf. rewrite <- !option_call_outcome.
    unfold JoinGroup, LeaveGroup, kIPv4AddressSize. msimpl. rewrite Hc. msimpl.
    rewrite H4, Hf. split; reflexivity.
  - intros Hc H16 Hf. rewrite <- !option_call_outcome.
    unfold JoinGroup, LeaveGroup, kIPv4AddressSize, kIPv6AddressSize.
    msimpl. rewrite Hc. msimpl. rewrite H16, Hf. split; reflexivity.
Qed.

(** The conversion keeps the indices below 2^31 and makes the others
    negative. *)
Lemma int_of_uint32_spec z :
  (0 <= z < 2 ^ 31 -> int_of_uint32 z = z) /\
  (2 ^ 31 <= z < 2 ^ 32 -> int_of_uint32 z = z - 2 ^ 32).
Proof.
  unfold int_of_uint32. split; intros H.
  - rewrite Z.mod_small by lia. lia.
  - replace (z + 2 ^ 31) with (z - 2 ^ 31 + 1 * 2 ^ 32) by lia.
    rewrite Z.mod_add by lia. rewrite Z.mod_small by lia. lia.
Qed.

(** The theorem on the bound IPv4 example socket with the interface index
    4294967295, when the kernel refuses the membership with [EINVAL]: the
    index reaches the kernel as -1. *)
Lemma C10_JoinGroup_LeaveGroup_witness :
  let s := set_multicast_interface_ 4294967295 (fst example_bound_socket) in
  let w := set_script [SysErr 22] (snd example_bound_socket) in
  JoinGroup example_config [224; 0; 0; 251] s w =
  option_outcome example_config s
    (syscall (c_setsockopt 3 IPPROTO_IP IP_ADD_MEMBERSHIP
                (OptMreqn [224; 0; 0; 251] INADDR_ANY (-1))) w) /\
  result_of (JoinGroup example_config [224; 0; 0; 251] s w) =
  Some ERR_INVALID_ARGUMENT.
Proof.
  intros s w. split; [|reflexivity].
  destruct (C10_JoinGroup_LeaveGroup example_config [224; 0; 0; 251] s w)
    as (_ & _ & H & _).
  destruct (H eq_refl eq_refl eq_refl) as [HJ _]. exact HJ.
Defined.

(** ** C5: SetDiffServCodePoint *)

(** C5, as the specification words it, fails: on an IPv6-family socket the
    kernel refuses the IPv4 option and accepts the IPv6 one, and the call
    returns [OK]; the IPv4 failure is not surfaced. *)
Lemma C5_counterexample :
  ~ C5_as_stated example_config 46 (fst example_open_socket_v6)
      (set_script [SysErr 92; SysOk 0] (snd example_open_socket_v6)).
Proof.
  intros H.
  destruct (H ltac:(discriminate) eq_refl (SysErr 92) (SysOk 0) [] eq_refl) as [H4 _].
  apply H4; reflexivity.
Qed.

Lemma shifted_code_point dscp :
  0 <= dscp < 64 ->
  0 <= Z.shiftl dscp 2 < 256 /\ Z.land (Z.shiftl dscp 2) 3 = 0 /\
  Z.shiftr (Z.shiftl dscp 2) 2 = dscp.
Proof.
  intros H. rewrite Z.shiftl_mul_pow2 by lia. change (2 ^ 2) with 4.
  split; [lia|]. split.
  - change 3 with (Z.ones 2). rewrite Z.land_ones by lia.
    change (2 ^ 2) with 4. apply Z_mod_mult.
  - rewrite Z.shiftr_div_pow2 by lia. change (2 ^ 2) with 4.
    apply Z.div_mul. lia.
Qed.

(** C5, amended: with the no-change code point [SetDiffServCodePoint]
    returns [OK] without touching any option.  With any other code point it
    writes the code point shifted left by 2 bits (for a 6-bit code point:
    a byte whose low 2 bits, the congestion field, are zero) to the IPv4
    option [IP_TOS]; for an IPv6-family socket it then writes the same value
    to the IPv6 option [IPV6_TCLASS] as well, and there the result of the
    IPv4 option is ignored (its failure is tolerated) and a failure of the
    IPv6 option is surfaced as the mapped error; for any other socket a
    failure of the IPv4 option is surfaced as the mapped error. *)
Theorem C5_SetDiffServCodePoint (cfg : Config) (dscp : Z)
    (s : UDPSocketPosix) (w : World) :
  SetDiffServCodePoint cfg DSCP_NO_CHANGE s w = Done OK s w /\
  (0 <= dscp < 64 ->
   0 <= Z.shiftl dscp 2 < 256 /\ Z.land (Z.shiftl dscp 2) 3 = 0 /\
   Z.shiftr (Z.shiftl dscp 2) 2 = dscp) /\
  (dscp <> DSCP_NO_CHANGE ->
   let tos := c_setsockopt (socket_ s) IPPROTO_IP IP_TOS (OptInt (Z.shiftl dscp 2)) in
   let tclass :=
     c_setsockopt (socket_ s) IPPROTO_IPV6 IPV6_TCLASS (OptInt (Z.shiftl dscp 2)) in
   (addr_family_ s <> AF_INET6 ->
    SetDiffServCodePoint cfg dscp s w = option_outcome cfg s (syscall tos w)) /\
   (addr_family_ s = AF_INET6 ->
    SetDiffServCodePoint cfg dscp s w =
    option_outcome cfg s (syscall tclass (snd (syscall tos w))))).
Proof.
  split; [reflexivity|]. split; [apply shifted_code_point|].
  intros Hd tos tclass. apply Z.eqb_neq in Hd. split.
  - intros Hf. apply Z.eqb_neq in Hf. rewrite <- option_call_outcome.
    unfold SetDiffServCodePoint. rewrite Hd. msimpl. rewrite Hf.
    fold tos. destruct (sys_status tos w) as [rv w']. reflexivity.
  - intros Hf. rewrite <- option_call_outcome.
    unfold SetDiffServCodePoint. rewrite Hd. msimpl. rewrite Hf.
    rewrite Z.eqb_refl. fold tos tclass.
    unfold bind at 1, liftW at 1.
    rewrite (sys_status_spec tos w). reflexivity.
Qed.

(** The theorem on the IPv6 example socket, with the kernel refusing the
    IPv4 option and accepting the IPv6 one: the call returns [OK]. *)
Lemma C5_SetDiffServCodePoint_witness :
  SetDiffServCodePoint example_config 46 (fst example_open_socket_v6)
    (set_script [SysErr 92; SysOk 0] (snd example_open_socket_v6)) =
  option_outcome example_config (fst example_open_socket_v6)
    (syscall (c_setsockopt 3 IPPROTO_IPV6 IPV6_TCLASS (OptInt 184))
       (snd (syscall (c_setsockopt 3 IPPROTO_IP IP_TOS (OptInt 184))
               (set_script [SysErr 92; SysOk 0] (snd example_open_socket_v6))))) /\
  result_of (SetDiffServCodePoint example_config 46 (fst example_open_socket_v6)
               (set_script [SysErr 92; SysOk 0] (snd example_open_socket_v6))) =
  Some OK.
Proof.
  split; [|reflexivity].
  destruct (C5_SetDiffServCodePoint example_config 46 (fst example_open_socket_v6)
              (set_script [SysErr 92; SysOk 0] (snd example_open_socket_v6)))
    as (_ & _ & H).
  destruct (H ltac:(discriminate)) as [_ H6]. exact (H6 eq_refl).
Defined.

(** ** Facts about HANDLE_EINTR and the byte accounting *)

(** A property of the result of every single call is a property of the
    result of the retried call. *)
Lemma eintr_loop_ind {A} (P : A -> World -> Prop) (result : A -> Z)
    (x : World -> A * World) :
  (forall w, P (fst (x w)) (snd (x w))) ->
  forall fuel w, P (fst (eintr_loop result fuel x w)) (snd (eintr_loop result fuel x w)).
Proof.
  intros Hx. induction fuel as [|fuel IH]; intros w; cbn [eintr_loop].
  - specialize (Hx w). destruct (x w) as [r w']. exact Hx.
  - pose proof (Hx w) as H. destruct (x w) as [r w'].
    destruct ((result r =? -1) && (errno w' =? EINTR)); [apply IH | exact H].
Qed.

(** A call that is not interrupted is made once. *)
Lemma HANDLE_EINTR_once (x : World -> Z * World) w r w' :
  x w = (r, w') ->
  (r =? -1) && (errno w' =? EINTR) = false ->
  HANDLE_EINTR x w = (r, w').
Proof.
  intros Hx Hc. unfold HANDLE_EINTR.
  destruct (length (script w)); cbn [eintr_loop]; rewrite Hx; [reflexivity|].
  rewrite Hc. reflexivity.
Qed.

(** A retried status call returns 0, or -1 with a positive [errno]. *)
Lemma HANDLE_EINTR_status c w :
  let '(rv, w') := HANDLE_EINTR (sys_status c) w in
  rv = 0 \/ (rv = -1 /\ 0 < errno w').
Proof.
  unfold HANDLE_EINTR.
  pose proof (eintr_loop_ind
                (fun rv w' => rv = 0 \/ (rv = -1 /\ 0 < errno w'))
                (fun r => r) (sys_status c)) as H.
  specialize (H (fun w0 => ltac:(
    rewrite sys_status_spec; cbn [fst snd];
    destruct (syscall c w0) as [a w1] eqn:E; cbn [fst snd];
    destruct a; cbn [failed]; auto;
    right; split; [reflexivity | rewrite (syscall_errno _ _ _ _ E); lia]))
    (length (script w)) w).
  destruct (eintr_loop _ _ _ w) as [rv w']. exact H.
Qed.

Lemma syscall_memory c w : memory (snd (syscall c w)) = memory w.
Proof.
  unfold syscall, next_answer. destruct (script w) as [|a rest]; cbn; [reflexivity|].
  destruct a; reflexivity.
Qed.

Lemma Increment_memory bytes m w :
  memory (snd (ReceivedActivityMonitor.Increment bytes m w)) = memory w.
Proof.
  destruct (Z.eq_dec bytes 0) as [->|Hnz]; [reflexivity|].
  rewrite (Increment_nonzero bytes m w Hnz). cbv zeta. cbn [snd].
  destruct (_ || _); destruct (negb _); destruct (ReceivedActivityMonitor.timer_running m);
    reflexivity.
Qed.

(** [LogRead] returns, does its accounting, and leaves the callers' memory
    alone. *)
Lemma LogRead_outcome result s w :
  exists s' w', LogRead result s w = Done tt s' w' /\ memory w' = memory w /\
    set_received_activity_monitor_ (received_activity_monitor_ s') s = s'.
Proof.
  unfold LogRead. destruct (result <? 0).
  - exists s, w. repeat split. destruct s; reflexivity.
  - msimpl. destruct (always_update_bytes_received_ s).
    + eexists _, _. msimpl. repeat split. destruct s; reflexivity.
    + unfold monitor_do.
      pose proof (Increment_memory (u32 result) (received_activity_monitor_ s) w) as Hm.
      destruct (ReceivedActivityMonitor.Increment _ _ w) as [m' w'].
      eexists _, _. repeat split. exact Hm.
Qed.

(** ** C2: the connected fast path of receive *)

(** C2: on the connected fast path (optimisation enabled, socket connected,
    remote endpoint cached) [InternalRecvFrom] uses the plain read
    primitive.  Whenever it returns a byte count equal to the requested
    buffer length, the operation reports [ERR_MSG_TOO_BIG] instead of the
    byte count (and does no accounting); every strictly smaller non-negative
    byte count is returned as the result, after the cached remote endpoint
    has been copied to the out-parameter when one is supplied.  In
    particular a datagram of exactly the buffer length is reported as too
    big. *)
Theorem C2_connected_fast_path (cfg : Config) (buf : option nat) (buf_len : Z)
    (address : option nat) (remote : IPEndPoint) (s : UDPSocketPosix) (w : World) :
  experimental_recv_optimization_enabled_ s = true ->
  is_connected_ s = true ->
  remote_address_ s = Some remote ->
  (forall n w1,
     HANDLE_EINTR (sys_transfer (c_read (socket_ s) buf buf_len) buf_len) w = (n, w1) ->
     0 <= n ->
     (n = buf_len ->
      InternalRecvFrom cfg buf buf_len address s w = Done ERR_MSG_TOO_BIG s w1) /\
     (n < buf_len ->
      exists s' w',
        InternalRecvFrom cfg buf buf_len address s w = Done n s' w' /\
        LogRead n s (match address with
                     | Some loc => store_endpoint loc remote w1
                     | None => w1
                     end) = Done tt s' w' /\
        match address with
        | Some loc => load_endpoint loc (memory w') = Some remote
        | None => memory w' = memory w1
        end)) /\
  (forall datagram rest,
     script w = datagram :: rest -> failed datagram = false ->
     0 < buf_len -> answer_size datagram = buf_len ->
     result_of (InternalRecvFrom cfg buf buf_len address s w) = Some ERR_MSG_TOO_BIG).
Proof.
  intros Hopt Hconn Hremote.
  assert (forall n w1,
     HANDLE_EINTR (sys_transfer (c_read (socket_ s) buf buf_len) buf_len) w = (n, w1) ->
     0 <= n -> n = buf_len ->
     InternalRecvFrom cfg buf buf_len address s w = Done ERR_MSG_TOO_BIG s w1) as Hfull.
  { intros n w1 Hread Hn Heq.
    unfold InternalRecvFrom. msimpl. rewrite Hopt, Hconn, Hremote. msimpl.
    unfold InternalRecvFromConnectedSocket. msimpl. rewrite bind_liftW, Hread.
    cbn [fst snd].
    assert ((n <? 0) = false) as -> by lia.
    assert ((n =? buf_len) = true) as -> by lia.
    reflexivity. }
  split.
  - intros n w1 Hread Hn. split; [apply (Hfull n w1 Hread Hn)|].
    intros Hlt.
    set (w1' := match address with
                | Some loc => store_endpoint loc remote w1
                | None => w1
                end).
    destruct (LogRead_outcome n s w1') as (s' & w' & Hlog & Hmem & _).
    exists s', w'. split; [|split; [exact Hlog|]].
    + unfold InternalRecvFrom. msimpl. rewrite Hopt, Hconn, Hremote. msimpl.
      unfold InternalRecvFromConnectedSocket. msimpl. rewrite bind_liftW, Hread.
      cbn [fst snd].
      assert ((n <? 0) = false) as -> by lia.
      assert ((n =? buf_len) = false) as -> by lia.
      msimpl. rewrite Hremote.
      destruct address as [loc|]; msimpl; fold w1';
        rewrite (bind_Done _ _ _ _ _ _ _ Hlog); reflexivity.
    + rewrite Hmem. unfold w1'. destruct address as [loc|]; [|reflexivity].
      cbn. rewrite Nat.eqb_refl. reflexivity.
  - intros datagram rest Hscript Hok Hpos Hsize.
    assert (exists w1, HANDLE_EINTR (sys_transfer (c_read (socket_ s) buf buf_len) buf_len) w
                       = (buf_len, w1)) as [w1 Hread].
    { eexists. apply HANDLE_EINTR_once.
      - unfold sys_transfer, syscall, next_answer. rewrite Hscript.
        destruct datagram; [discriminate Hok| |]; rewrite Hsize, Z.min_id; reflexivity.
      - assert ((buf_len =? -1) = false) as -> by lia. reflexivity. }
    rewrite (Hfull buf_len w1 Hread ltac:(lia) eq_refl). reflexivity.
Qed.

(** The theorem on the connected example socket: a datagram of exactly the
    8 bytes of the buffer is reported as too big. *)
Lemma C2_connected_fast_path_witness :
  result_of (InternalRecvFrom example_config (Some 1%nat) 8 (Some 7%nat)
               (fst example_connected_socket)
               (set_script [SysOk 8] (snd example_connected_socket))) =
  Some ERR_MSG_TOO_BIG.
Proof.
  destruct (C2_connected_fast_path example_config (Some 1%nat) 8 (Some 7%nat)
              (mkIPEndPoint [192; 0; 2; 1] 53) (fst example_connected_socket)
              (set_script [SysOk 8] (snd example_connected_socket))
              eq_refl eq_refl eq_refl) as [_ H].
  apply (H (SysOk 8) []); reflexivity.
Defined.

(** ** Member functions that leave the object alone *)

Lemma preserves_ret {A} (a : A) : preserves (ret a).
Proof. intros s w. exists a, w. reflexivity. Qed.

Lemma preserves_gets {A} (f : UDPSocketPosix -> A) : preserves (gets f).
Proof. intros s w. exists (f s), w. reflexivity. Qed.

Lemma preserves_get_errno : preserves get_errno.
Proof. intros s w. exists (errno w), w. reflexivity. Qed.

Lemma preserves_liftW {A} (f : World -> A * World) : preserves (liftW f).
Proof.
  intros s w. exists (fst (f w)), (snd (f w)). unfold liftW.
  destruct (f w). reflexivity.
Qed.

Lemma preserves_effect (f : World -> World) : preserves (effect f).
Proof. intros s w. exists tt, (f w). reflexivity. Qed.

Lemma preserves_bind {A B} (m : M A) (k : A -> M B) :
  preserves m -> (forall a, preserves (k a)) -> preserves (bind m k).
Proof.
  intros Hm Hk s w. destruct (Hm s w) as (a & w1 & H1).
  destruct (Hk a s w1) as (b & w2 & H2).
  exists b, w2. rewrite (bind_Done _ _ _ _ _ _ _ H1). exact H2.
Qed.

Ltac preserves_step :=
  first
    [ apply preserves_ret | apply preserves_gets | apply preserves_get_errno
    | apply preserves_liftW | apply preserves_effect
    | apply preserves_bind; [|intros ?]
    | match goal with
      | |- preserves (if ?b then _ else _) => destruct b
      | |- preserves (match ?o with Some _ => _ | None => _ end) => destruct o
      end ].

Lemma fail_with_errno_preserves cfg : preserves (fail_with_errno cfg).
Proof. unfold fail_with_errno. repeat preserves_step. Qed.

Lemma SetMulticastOptions_preserves cfg : preserves (SetMulticastOptions cfg).
Proof.
  unfold SetMulticastOptions.
  repeat first [ apply fail_with_errno_preserves | preserves_step ].
Qed.

Lemma DoBind_preserves cfg address : preserves (DoBind cfg address).
Proof.
  unfold DoBind. repeat first [ apply fail_with_errno_preserves | preserves_step ].
Qed.

Lemma RandomBind_loop_preserves cfg address remaining :
  preserves (RandomBind_loop cfg remaining address).
Proof.
  induction remaining as [|remaining IH]; cbn [RandomBind_loop].
  - apply DoBind_preserves.
  - repeat first [ apply DoBind_preserves | exact IH | preserves_step ].
Qed.

Lemma RandomBind_preserves cfg address : preserves (RandomBind cfg address).
Proof. apply RandomBind_loop_preserves. Qed.

(** ** C9: Connect *)

(** How [InternalConnect] ends: it always returns; it caches the remote
    endpoint exactly when it returns [OK], and changes nothing else in the
    object. *)
Lemma InternalConnect_outcome cfg address s w :
  (forall e, 0 < e -> MapSystemError cfg e <> OK) ->
  exists rv s' w',
    InternalConnect cfg address s w = Done rv s' w' /\
    (rv = OK -> s' = set_remote_address_ (Some address) s) /\
    (rv <> OK -> s' = s) /\
    (ToSockAddr address = None -> rv <> OK).
Proof.
  intros Hmap. unfold InternalConnect. msimpl.
  assert (preserves (if BindType_eqb (bind_type_ s) RANDOM_BIND
                     then RandomBind cfg
                            (AllZeros (if GetSockAddrFamily address =? AF_INET
                                       then kIPv4AddressSize else kIPv6AddressSize))
                     else ret 0)) as Hbind.
  { destruct (BindType_eqb _ _); [apply RandomBind_preserves | apply preserves_ret]. }
  destruct (Hbind s w) as (rvb & wb & Hb).
  rewrite (bind_Done _ _ _ _ _ _ _ Hb).
  destruct (rvb <? 0) eqn:Hneg.
  - msimpl. eexists _, _, _. split; [reflexivity|].
    unfold OK. repeat split; intros; try reflexivity; lia.
  - destruct (ToSockAddr address) as [storage|] eqn:Hconv.
    + msimpl. rewrite bind_liftW.
      pose proof (HANDLE_EINTR_status (c_connect (socket_ s) storage) wb) as Hst.
      destruct (HANDLE_EINTR _ wb) as [rv w1]. cbn [fst snd].
      destruct Hst as [->|[-> Herr]].
      * cbn. eexists _, _, _. split; [reflexivity|]. split; [|split].
        -- intros _. reflexivity.
        -- intros H. contradiction H. reflexivity.
        -- intros H. discriminate H.
      * cbn. unfold fail_with_errno. msimpl. eexists _, _, _.
        split; [reflexivity|]. split; [|split].
        -- intros H. exfalso. exact (Hmap _ Herr H).
        -- intros _. reflexivity.
        -- intros H. discriminate H.
    + eexists _, _, _. split; [reflexivity|].
      unfold ERR_ADDRESS_INVALID, OK. repeat split; intros; try reflexivity; lia.
Qed.

(** [InternalConnect], given how its bind stage ended: a failed random
    bind is recorded and returned; otherwise the result is that of the
    address conversion and of the OS connect. *)
Lemma InternalConnect_after_bind cfg address s w rvb wb :
  (if BindType_eqb (bind_type_ s) RANDOM_BIND
   then RandomBind cfg (connect_wildcard address) else ret 0) s w = Done rvb s wb ->
  InternalConnect cfg address s w =
  if rvb <? 0 then Done rvb s (emit (EvHistogram (- rvb)) wb)
  else match ToSockAddr address with
       | None => Done ERR_ADDRESS_INVALID s wb
       | Some sa =>
           let '(r, w1) := HANDLE_EINTR (sys_status (c_connect (socket_ s) sa)) wb in
           if r <? 0 then Done (MapSystemError cfg (errno w1)) s w1
           else Done r (set_remote_address_ (Some address) s) w1
       end.
Proof.
  intros Hb. unfold InternalConnect. rewrite bind_gets.
  unfold connect_wildcard in Hb. rewrite (bind_Done _ _ _ _ _ _ _ Hb).
  destruct (rvb <? 0).
  - rewrite bind_effect. reflexivity.
  - destruct (ToSockAddr address) as [sa|]; [|reflexivity].
    rewrite bind_gets, bind_liftW.
    destruct (HANDLE_EINTR (sys_status (c_connect (socket_ s) sa)) wb) as [r w1].
    cbn [fst snd]. destruct (r <? 0).
    + unfold fail_with_errno. rewrite bind_get_errno. reflexivity.
    + rewrite bind_modify. reflexivity.
Qed.

(** [Connect] once the multicast options are set: the result of
    [InternalConnect] decides the connection flag and the tag. *)
Lemma Connect_after_options cfg address s w w0 rv s1 w1 :
  SetMulticastOptions cfg s w = Done OK s w0 ->
  InternalConnect cfg address s w0 = Done rv s1 w1 ->
  Connect cfg address s w =
  Done rv (if rv =? OK then set_is_connected_ true s1 else connect_failed s1) w1.
Proof.
  intros H0 H1. unfold Connect, connect_failed. rewrite (bind_Done _ _ _ _ _ _ _ H0).
  cbn [Z.eqb OK negb]. rewrite (bind_Done _ _ _ _ _ _ _ H1). msimpl.
  destruct (rv =? OK); reflexivity.
Qed.

(** C9: [Connect] always returns.  When the multicast-option stage fails,
    [Connect] returns that error and leaves the object (connection flag and
    tag included) unchanged.  Otherwise, when [Connect] fails (the random
    bind, the conversion of the destination address or the OS connect
    failed), the socket is left not connected and its tag is reset to the
    default tag; a successful [Connect] leaves the tag unchanged, sets the
    connection flag and caches the remote endpoint.  Which of these happens
    is decided by the kernel's answers and by nothing else: a random bind
    that fails makes [Connect] return its error, with no connect made; an
    address that does not convert gives [ERR_ADDRESS_INVALID]; a refused OS
    connect gives the mapped OS error; and an OS connect that is granted
    makes [Connect] return [OK].  ([MapSystemError] is assumed to map no OS
    error to [OK].) *)
Theorem C9_Connect (cfg : Config) (address : IPEndPoint)
    (s : UDPSocketPosix) (w : World) :
  (forall e, 0 < e -> MapSystemError cfg e <> OK) ->
  exists rv0 w0,
    SetMulticastOptions cfg s w = Done rv0 s w0 /\
    (rv0 <> OK -> Connect cfg address s w = Done rv0 s w0) /\
    (rv0 = OK ->
     exists rv s1 s' w',
       InternalConnect cfg address s w0 = Done rv s1 w' /\
       Connect cfg address s w = Done rv s' w' /\
       (ToSockAddr address = None -> rv <> OK) /\
       (rv <> OK ->
        is_connected_ s' = false /\ tag_ s' = SocketTag_default /\
        s' = set_tag_ SocketTag_default (set_is_connected_ false s)) /\
       (rv = OK ->
        is_connected_ s' = true /\ tag_ s' = tag_ s /\
        remote_address_ s' = Some address /\
        s' = set_is_connected_ true (set_remote_address_ (Some address) s))) /\
    (rv0 = OK ->
     exists rvb wb,
       (bind_type_ s = RANDOM_BIND ->
        RandomBind cfg (connect_wildcard address) s w0 = Done rvb s wb) /\
       (bind_type_ s = DEFAULT_BIND -> rvb = 0 /\ wb = w0) /\
       (rvb < 0 ->
        Connect cfg address s w =
          Done rvb (connect_failed s) (emit (EvHistogram (- rvb)) wb)) /\
       (0 <= rvb -> ToSockAddr address = None ->
        Connect cfg address s w = Done ERR_ADDRESS_INVALID (connect_failed s) wb) /\
       (0 <= rvb -> forall sa, ToSockAddr address = Some sa ->
        exists r w1,
          HANDLE_EINTR (sys_status (c_connect (socket_ s) sa)) wb = (r, w1) /\
          ((r = 0 /\
            Connect cfg address s w = Done OK (connect_succeeded address s) w1) \/
           (r = -1 /\ 0 < errno w1 /\ MapSystemError cfg (errno w1) <> OK /\
            Connect cfg address s w =
              Done (MapSystemError cfg (errno w1)) (connect_failed s) w1)))).
Proof.
  intros Hmap.
  destruct (SetMulticastOptions_preserves cfg s w) as (rv0 & w0 & H0).
  exists rv0, w0. split; [exact H0|]. split; [|split].
  - intros Hne. unfold Connect. rewrite (bind_Done _ _ _ _ _ _ _ H0).
    apply Z.eqb_neq in Hne. rewrite Hne. reflexivity.
  - intros ->.
    destruct (InternalConnect_outcome cfg address s w0 Hmap)
      as (rv & s1 & w1 & H1 & Hok & Hfail & Hconv).
    pose proof (Connect_after_options cfg address s w w0 rv s1 w1 H0 H1) as HC.
    unfold connect_failed in HC.
    exists rv, s1, (if rv =? OK then set_is_connected_ true s1
                    else set_tag_ SocketTag_default (set_is_connected_ false s1)), w1.
    split; [exact H1|]. split; [exact HC|]. split; [exact Hconv|]. split.
    + intros Hne. rewrite (Hfail Hne). apply Z.eqb_neq in Hne. rewrite Hne.
      repeat split.
    + intros Heq. rewrite (Hok Heq). apply Z.eqb_eq in Heq. rewrite Heq.
      repeat split.
  - intros ->.
    assert (exists rvb wb,
              (if BindType_eqb (bind_type_ s) RANDOM_BIND
               then RandomBind cfg (connect_wildcard address) else ret 0) s w0
                = Done rvb s wb /\
              (bind_type_ s = RANDOM_BIND ->
               RandomBind cfg (connect_wildcard address) s w0 = Done rvb s wb) /\
              (bind_type_ s = DEFAULT_BIND -> rvb = 0 /\ wb = w0))
      as (rvb & wb & Hb & Hrandom & Hdefault).
    { destruct (bind_type_ s); cbn [BindType_eqb].
      - destruct (RandomBind_preserves cfg (connect_wildcard address) s w0)
          as (rvb & wb & Hb).
        exists rvb, wb. split; [exact Hb|]. split; [intros _; exact Hb|].
        intros H. discriminate H.
      - exists 0, w0. split; [reflexivity|]. split; [intros H; discriminate H|].
        intros _. split; reflexivity. }
    pose proof (InternalConnect_after_bind cfg address s w0 rvb wb Hb) as HI.
    exists rvb, wb. split; [exact Hrandom|]. split; [exact Hdefault|].
    split; [|split].
    + intros Hneg. assert ((rvb <? 0) = true) as E by lia. rewrite E in HI.
      rewrite (Connect_after_options cfg address s w w0 _ _ _ H0 HI).
      assert ((rvb =? OK) = false) as -> by (unfold OK; lia). reflexivity.
    + intros Hpos Hconv. assert ((rvb <? 0) = false) as E by lia.
      rewrite E, Hconv in HI.
      rewrite (Connect_after_options cfg address s w w0 _ _ _ H0 HI). reflexivity.
    + intros Hpos sa Hconv. assert ((rvb <? 0) = false) as E by lia.
      rewrite E, Hconv in HI.
      pose proof (HANDLE_EINTR_status (c_connect (socket_ s) sa) wb) as Hst.
      destruct (HANDLE_EINTR (sys_status (c_connect (socket_ s) sa)) wb) as [r w1].
      exists r, w1. split; [reflexivity|].
      destruct Hst as [->|[-> Herr]].
      * left. split; [reflexivity|]. change (0 <? 0) with false in HI. cbv iota in HI.
        rewrite (Connect_after_options cfg address s w w0 _ _ _ H0 HI). reflexivity.
      * right. split; [reflexivity|]. split; [exact Herr|].
        pose proof (Hmap _ Herr) as Hne. split; [exact Hne|].
        change (-1 <? 0) with true in HI. cbv iota in HI.
        rewrite (Connect_after_options cfg address s w w0 _ _ _ H0 HI).
        apply Z.eqb_neq in Hne. rewrite Hne. reflexivity.
Qed.

Lemma example_MapSystemError_fails e : 0 < e -> example_MapSystemError e <> OK.
Proof.
  intros He. unfold example_MapSystemError.
  assert ((e =? 0) = false) as -> by lia.
  destruct (e =? EAGAIN); [discriminate|].
  destruct (e =? EADDRINUSE); [discriminate|].
  destruct (e =? EINVAL); discriminate.
Qed.

(** The theorem on the freshly opened IPv6 example socket, once tagged,
    connecting to [::1]:53.  When the OS connect is refused
    ([ECONNREFUSED], 111) [Connect] fails, the socket stays unconnected and
    the tag is reset; when it is granted [Connect] returns [OK], the socket
    is connected, the tag is kept and the endpoint is cached.  On a socket
    that binds at random, a bind that the kernel refuses ([EINVAL]) makes
    [Connect] fail without a connect. *)
Lemma C9_Connect_witness :
  let address := mkIPEndPoint (AllZeros 15 ++ [1]) 53 in
  let s := set_tag_ (mkSocketTag 10 20) (fst example_open_socket_v6) in
  let refused := set_script [SysErr 111] (snd example_open_socket_v6) in
  let granted := set_script [SysOk 0] (snd example_open_socket_v6) in
  let random := set_socket_ 3 (UDPSocketPosix_new RANDOM_BIND false) in
  (exists rv s' w',
     Connect example_config address s refused = Done rv s' w' /\
     rv <> OK /\ is_connected_ s' = false /\ tag_ s' = SocketTag_default) /\
  (exists w',
     Connect example_config address s granted
       = Done OK (connect_succeeded address s) w' /\
     is_connected_ (connect_succeeded address s) = true /\
     tag_ (connect_succeeded address s) = mkSocketTag 10 20 /\
     remote_address_ (connect_succeeded address s) = Some address) /\
  (exists w',
     Connect example_config address random (set_script [SysErr 22] empty_world)
       = Done ERR_INVALID_ARGUMENT (connect_failed random) w' /\
     forall sa a, ~ In (EvSys (c_connect 3 sa) a) (trace w')).
Proof.
  intros address s refused granted random.
  split; [|split].
  - destruct (C9_Connect example_config address s refused example_MapSystemError_fails)
      as (rv0 & w0 & H0 & _ & H & _).
    assert (rv0 = OK) as Hrv0.
    { vm_compute in H0. injection H0 as <- _. reflexivity. }
    destruct (H Hrv0) as (rv & s1 & s' & w' & H1 & HC & _ & Hfail & _).
    exists rv, s', w'. split; [exact HC|].
    assert (rv <> OK) as Hne.
    { rewrite Hrv0 in H0. vm_compute in H0. injection H0 as <-.
      vm_compute in H1. injection H1 as <- _ _. discriminate. }
    destruct (Hfail Hne) as (Hc & Ht & _). split; [exact Hne|]. split; assumption.
  - destruct (C9_Connect example_config address s granted example_MapSystemError_fails)
      as (rv0 & w0 & H0 & _ & _ & H).
    assert (rv0 = OK /\ w0 = granted) as (Hrv0 & Hw0).
    { vm_compute in H0. injection H0 as <- <-. split; reflexivity. }
    destruct (H Hrv0) as (rvb & wb & _ & Hdefault & _ & _ & Hconnect).
    destruct (Hdefault eq_refl) as (-> & ->).
    destruct (Hconnect ltac:(lia) (mkSockAddr AF_INET6 (AllZeros 15 ++ [1]) 53) eq_refl)
      as (r & w1 & Hcall & [(_ & HC)|(Hr & _)]).
    + exists w1. split; [exact HC|]. repeat split.
    + exfalso. rewrite Hw0 in Hcall. vm_compute in Hcall. injection Hcall as <- _.
      discriminate Hr.
  - destruct (C9_Connect example_config address random
                (set_script [SysErr 22] empty_world) example_MapSystemError_fails)
      as (rv0 & w0 & H0 & _ & _ & H).
    assert (rv0 = OK /\ w0 = set_script [SysErr 22] empty_world) as (Hrv0 & Hw0).
    { vm_compute in H0. injection H0 as <- <-. split; reflexivity. }
    destruct (H Hrv0) as (rvb & wb & Hrandom & _ & Hfail & _).
    specialize (Hrandom eq_refl). rewrite Hw0 in Hrandom.
    vm_compute in Hrandom. injection Hrandom as <- <-.
    eexists. split; [apply Hfail; lia|].
    intros sa a Hin. vm_compute in Hin.
    destruct Hin as [Hin|[Hin|[Hin|[]]]]; discriminate Hin.
Defined.

(** ** Close *)

Ltac ssimpl :=
  cbn [socket_ socket_hash_ addr_family_ is_connected_ socket_options_ sendto_flags_
       set_sendto_flags_
       multicast_interface_ multicast_time_to_live_ bind_type_ local_address_
       remote_address_ read_socket_watcher_ write_socket_watcher_ read_buf_
       read_buf_len_ recv_from_address_ write_buf_ write_buf_len_ send_to_address_
       read_callback_ write_callback_ tag_ owned_socket_count_
       received_activity_monitor_ experimental_recv_optimization_enabled_
       always_update_bytes_received_ dont_close_ set_socket_ set_socket_hash_
       set_addr_family_ set_is_connected_ set_socket_options_ set_multicast_interface_
       set_multicast_time_to_live_ set_local_address_ set_remote_address_
       set_read_socket_watcher_ set_write_socket_watcher_ set_read_buf_
       set_read_buf_len_ set_recv_from_address_ set_write_buf_ set_write_buf_len_
       set_send_to_address_ set_read_callback_ set_write_callback_ set_tag_
       set_owned_socket_count_ set_received_activity_monitor_
       set_experimental_recv_optimization_enabled_ set_dont_close_
       pending_cleared].

Ltac ssimpl_all :=
  cbn [socket_ socket_hash_ addr_family_ is_connected_ socket_options_ sendto_flags_
       set_sendto_flags_
       multicast_interface_ multicast_time_to_live_ bind_type_ local_address_
       remote_address_ read_socket_watcher_ write_socket_watcher_ read_buf_
       read_buf_len_ recv_from_address_ write_buf_ write_buf_len_ send_to_address_
       read_callback_ write_callback_ tag_ owned_socket_count_
       received_activity_monitor_ experimental_recv_optimization_enabled_
       always_update_bytes_received_ dont_close_ set_socket_ set_socket_hash_
       set_addr_family_ set_is_connected_ set_socket_options_ set_multicast_interface_
       set_multicast_time_to_live_ set_local_address_ set_remote_address_
       set_read_socket_watcher_ set_write_socket_watcher_ set_read_buf_
       set_read_buf_len_ set_recv_from_address_ set_write_buf_ set_write_buf_len_
       set_send_to_address_ set_read_callback_ set_write_callback_ set_tag_
       set_owned_socket_count_ set_received_activity_monitor_
       set_experimental_recv_optimization_enabled_ set_dont_close_
       pending_cleared] in *.

Lemma sys_extends_refl w : sys_extends w w.
Proof. exists []. rewrite app_nil_r. repeat split. constructor. Qed.

Lemma sys_extends_trans w1 w2 w3 :
  sys_extends w1 w2 -> sys_extends w2 w3 -> sys_extends w1 w3.
Proof.
  intros (e1 & T1 & F1 & U1 & B1 & M1) (e2 & T2 & F2 & U2 & B2 & M2).
  exists (e1 ++ e2). rewrite T2, T1, <- app_assoc.
  repeat split; try congruence. apply Forall_app. split; assumption.
Qed.

Lemma syscall_trace c w :
  trace (snd (syscall c w)) = trace w ++ [EvSys c (fst (syscall c w))] /\
  udp_socket_count (snd (syscall c w)) = udp_socket_count w /\
  bytes_received (snd (syscall c w)) = bytes_received w /\
  memory (snd (syscall c w)) = memory w.
Proof.
  unfold syscall, next_answer. destruct (script w) as [|a rest]; cbn.
  - repeat split.
  - destruct a; repeat split.
Qed.

Lemma syscall_extends c w : sys_extends w (snd (syscall c w)).
Proof.
  destruct (syscall_trace c w) as (T & U & B & Mm).
  exists [EvSys c (fst (syscall c w))]. repeat split; try assumption.
  constructor; [exact I|constructor].
Qed.

Lemma sys_status_extends c w : sys_extends w (snd (sys_status c w)).
Proof. rewrite sys_status_spec. apply syscall_extends. Qed.

Lemma sys_getname_extends c w : sys_extends w (snd (sys_getname c w)).
Proof.
  unfold sys_getname. pose proof (syscall_extends c w) as H.
  destruct (syscall c w) as [a w']. exact H.
Qed.

Lemma eintr_loop_extends {A} (result : A -> Z) (x : World -> A * World) :
  (forall w, sys_extends w (snd (x w))) ->
  forall fuel w, sys_extends w (snd (eintr_loop result fuel x w)).
Proof.
  intros Hx. induction fuel as [|fuel IH]; intros w; cbn [eintr_loop].
  - specialize (Hx w). destruct (x w) as [r w']. exact Hx.
  - pose proof (Hx w) as H. destruct (x w) as [r w'] eqn:E. cbn [snd] in H.
    destruct ((result r =? -1) && (errno w' =? EINTR)); [|exact H].
    eapply sys_extends_trans; [exact H | apply IH].
Qed.

Lemma HANDLE_EINTR_extends x w :
  (forall w0, sys_extends w0 (snd (x w0))) -> sys_extends w (snd (HANDLE_EINTR x w)).
Proof. intros Hx. apply eintr_loop_extends, Hx. Qed.

(** [IGNORE_EINTR] of a closing call: one call, and the result is 0 exactly
    for the accepted answers. *)
Lemma IGNORE_EINTR_close c w :
  IGNORE_EINTR (sys_status c) w =
  (if close_accepted (fst (syscall c w)) then 0 else -1, snd (syscall c w)).
Proof.
  unfold IGNORE_EINTR. rewrite sys_status_spec.
  destruct (syscall c w) as [a w'] eqn:E. cbn [fst snd].
  destruct a as [e| |]; cbn [failed close_accepted]; try reflexivity.
  rewrite (syscall_errno _ _ _ _ E). cbn [Z.eqb andb]. unfold EINTR.
  change (Z.pos e =? 4) with (Pos.eqb e 4).
  destruct (Pos.eqb e 4); reflexivity.
Qed.

Lemma GetPeerAddress_outcome cfg s w :
  exists r s' w', GetPeerAddress cfg s w = Done r s' w' /\
    same_but_remote s s' /\ sys_extends w w'.
Proof.
  assert (same_but_remote s s) as Hsame by (destruct s; reflexivity).
  unfold GetPeerAddress. msimpl. destruct (is_connected_ s); msimpl.
  2:{ eexists _, _, _. split; [reflexivity|]. split; [exact Hsame|apply sys_extends_refl]. }
  destruct (remote_address_ s) as [ep|] eqn:R.
  { eexists _, _, _. split; [reflexivity|]. split; [exact Hsame|apply sys_extends_refl]. }
  msimpl. rewrite bind_liftW.
  pose proof (sys_getname_extends (c_getpeername (socket_ s)) w) as Hext.
  destruct (sys_getname (c_getpeername (socket_ s)) w) as [[rv name] w'].
  cbn [fst snd] in *. destruct (rv =? 0); msimpl.
  - destruct (option_bind FromSockAddr name) as [endpoint|]; msimpl.
    + eexists _, _, _. split; [reflexivity|]. split; [|exact Hext].
      unfold same_but_remote. destruct s; reflexivity.
    + eexists _, _, _. split; [reflexivity|]. split; [exact Hsame|exact Hext].
  - eexists _, _, _. split; [reflexivity|]. split; [exact Hsame|exact Hext].
Qed.

(** How the platform's close ends when it returns: the descriptor's closing
    call was the last thing done, only system calls were made, and the
    object changed at most in its cached remote endpoint. *)
Lemma PlatformClose_outcome cfg fd s w s2 w2 :
  PlatformClose cfg fd s w = Done tt s2 w2 ->
  same_but_remote s s2 /\
  exists w1 a,
    sys_extends w w1 /\
    trace w2 = trace w1 ++ [EvSys (close_call cfg fd) a] /\
    udp_socket_count w2 = udp_socket_count w1 /\
    bytes_received w2 = bytes_received w1 /\
    memory w2 = memory w1.
Proof.
  unfold PlatformClose, close_call. destruct (fd_guarded cfg).
  - intros H.
    assert (exists s1 w1, ((if trace_base_enabled cfg
                            then _ <- GetPeerAddress cfg ;; ret tt else ret tt) s w
                           = Done tt s1 w1) /\ same_but_remote s s1 /\ sys_extends w w1)
      as (s1 & w1 & Hpeer & Hsame & Hext).
    { destruct (trace_base_enabled cfg).
      - destruct (GetPeerAddress_outcome cfg s w) as (r & s1 & w1 & Hp & Hs & He).
        exists s1, w1. rewrite (bind_Done _ _ _ _ _ _ _ Hp). auto.
      - exists s, w. split; [reflexivity|]. split; [destruct s; reflexivity|].
        apply sys_extends_refl. }
    rewrite (bind_Done _ _ _ _ _ _ _ Hpeer) in H.
    rewrite bind_liftW in H. rewrite bind_liftW in H.
    rewrite IGNORE_EINTR_close in H. cbn [fst snd] in H.
    set (w1' := snd (HANDLE_EINTR (sys_status (c_getsockopt fd SOL_SOCKET SO_ERROR)) w1)) in *.
    assert (sys_extends w w1') as Hext'.
    { eapply sys_extends_trans; [exact Hext|].
      apply HANDLE_EINTR_extends. intros w0. apply sys_status_extends. }
    destruct (syscall_trace (c_guarded_close fd) w1') as (T & U & B & Mm).
    assert (s2 = s1 /\ w2 = snd (syscall (c_guarded_close fd) w1')) as [-> ->].
    { destruct (close_accepted _); cbn in H.
      - injection H as <- <-. auto.
      - unfold get_errno, bind, CHECK in H.
        destruct ((errno _ =? ENOTCONN) || (errno _ =? EPROTOTYPE));
          [injection H as <- <-; auto | discriminate H]. }
    split; [exact Hsame|]. exists w1', (fst (syscall (c_guarded_close fd) w1')). auto.
  - intros H. rewrite bind_liftW, IGNORE_EINTR_close in H. cbn [fst snd] in H.
    destruct (syscall_trace (c_close fd) w) as (T & U & B & Mm).
    unfold CHECK in H.
    destruct (close_accepted _); cbn in H; [|discriminate H].
    injection H as <- <-.
    split; [destruct s; reflexivity|].
    exists w, (fst (syscall (c_close fd) w)). split; [apply sys_extends_refl|]. auto.
Qed.

(** On a platform without descriptor guards the close is one [close] call,
    fatal unless the answer is accepted. *)
Lemma PlatformClose_plain cfg fd s w :
  fd_guarded cfg = false ->
  PlatformClose cfg fd s w =
  if close_accepted (fst (syscall (c_close fd) w))
  then Done tt s (snd (syscall (c_close fd) w))
  else Fatal (snd (syscall (c_close fd) w)).
Proof.
  intros Hg. unfold PlatformClose. rewrite Hg.
  rewrite bind_liftW, IGNORE_EINTR_close. cbn [fst snd].
  destruct (close_accepted _); reflexivity.
Qed.

Lemma OnClose_outcome m w :
  let '(m', w') := ReceivedActivityMonitor.OnClose m w in
  ReceivedActivityMonitor.bytes_ m' = 0 /\
  ReceivedActivityMonitor.timer_running m' = false /\
  trace w' = trace w ++ EvTimerStop ::
               (if ReceivedActivityMonitor.bytes_ m =? 0 then []
                else [EvBytesReceived (ReceivedActivityMonitor.bytes_ m)]) /\
  bytes_received w' = bytes_received w + ReceivedActivityMonitor.bytes_ m /\
  udp_socket_count w' = udp_socket_count w /\
  memory w' = memory w.
Proof.
  unfold ReceivedActivityMonitor.OnClose, ReceivedActivityMonitor.Update.
  cbn [ReceivedActivityMonitor.bytes_ ReceivedActivityMonitor.increments_
       ReceivedActivityMonitor.timer_running].
  destruct (ReceivedActivityMonitor.bytes_ m =? 0) eqn:E.
  - apply Z.eqb_eq in E. cbn. rewrite E. repeat split. lia.
  - cbn. rewrite <- app_assoc. repeat split.
Qed.

(** [Close] on a closed socket. *)
Lemma Close_closed cfg s w :
  dont_close_ s = false -> socket_ s = kInvalidSocket ->
  Close cfg s w =
  Done tt (set_owned_socket_count_ false s)
    (OwnedUDPSocketCount_Reset (owned_socket_count_ s) w).
Proof.
  intros Hd Hs. destruct s. cbn [dont_close_ socket_] in Hd, Hs. subst.
  unfold Close. mstep. ssimpl. reflexivity.
Qed.

(** [Close] on an open socket, up to the fingerprint check. *)
Lemma Close_open cfg s w :
  dont_close_ s = false -> socket_ s <> kInvalidSocket ->
  Close cfg s w =
  (CHECK (socket_hash_ s =? GetSocketFDHash (socket_ s)) ;;
   PlatformClose cfg (socket_ s) ;;
   modify (set_socket_ kInvalidSocket) ;;
   modify (set_addr_family_ 0) ;;
   modify (set_is_connected_ false) ;;
   modify (set_tag_ SocketTag_default) ;;
   monitor_do ReceivedActivityMonitor.OnClose)
    (pending_cleared s) (watchers_stopped s w).
Proof.
  intros Hd Hs. destruct s. cbn [dont_close_ socket_] in Hd, Hs. subst.
  apply Z.eqb_neq in Hs.
  unfold Close, pending_cleared, watchers_stopped.
  mstep. ssimpl. rewrite Hs. mstep. ssimpl. reflexivity.
Qed.

Lemma is_syscall_not_callback evs callback rv :
  Forall is_syscall evs -> ~ In (EvRunCallback callback rv) evs.
Proof.
  intros HF Hin. rewrite Forall_forall in HF. exact (HF _ Hin).
Qed.

Lemma watchers_stopped_facts s w :
  trace (watchers_stopped s w) =
    trace w ++ [EvStopWatching WATCH_READ; EvStopWatching WATCH_WRITE] /\
  udp_socket_count (watchers_stopped s w) =
    udp_socket_count w - (if owned_socket_count_ s then 1 else 0) /\
  bytes_received (watchers_stopped s w) = bytes_received w.
Proof.
  unfold watchers_stopped, OwnedUDPSocketCount_Reset.
  destruct (owned_socket_count_ s); cbn; rewrite <- app_assoc;
    repeat split; try reflexivity; lia.
Qed.

(** A completed [Close] of an open socket. *)
Lemma Close_open_done cfg s w s2 w2 :
  dont_close_ s = false -> socket_ s <> kInvalidSocket ->
  socket_hash_ s = GetSocketFDHash (socket_ s) ->
  PlatformClose cfg (socket_ s) (pending_cleared s) (watchers_stopped s w)
    = Done tt s2 w2 ->
  exists s' w', Close cfg s w = Done tt s' w' /\ closed_from cfg s w s' w'.
Proof.
  intros Hd Hs Hh Hp.
  destruct (PlatformClose_outcome _ _ _ _ _ _ Hp)
    as (Hsame & w1 & a & (evs & T1 & F1 & U1 & B1 & _) & T2 & U2 & B2 & _).
  destruct (watchers_stopped_facts s w) as (T0 & U0 & B0).
  rewrite (Close_open cfg s w Hd Hs). rewrite bind_CHECK.
  rewrite Hh, Z.eqb_refl. rewrite (bind_Done _ _ _ _ _ _ _ Hp). mstep.
  unfold monitor_do.
  remember (remote_address_ s2) as remote eqn:Hr. clear Hr.
  unfold same_but_remote in Hsame. rewrite Hsame. clear Hsame.
  destruct s. ssimpl_all.
  pose proof (OnClose_outcome received_activity_monitor_0 w2) as Hc.
  destruct (ReceivedActivityMonitor.OnClose received_activity_monitor_0 w2) as [m' w'].
  destruct Hc as (Hb & Ht & T3 & B3 & U3 & _).
  eexists _, _. split; [reflexivity|].
  unfold closed_from, pending_dropped, connection_reset, monitor_flushed. ssimpl.
  assert (trace w' =
          trace w ++ [EvStopWatching WATCH_READ; EvStopWatching WATCH_WRITE] ++ evs
            ++ [EvSys (close_call cfg socket_0) a]
            ++ EvTimerStop
               :: (if ReceivedActivityMonitor.bytes_ received_activity_monitor_0 =? 0
                   then []
                   else [EvBytesReceived
                           (ReceivedActivityMonitor.bytes_ received_activity_monitor_0)]))
    as Htrace.
  { rewrite T3, T2, T1, T0. rewrite <- !app_assoc. reflexivity. }
  split; [repeat split|]. split; [repeat split|]. split; [split; assumption|].
  split; [lia|]. split; [lia|]. split.
  - exists evs, a. split; [exact F1|exact Htrace].
  - intros callback rv Hin. rewrite Htrace in Hin.
    apply in_app_or in Hin. destruct Hin as [Hin|Hin]; [exact Hin|exfalso].
    cbn [app In] in Hin. destruct Hin as [Hin|[Hin|Hin]]; try discriminate Hin.
    apply in_app_or in Hin. destruct Hin as [Hin|Hin].
    + exact (is_syscall_not_callback _ _ _ F1 Hin).
    + cbn [app In] in Hin. destruct Hin as [Hin|[Hin|Hin]]; try discriminate Hin.
      destruct (_ =? 0); cbn [In] in Hin; [contradiction|].
      destruct Hin as [Hin|Hin]; [discriminate Hin|contradiction].
Qed.

(** ** C7: Close *)

(** C7: [Close] on an already-closed socket is a no-op (it returns, with
    the object and the world unchanged; a socket that is closed holds no
    admission token).  [Close] on an open socket first drops the pending
    read and write (buffers, lengths, stored addresses and callbacks) and
    unregisters both watchers; it then verifies the fingerprint against the
    live descriptor and dies, before closing anything, if it does not match;
    it then closes the descriptor the platform's way.  When that returns,
    [Close] returns with the pending state dropped, the connection,
    address-family and tag state reset, the admission token released and the
    activity monitor flushed; no completion callback has been run.  (On a
    platform without descriptor guards that is the case whenever the kernel
    accepts the [close].)  The do-not-close flag is assumed not to be set. *)
Theorem C7_Close (cfg : Config) (s : UDPSocketPosix) (w : World) :
  dont_close_ s = false ->
  (socket_ s = kInvalidSocket ->
   Close cfg s w =
     Done tt (set_owned_socket_count_ false s)
       (OwnedUDPSocketCount_Reset (owned_socket_count_ s) w) /\
   (owned_socket_count_ s = false -> Close cfg s w = Done tt s w)) /\
  (socket_ s <> kInvalidSocket ->
   (socket_hash_ s <> GetSocketFDHash (socket_ s) ->
    Close cfg s w = Fatal (watchers_stopped s w)) /\
   (socket_hash_ s = GetSocketFDHash (socket_ s) ->
    (forall w2,
       PlatformClose cfg (socket_ s) (pending_cleared s) (watchers_stopped s w)
         = Fatal w2 ->
       Close cfg s w = Fatal w2) /\
    (forall s2 w2,
       PlatformClose cfg (socket_ s) (pending_cleared s) (watchers_stopped s w)
         = Done tt s2 w2 ->
       exists s' w', Close cfg s w = Done tt s' w' /\ closed_from cfg s w s' w') /\
    (fd_guarded cfg = false ->
     close_accepted (fst (syscall (c_close (socket_ s)) (watchers_stopped s w))) = true ->
     exists s' w', Close cfg s w = Done tt s' w' /\ closed_from cfg s w s' w'))).
Proof.
  intros Hd. split.
  - intros Hs. split; [apply Close_closed; assumption|].
    intros Ho. rewrite (Close_closed cfg s w Hd Hs).
    unfold OwnedUDPSocketCount_Reset. rewrite Ho.
    destruct s. cbn in Ho. subst. reflexivity.
  - intros Hs. split.
    + intros Hh. rewrite (Close_open cfg s w Hd Hs). rewrite bind_CHECK.
      apply Z.eqb_neq in Hh. rewrite Hh. reflexivity.
    + intros Hh. split; [|split].
      * intros w2 Hp. rewrite (Close_open cfg s w Hd Hs). rewrite bind_CHECK.
        rewrite Hh, Z.eqb_refl. apply bind_Fatal. exact Hp.
      * intros s2 w2 Hp. exact (Close_open_done cfg s w s2 w2 Hd Hs Hh Hp).
      * intros Hg Ha.
        apply (Close_open_done cfg s w (pending_cleared s)
                 (snd (syscall (c_close (socket_ s)) (watchers_stopped s w))) Hd Hs Hh).
        rewrite (PlatformClose_plain cfg _ _ _ Hg), Ha. reflexivity.
Qed.

(** The theorem on the example socket with a pending read, closed with a
    kernel that accepts the [close]: the pending read is dropped, and its
    callback has not been run. *)
Lemma C7_Close_witness :
  exists s' w',
    Close example_config (fst example_pending_read)
      (set_script [SysOk 0] (snd example_pending_read)) = Done tt s' w' /\
    read_callback_ (fst example_pending_read) = Some 9%nat /\
    read_callback_ s' = None /\
    ~ In (EvRunCallback 9 ERR_IO_PENDING) (trace w').
Proof.
  destruct (C7_Close example_config (fst example_pending_read)
              (set_script [SysOk 0] (snd example_pending_read)) eq_refl)
    as [_ Hopen].
  destruct (Hopen ltac:(vm_compute; discriminate)) as [_ Hmatch].
  destruct (Hmatch eq_refl) as (_ & _ & Hplain).
  destruct (Hplain eq_refl eq_refl) as (s' & w' & HC & Hpend & _ & _ & _ & _ & _ & Hcb).
  exists s', w'. split; [exact HC|]. split; [reflexivity|]. split.
  - destruct Hpend as (_ & _ & _ & H & _). exact H.
  - intros Hin. apply Hcb in Hin. vm_compute in Hin.
    repeat (destruct Hin as [Hin|Hin]; [discriminate Hin|]). exact Hin.
Defined.

(** ** C8: Open *)

Lemma Open_gate_empty cfg address_family s w :
  max_udp_sockets cfg <= udp_socket_count w ->
  Open cfg address_family s w = Done ERR_INSUFFICIENT_RESOURCES s w.
Proof.
  intros H. unfold Open. rewrite bind_liftW. unfold TryAcquireGlobalUDPSocketCount.
  assert ((udp_socket_count w <? max_udp_sockets cfg) = false) as -> by lia.
  reflexivity.
Qed.

(** A call answered from the script. *)
Lemma syscall_scripted c w a rest :
  script w = a :: rest ->
  fst (syscall c w) = a /\
  script (snd (syscall c w)) = rest /\
  trace (snd (syscall c w)) = trace w ++ [EvSys c a] /\
  udp_socket_count (snd (syscall c w)) = udp_socket_count w /\
  (forall e, a = SysErr e -> errno (snd (syscall c w)) = Zpos e).
Proof.
  intros H. unfold syscall, next_answer. rewrite H.
  destruct a; cbn; repeat split; intros e0 He; try discriminate He.
  injection He as ->. reflexivity.
Qed.

Lemma syscall_answer c w : fst (syscall c w) = hd (SysErr 5) (script w).
Proof.
  unfold syscall, next_answer. destruct (script w); reflexivity.
Qed.

(** The world in which [Open] finds that the non-blocking mode cannot be
    set, for a kernel that creates the descriptor [fd] and then refuses the
    mode with [errno] [e]. *)
Lemma nonblocking_failed_facts cfg address_family w fd guard e rest :
  udp_socket_count w < max_udp_sockets cfg ->
  script w = SysOk fd :: (if fd_guarded cfg then [SysOk guard] else [])
               ++ SysErr e :: rest ->
  let w0 := snd (TryAcquireGlobalUDPSocketCount cfg w) in
  let call := c_socket (ConvertAddressFamily address_family) in
  let w1 := snd (sys_value call w0) in
  let w2 := if fd_guarded cfg
            then snd (sys_status (c_change_fdguard (Z.of_N fd)) w1) else w1 in
  let w3 := nonblocking_failed cfg address_family (Z.of_N fd) w in
  fst (TryAcquireGlobalUDPSocketCount cfg w) = true /\
  fst (sys_value call w0) = Z.of_N fd /\
  (fd_guarded cfg = true -> fst (sys_status (c_change_fdguard (Z.of_N fd)) w1) = 0) /\
  fst (sys_status (c_set_nonblocking (Z.of_N fd)) w2) = -1 /\
  script w3 = rest /\ errno w3 = Zpos e /\
  udp_socket_count w3 = udp_socket_count w + 1 /\
  trace w3 =
    trace w ++ [EvSys call (SysOk fd)]
      ++ (if fd_guarded cfg
          then [EvSys (c_change_fdguard (Z.of_N fd)) (SysOk guard)] else [])
      ++ [EvSys (c_set_nonblocking (Z.of_N fd)) (SysErr e)].
Proof.
  intros Hgate Hscript w0 call w1 w2 w3.
  assert (fst (TryAcquireGlobalUDPSocketCount cfg w) = true /\
          script w0 = script w /\ trace w0 = trace w /\
          udp_socket_count w0 = udp_socket_count w + 1) as (Hacq & S0 & T0 & U0).
  { unfold w0, TryAcquireGlobalUDPSocketCount.
    assert ((udp_socket_count w <? max_udp_sockets cfg) = true) as -> by lia.
    repeat split. }
  rewrite Hscript in S0.
  destruct (syscall_scripted call w0 _ _ S0) as (A1 & S1 & T1 & U1 & _).
  assert (fst (sys_value call w0) = Z.of_N fd) as Hfd.
  { unfold sys_value. destruct (syscall call w0) as [a w']. cbn [fst] in *.
    rewrite A1. reflexivity. }
  assert (w1 = snd (syscall call w0)) as Ew1.
  { unfold w1, sys_value. destruct (syscall call w0). reflexivity. }
  rewrite <- Ew1 in S1, T1, U1.
  assert ((fd_guarded cfg = true ->
           fst (sys_status (c_change_fdguard (Z.of_N fd)) w1) = 0) /\
          script w2 = SysErr e :: rest /\
          trace w2 = trace w1 ++ (if fd_guarded cfg
                                  then [EvSys (c_change_fdguard (Z.of_N fd)) (SysOk guard)]
                                  else []) /\
          udp_socket_count w2 = udp_socket_count w1) as (Hg & S2 & T2 & U2).
  { unfold w2. destruct (fd_guarded cfg); cbn [app] in S1.
    - destruct (syscall_scripted (c_change_fdguard (Z.of_N fd)) w1 _ _ S1)
        as (A & S & T & U & _).
      rewrite sys_status_spec. cbn [fst snd]. rewrite A. auto.
    - split; [discriminate|]. split; [exact S1|].
      split; [rewrite app_nil_r; reflexivity|reflexivity]. }
  destruct (syscall_scripted (c_set_nonblocking (Z.of_N fd)) w2 _ _ S2)
    as (A3 & S3 & T3 & U3 & E3).
  assert (w3 = snd (syscall (c_set_nonblocking (Z.of_N fd)) w2)) as Ew3.
  { unfold w3, nonblocking_failed. fold w0. fold call. fold w1. fold w2.
    rewrite sys_status_spec. reflexivity. }
  split; [exact Hacq|]. split; [exact Hfd|]. split; [exact Hg|]. split.
  { rewrite sys_status_spec. cbn [fst]. rewrite A3. reflexivity. }
  rewrite Ew3. split; [exact S3|]. split; [exact (E3 e eq_refl)|].
  split; [lia|]. rewrite T3, T2, T1, T0, <- !app_assoc. reflexivity.
Qed.

Lemma Open_nonblocking_failed cfg address_family s w fd guard e rest :
  udp_socket_count w < max_udp_sockets cfg ->
  script w = SysOk fd :: (if fd_guarded cfg then [SysOk guard] else [])
               ++ SysErr e :: rest ->
  Open cfg address_family s w =
  (Close cfg ;;
   effect (OwnedUDPSocketCount_Reset true) ;;
   ret (MapSystemError cfg (Zpos e)))
    (partially_opened address_family (Z.of_N fd) s)
    (nonblocking_failed cfg address_family (Z.of_N fd) w).
Proof.
  intros Hgate Hscript.
  destruct (nonblocking_failed_facts cfg address_family w fd guard e rest Hgate Hscript)
    as (Hacq & Hfd & Hguard & Hnb & _ & Herrno & _).
  assert ((Z.of_N fd =? kInvalidSocket) = false) as Hvalid
    by (apply Z.eqb_neq; unfold kInvalidSocket; lia).
  unfold Open, partially_opened. rewrite bind_liftW, Hacq. cbn [negb]. mpure.
  cbn [addr_family_ set_addr_family_].
  rewrite bind_liftW, Hfd. mpure. rewrite Hvalid. mpure.
  unfold nonblocking_failed in *.
  destruct (fd_guarded cfg).
  - mpure. rewrite bind_liftW, (Hguard eq_refl). mpure. cbn [Z.eqb]. mpure.
    rewrite bind_liftW, Hnb. cbn [Z.eqb negb]. mpure. rewrite Herrno. reflexivity.
  - mpure. rewrite bind_liftW, Hnb. cbn [Z.eqb negb]. mpure. rewrite Herrno.
    reflexivity.
Qed.

(** When setting the non-blocking mode fails and the platform's close of
    the new descriptor returns, [Open] returns the mapped error with the
    socket closed again and the token given back. *)
Lemma Open_nonblocking_failed_done cfg address_family s w fd guard e rest s2 w2 :
  udp_socket_count w < max_udp_sockets cfg ->
  script w = SysOk fd :: (if fd_guarded cfg then [SysOk guard] else [])
               ++ SysErr e :: rest ->
  dont_close_ s = false ->
  PlatformClose cfg (Z.of_N fd)
    (pending_cleared (partially_opened address_family (Z.of_N fd) s))
    (watchers_stopped (partially_opened address_family (Z.of_N fd) s)
       (nonblocking_failed cfg address_family (Z.of_N fd) w)) = Done tt s2 w2 ->
  exists s' w',
    Open cfg address_family s w = Done (MapSystemError cfg (Zpos e)) s' w' /\
    pending_dropped s' /\ connection_reset s' /\
    udp_socket_count w' =
      udp_socket_count w - (if owned_socket_count_ s then 1 else 0) /\
    exists a, In (EvSys (close_call cfg (Z.of_N fd)) a) (trace w').
Proof.
  intros Hgate Hscript Hd Hp.
  destruct (nonblocking_failed_facts cfg address_family w fd guard e rest Hgate Hscript)
    as (_ & _ & _ & _ & _ & _ & Hcount1 & _).
  cbv zeta in Hcount1.
  set (s1 := partially_opened address_family (Z.of_N fd) s) in *.
  set (w1 := nonblocking_failed cfg address_family (Z.of_N fd) w) in *.
  assert (dont_close_ s1 = false) as Hd1 by (destruct s; exact Hd).
  assert (socket_ s1 = Z.of_N fd) as Hfd by (destruct s; reflexivity).
  assert (socket_hash_ s1 = GetSocketFDHash (socket_ s1)) as Hh
    by (destruct s; reflexivity).
  assert (owned_socket_count_ s1 = owned_socket_count_ s) as Ho
    by (destruct s; reflexivity).
  assert (socket_ s1 <> kInvalidSocket) as Hs
    by (rewrite Hfd; unfold kInvalidSocket; lia).
  rewrite <- Hfd in Hp.
  destruct (Close_open_done cfg s1 w1 s2 w2 Hd1 Hs Hh Hp)
    as (s' & w' & HC & Hpend & Hreset & _ & Hcount & _ & (evs & a & _ & Htrace) & _).
  exists s', (OwnedUDPSocketCount_Reset true w').
  rewrite (Open_nonblocking_failed cfg address_family s w fd guard e rest Hgate Hscript).
  fold s1 w1. rewrite (bind_Done _ _ _ _ _ _ _ HC). mpure.
  split; [reflexivity|]. split; [exact Hpend|]. split; [exact Hreset|]. split.
  - cbn [OwnedUDPSocketCount_Reset set_udp_socket_count udp_socket_count].
    rewrite Hcount, Ho, Hcount1. lia.
  - exists a. cbn [OwnedUDPSocketCount_Reset set_udp_socket_count trace].
    rewrite Htrace, Hfd.
    apply in_or_app. right. apply in_or_app. right. apply in_or_app. right.
    left. reflexivity.
Qed.

(** C8: [Open] returns [ERR_INSUFFICIENT_RESOURCES] whenever the admission
    gate is empty, and then neither the object nor the world has changed (no
    descriptor was allocated).  If the token is granted and the descriptor
    is created but setting its non-blocking mode fails, [Open] runs [Close]
    on the partially opened socket and returns the mapped OS error; when the
    platform's close returns (as it does on a platform without descriptor
    guards whenever the kernel accepts the [close]), the descriptor has been
    closed, the socket is closed again and the token is back at the gate. *)
Theorem C8_Open (cfg : Config) (address_family : AddressFamily)
    (s : UDPSocketPosix) (w : World) :
  (max_udp_sockets cfg <= udp_socket_count w ->
   Open cfg address_family s w = Done ERR_INSUFFICIENT_RESOURCES s w) /\
  (udp_socket_count w < max_udp_sockets cfg ->
   forall fd guard e rest,
     script w = SysOk fd :: (if fd_guarded cfg then [SysOk guard] else [])
                  ++ SysErr e :: rest ->
     let s1 := partially_opened address_family (Z.of_N fd) s in
     let w1 := nonblocking_failed cfg address_family (Z.of_N fd) w in
     let closed_again s' w' :=
       Open cfg address_family s w = Done (MapSystemError cfg (Zpos e)) s' w' /\
       pending_dropped s' /\ connection_reset s' /\
       udp_socket_count w' =
         udp_socket_count w - (if owned_socket_count_ s then 1 else 0) /\
       exists a, In (EvSys (close_call cfg (Z.of_N fd)) a) (trace w') in
     Open cfg address_family s w =
       (Close cfg ;;
        effect (OwnedUDPSocketCount_Reset true) ;;
        ret (MapSystemError cfg (Zpos e))) s1 w1 /\
     script w1 = rest /\
     trace w1 =
       trace w ++ [EvSys (c_socket (ConvertAddressFamily address_family)) (SysOk fd)]
         ++ (if fd_guarded cfg
             then [EvSys (c_change_fdguard (Z.of_N fd)) (SysOk guard)] else [])
         ++ [EvSys (c_set_nonblocking (Z.of_N fd)) (SysErr e)] /\
     (dont_close_ s = false ->
      (forall s2 w2,
         PlatformClose cfg (Z.of_N fd) (pending_cleared s1) (watchers_stopped s1 w1)
           = Done tt s2 w2 ->
         exists s' w', closed_again s' w') /\
      (fd_guarded cfg = false -> close_accepted (hd (SysErr 5) rest) = true ->
       exists s' w', closed_again s' w'))).
Proof.
  split; [apply Open_gate_empty|].
  intros Hgate fd guard e rest Hscript s1 w1 closed_again.
  destruct (nonblocking_failed_facts cfg address_family w fd guard e rest Hgate Hscript)
    as (_ & _ & _ & _ & Hrest & _ & _ & Htrace).
  cbv zeta in Hrest, Htrace. fold w1 in Hrest, Htrace.
  split; [apply (Open_nonblocking_failed _ _ _ _ _ guard _ rest); assumption|].
  split; [exact Hrest|]. split; [exact Htrace|].
  intros Hd. split.
  - intros s2 w2 Hp.
    exact (Open_nonblocking_failed_done cfg address_family s w fd guard e rest s2 w2
             Hgate Hscript Hd Hp).
  - intros Hg Ha.
    apply (Open_nonblocking_failed_done cfg address_family s w fd guard e rest
             (pending_cleared s1)
             (snd (syscall (c_close (Z.of_N fd)) (watchers_stopped s1 w1)))
             Hgate Hscript Hd).
    fold s1 w1. rewrite (PlatformClose_plain cfg _ _ _ Hg).
    rewrite syscall_answer.
    assert (script (watchers_stopped s1 w1) = rest) as ->.
    { rewrite <- Hrest. unfold watchers_stopped, OwnedUDPSocketCount_Reset.
      destruct (owned_socket_count_ s1); reflexivity. }
    rewrite Ha. reflexivity.
Qed.

(** The theorem on a fresh socket: with the gate full nothing happens; with
    room at the gate and a kernel that creates descriptor 3, refuses the
    non-blocking mode with [EINVAL] and accepts the [close], [Open] returns
    the mapped error with the socket closed and the gate as before. *)
Lemma C8_Open_witness :
  Open example_config ADDRESS_FAMILY_IPV4 (UDPSocketPosix_new DEFAULT_BIND false)
    (set_udp_socket_count 6000 empty_world) =
  Done ERR_INSUFFICIENT_RESOURCES (UDPSocketPosix_new DEFAULT_BIND false)
    (set_udp_socket_count 6000 empty_world) /\
  exists s' w',
    Open example_config ADDRESS_FAMILY_IPV4 (UDPSocketPosix_new DEFAULT_BIND false)
      (set_script [SysOk 3; SysErr 22; SysOk 0] empty_world) =
    Done ERR_INVALID_ARGUMENT s' w' /\
    socket_ s' = kInvalidSocket /\ udp_socket_count w' = 0.
Proof.
  split.
  - apply (C8_Open example_config ADDRESS_FAMILY_IPV4
             (UDPSocketPosix_new DEFAULT_BIND false)
             (set_udp_socket_count 6000 empty_world)).
    vm_compute. discriminate.
  - destruct (C8_Open example_config ADDRESS_FAMILY_IPV4
                (UDPSocketPosix_new DEFAULT_BIND false)
                (set_script [SysOk 3; SysErr 22; SysOk 0] empty_world)) as [_ H].
    destruct (H eq_refl 3%N 0%N 22%positive [SysOk 0] eq_refl)
      as (_ & _ & _ & Hclose).
    destruct (Hclose eq_refl) as [_ Hplain].
    destruct (Hplain eq_refl eq_refl) as (s' & w' & HO & _ & Hreset & Hcount & _).
    exists s', w'. split; [exact HO|]. split; [apply Hreset|exact Hcount].
Defined.

(** ** C1: the random bind *)

Lemma ToSockAddr_bind address p :
  length address = kIPv4AddressSize \/ length address = kIPv6AddressSize ->
  ToSockAddr (mkIPEndPoint address p) = Some (bind_sockaddr address p).
Proof.
  unfold ToSockAddr, bind_sockaddr. simpl.
  intros [H|H]; rewrite H; reflexivity.
Qed.

(** [DoBind] at an address that converts: one [bind], whose answer decides
    the result. *)
Lemma DoBind_outcome cfg ep sa s w :
  ToSockAddr ep = Some sa ->
  DoBind cfg ep s w =
  Done (DoBind_result cfg (fst (syscall (c_bind (socket_ s) sa) w))) s
    (snd (syscall (c_bind (socket_ s) sa) w)).
Proof.
  intros H. unfold DoBind. rewrite H. mpure. rewrite bind_liftW, sys_status_spec.
  destruct (syscall (c_bind (socket_ s) sa) w) as [a w'] eqn:E. cbn [fst snd].
  destruct a as [e| |]; cbn [failed DoBind_result]; try reflexivity.
  change (-1 =? 0) with false. cbv iota.
  mpure. rewrite (syscall_errno _ _ _ _ E).
  destruct (IS_CHROMEOS_ASH cfg); [destruct (Z.pos e =? EINVAL); reflexivity|].
  destruct (IS_APPLE cfg); [destruct (Z.pos e =? EADDRNOTAVAIL); reflexivity|].
  reflexivity.
Qed.

Lemma RandInt_outcome lo hi w :
  lo <= hi ->
  lo <= fst (RandInt lo hi w) <= hi /\
  trace (snd (RandInt lo hi w)) = trace w ++ [EvRandInt lo hi (fst (RandInt lo hi w))].
Proof.
  intros H. unfold RandInt. cbn [fst snd]. split; [|reflexivity].
  pose proof (Z.mod_pos_bound (hd 0 (entropy w)) (hi - lo + 1) ltac:(lia)). lia.
Qed.

Lemma RandomBind_loop_run cfg address retries :
  length address = kIPv4AddressSize \/ length address = kIPv6AddressSize ->
  forall s w,
  exists attempts rv w',
    RandomBind_loop cfg retries address s w = Done rv s w' /\
    random_bind_run cfg retries (socket_ s) address attempts rv w w'.
Proof.
  intros Hvalid. induction retries as [|retries IH]; intros s w; cbn [RandomBind_loop].
  - rewrite (DoBind_outcome cfg _ _ s w (ToSockAddr_bind address 0 Hvalid)).
    destruct (syscall_trace (c_bind (socket_ s) (bind_sockaddr address 0)) w) as [T _].
    eexists [], _, _. split; [reflexivity|]. split; [constructor|].
    right. eexists. split; [reflexivity|]. split; [constructor|].
    split; [reflexivity|]. exact T.
  - rewrite bind_liftW.
    destruct (RandInt_outcome kPortStart kPortEnd w ltac:(unfold kPortStart, kPortEnd; lia))
      as [Hrange Tr].
    set (p := fst (RandInt kPortStart kPortEnd w)) in *.
    set (w1 := snd (RandInt kPortStart kPortEnd w)) in *.
    rewrite (bind_Done _ _ _ _ _ _ _
               (DoBind_outcome cfg _ _ s w1 (ToSockAddr_bind address p Hvalid))).
    destruct (syscall_trace (c_bind (socket_ s) (bind_sockaddr address p)) w1) as [Tb _].
    set (a := fst (syscall (c_bind (socket_ s) (bind_sockaddr address p)) w1)) in *.
    set (w2 := snd (syscall (c_bind (socket_ s) (bind_sockaddr address p)) w1)) in *.
    assert (trace w2 = trace w ++ random_attempt (socket_ s) address (p, a)) as T2.
    { rewrite Tb, Tr, <- app_assoc. reflexivity. }
    destruct (DoBind_result cfg a =? ERR_ADDRESS_IN_USE) eqn:E; cbn [negb].
    + apply Z.eqb_eq in E.
      destruct (IH s w2) as (attempts & rv & w' & Hrun & Hports & Hshape).
      exists ((p, a) :: attempts), rv, w'. split; [exact Hrun|].
      split; [constructor; [exact Hrange|exact Hports]|].
      destruct Hshape as [(before & last & Hatt & Hlen & Hbefore & Hrv & Hne & T)
                         |(fallback & Hlen & Hall & Hrv & T)].
      * left. exists ((p, a) :: before), last.
        split; [rewrite Hatt; reflexivity|]. split; [cbn [length]; lia|].
        split; [constructor; [exact E|exact Hbefore]|].
        split; [exact Hrv|]. split; [exact Hne|].
        rewrite T, T2, <- app_assoc. reflexivity.
      * right. exists fallback.
        split; [cbn [length]; lia|].
        split; [constructor; [exact E|exact Hall]|].
        split; [exact Hrv|].
        rewrite T, T2, <- !app_assoc. reflexivity.
    + apply Z.eqb_neq in E.
      exists [(p, a)], (DoBind_result cfg a), w2. split; [reflexivity|].
      split; [constructor; [exact Hrange|constructor]|].
      left. exists [], (p, a). split; [reflexivity|]. split; [cbn [length]; lia|].
      split; [constructor|]. split; [reflexivity|]. split; [exact E|].
      rewrite T2. cbn [flat_map]. rewrite app_nil_r. reflexivity.
Qed.

Lemma trace_extends_refl P w : trace_extends P w w.
Proof. exists []. rewrite app_nil_r. split; [reflexivity|constructor]. Qed.

Lemma trace_extends_trans P w1 w2 w3 :
  trace_extends P w1 w2 -> trace_extends P w2 w3 -> trace_extends P w1 w3.
Proof.
  intros (e1 & T1 & F1) (e2 & T2 & F2). exists (e1 ++ e2).
  rewrite T2, T1, <- app_assoc. split; [reflexivity|].
  apply Forall_app. split; assumption.
Qed.

Lemma eintr_loop_trace_extends {A} P (result : A -> Z) (x : World -> A * World) :
  (forall w, trace_extends P w (snd (x w))) ->
  forall fuel w, trace_extends P w (snd (eintr_loop result fuel x w)).
Proof.
  intros Hx. induction fuel as [|fuel IH]; intros w; cbn [eintr_loop].
  - specialize (Hx w). destruct (x w) as [r w']. exact Hx.
  - pose proof (Hx w) as H. destruct (x w) as [r w'] eqn:E. cbn [snd] in H.
    destruct ((result r =? -1) && (errno w' =? EINTR)); [|exact H].
    eapply trace_extends_trans; [exact H | apply IH].
Qed.

Lemma HANDLE_EINTR_connect_trace fd sa w :
  trace_extends is_connect_call w (snd (HANDLE_EINTR (sys_status (c_connect fd sa)) w)).
Proof.
  apply eintr_loop_trace_extends. intros w0. rewrite sys_status_spec. cbn [snd].
  destruct (syscall_trace (c_connect fd sa) w0) as [T _].
  eexists. split; [exact T|]. constructor; [exact I|constructor].
Qed.

(** C1: when the bind policy is random, [InternalConnect] (hence [Connect])
    first runs the random bind on the wildcard address of the destination's
    family, and only then the OS connect.  The random bind makes at most 10
    rounds, each binding a port drawn by [RandInt(1024, 65535)], which lies
    in [1024, 65535]; a round that finds the address in use is followed by
    the next one, and a round with any other result, success included, ends
    the loop with that result; only after 10 rounds that all found the
    address in use is port 0 bound, and that bind gives the result.  A
    negative result of the random bind is returned without any OS connect;
    otherwise all that follows the binds is the connect. *)
Theorem C1_random_bind (cfg : Config) (address : IPEndPoint)
    (s : UDPSocketPosix) (w : World) :
  bind_type_ s = RANDOM_BIND ->
  let wildcard :=
    AllZeros (if GetSockAddrFamily address =? AF_INET
              then kIPv4AddressSize else kIPv6AddressSize) in
  exists attempts rvb wb,
    RandomBind cfg wildcard s w = Done rvb s wb /\
    (length attempts <= Z.to_nat kBindRetries)%nat /\
    random_bind_run cfg (Z.to_nat kBindRetries) (socket_ s) wildcard attempts rvb w wb /\
    exists rv s' w',
      InternalConnect cfg address s w = Done rv s' w' /\
      (rvb < 0 ->
       rv = rvb /\ s' = s /\ trace w' = trace wb ++ [EvHistogram (- rvb)]) /\
      (0 <= rvb -> trace_extends is_connect_call wb w').
Proof.
  intros Hbt wildcard.
  assert (length wildcard = kIPv4AddressSize \/ length wildcard = kIPv6AddressSize)
    as Hvalid.
  { unfold wildcard, AllZeros. rewrite repeat_length.
    destruct (GetSockAddrFamily address =? AF_INET); auto. }
  destruct (RandomBind_loop_run cfg wildcard (Z.to_nat kBindRetries) Hvalid s w)
    as (attempts & rvb & wb & Hrun & Hshape).
  exists attempts, rvb, wb. split; [exact Hrun|]. split.
  { destruct Hshape as [_ [(before & last & _ & Hlen & _)|(fallback & Hlen & _)]]; lia. }
  split; [exact Hshape|].
  unfold InternalConnect. mpure. rewrite Hbt. cbn [BindType_eqb].
  fold wildcard. rewrite (bind_Done _ _ _ _ _ _ _ Hrun).
  destruct (rvb <? 0) eqn:Hneg.
  - mpure. eexists _, _, _. split; [reflexivity|]. split; [|intros; lia].
    intros _. repeat split.
  - destruct (ToSockAddr address) as [storage|].
    + mpure. rewrite bind_liftW.
      pose proof (HANDLE_EINTR_connect_trace (socket_ s) storage wb) as Hext.
      destruct (HANDLE_EINTR (sys_status (c_connect (socket_ s) storage)) wb)
        as [rv w1].
      cbn [fst snd] in *. destruct (rv <? 0).
      * unfold fail_with_errno. mpure. eexists _, _, _. split; [reflexivity|].
        split; [intros; lia|]. intros _. exact Hext.
      * mpure. eexists _, _, _. split; [reflexivity|].
        split; [intros; lia|]. intros _. exact Hext.
    + eexists _, _, _. split; [reflexivity|]. split; [intros; lia|].
      intros _. apply trace_extends_refl.
Qed.

(** A socket with the random bind policy that has been opened for IPv4. *)
Lemma C1_random_bind_witness :
  let s := fst (match Open example_config ADDRESS_FAMILY_IPV4
                        (UDPSocketPosix_new RANDOM_BIND false)
                        (set_script [SysOk 3; SysOk 0] empty_world) with
                | Done _ s w => (s, w)
                | Fatal w => (UDPSocketPosix_new RANDOM_BIND false, w)
                end) in
  let w := set_entropy [7; 70000]
             (set_script [SysErr 98; SysOk 0; SysOk 0] empty_world) in
  exists attempts rvb wb,
    RandomBind example_config (AllZeros 4) s w = Done rvb s wb /\
    (length attempts <= 10)%nat /\
    random_bind_run example_config 10 3 (AllZeros 4) attempts rvb w wb.
Proof.
  intros s w.
  destruct (C1_random_bind example_config (mkIPEndPoint [192; 0; 2; 1] 53) s w eq_refl)
    as (attempts & rvb & wb & Hrun & Hlen & Hshape & _).
  exists attempts, rvb, wb. split; [exact Hrun|]. split; [exact Hlen|exact Hshape].
Defined.

(** With every port of the range occupied, exactly 10 random binds are
    attempted before port 0 is bound. *)
Example RandomBind_range_occupied :
  let w := set_script (repeat (SysErr 98) 10 ++ [SysOk 0]) empty_world in
  match RandomBind example_config (AllZeros 4)
          (set_socket_ 3 (UDPSocketPosix_new RANDOM_BIND false)) w with
  | Done rv _ w' =>
      rv = OK /\
      map (fun e => match e with
                    | EvSys (c_bind _ sa) _ => sa_port sa
                    | _ => -1
                    end)
          (filter (fun e => match e with EvSys _ _ => true | _ => false end) (trace w'))
      = repeat 1024 10 ++ [0]
  | Fatal _ => False
  end.
Proof. vm_compute. split; reflexivity. Qed.

(** With a free range the first attempt succeeds. *)
Example RandomBind_range_free :
  let w := set_entropy [4321] (set_script [SysOk 0] empty_world) in
  match RandomBind example_config (AllZeros 4)
          (set_socket_ 3 (UDPSocketPosix_new RANDOM_BIND false)) w with
  | Done rv _ w' =>
      rv = OK /\
      trace w' = [EvRandInt 1024 65535 5345;
                  EvSys (c_bind 3 (mkSockAddr AF_INET [0; 0; 0; 0] 5345)) (SysOk 0)]
  | Fatal _ => False
  end.
Proof. vm_compute. split; reflexivity. Qed.

(** * Part III: further properties of the code *)

(** ** The activity monitor: accounting *)

Section MonitorAccounting.
Import ReceivedActivityMonitor MonitorClaims MonitorAccounts.

(** One step of a monitor that holds at most the threshold: the bound is
    kept, the step accounts for exactly the bytes handed in, and it reports
    nothing empty. *)
Lemma step_accounts st op :
  0 <= bytes_ (fst st) <= 65535 ->
  match op with OpIncrement bytes => 0 <= bytes < 2 ^ 31 | _ => True end ->
  0 <= bytes_ (fst (step st op)) <= 65535 /\
  accounted (step st op) =
    accounted st + match op with OpIncrement bytes => bytes | _ => 0 end /\
  exists new, trace (snd (step st op)) = trace (snd st) ++ new /\
              reports_positive new.
Proof.
  destruct st as [m w]. cbn [fst snd]. intros Hb Hop.
  unfold accounted, reports_positive.
  destruct op as [bytes| |]; cbn [step fst snd].
  - rewrite (u32_small bytes) by lia.
    destruct (Z.eq_dec bytes 0) as [->|Hnz].
    + rewrite Increment_zero. cbn [fst snd]. split; [lia|]. split; [lia|].
      exists []. rewrite app_nil_r. split; [reflexivity|constructor].
    + rewrite (Increment_nonzero bytes m w Hnz). cbv zeta. cbn [fst snd bytes_].
      rewrite (u32_small (bytes_ m + bytes)) by lia.
      assert ((bytes_ m + bytes =? 0) = false) as -> by (apply Z.eqb_neq; lia).
      rewrite andb_true_r.
      destruct ((u32 (increments_ m + 1) <? 2) || (bytes_ m + bytes >? 65535)) eqn:F;
        destruct (timer_running m); cbn [andb]; wnorm.
      * split; [lia|]. split; [lia|]. eexists. split.
        { rewrite <- app_assoc. reflexivity. }
        repeat constructor. lia.
      * split; [lia|]. split; [lia|]. eexists. split.
        { rewrite <- app_assoc. reflexivity. }
        repeat constructor. lia.
      * apply orb_false_iff in F. destruct F as [_ F].
        split; [lia|]. split; [lia|]. exists []. rewrite app_nil_r.
        split; [reflexivity|constructor].
      * apply orb_false_iff in F. destruct F as [_ F].
        split; [lia|]. split; [lia|]. eexists. split; [reflexivity|].
        repeat constructor.
  - destruct (timer_running m) eqn:T; cbn [fst snd].
    + unfold OnTimerFired, Update. cbn [bytes_ increments_ timer_running].
      destruct (bytes_ m =? 0) eqn:E; cbn [fst snd bytes_]; wnorm.
      * split; [lia|]. split; [lia|]. eexists. split; [reflexivity|].
        repeat constructor.
      * apply Z.eqb_neq in E. split; [lia|]. split; [lia|].
        eexists. split; [reflexivity|]. repeat constructor. lia.
    + split; [lia|]. split; [lia|]. exists []. rewrite app_nil_r.
      split; [reflexivity|constructor].
  - unfold OnClose, Update. cbn [bytes_ increments_ timer_running].
    destruct (bytes_ m =? 0) eqn:E; cbn [fst snd bytes_]; wnorm.
    + split; [lia|]. split; [lia|]. eexists. split; [reflexivity|].
      repeat constructor.
    + apply Z.eqb_neq in E. split; [lia|]. split; [lia|].
      eexists. split; [rewrite <- app_assoc; reflexivity|].
      repeat constructor. lia.
Qed.

Lemma run_accounts h : forall st,
  0 <= bytes_ (fst st) <= 65535 ->
  int_counts h ->
  0 <= bytes_ (fst (run h st)) <= 65535 /\
  accounted (run h st) = accounted st + increment_sum h /\
  exists new, trace (snd (run h st)) = trace (snd st) ++ new /\
              reports_positive new.
Proof.
  unfold run. induction h as [|op h IH]; intros st Hb Hh; cbn [fold_left increment_sum].
  - split; [exact Hb|]. split; [lia|]. exists []. rewrite app_nil_r.
    split; [reflexivity|constructor].
  - inversion Hh as [|? ? Hop Hrest]; subst.
    destruct (step_accounts st op Hb Hop) as (Hb1 & Hacc1 & new1 & T1 & P1).
    destruct (IH (step st op) Hb1 Hrest) as (Hb2 & Hacc2 & new2 & T2 & P2).
    split; [exact Hb2|]. split.
    + rewrite Hacc2, Hacc1. destruct op; lia.
    + exists (new1 ++ new2). rewrite T2, T1, <- app_assoc. split; [reflexivity|].
      apply Forall_app. split; assumption.
Qed.

(** X1: no byte is lost and none is counted twice.  After any sequence of
    increments (of byte counts in the range of [int]), timer fires and
    closes, the bytes reported to the process-wide counter plus the bytes
    the monitor still holds are exactly the bytes handed to [Increment]. *)
Theorem monitor_conserves_bytes (h : list Op) (w : World) :
  int_counts h ->
  accounted (run h (init, w)) = bytes_received w + increment_sum h.
Proof.
  intros Hh.
  destruct (run_accounts h (init, w) ltac:(cbn; lia) Hh) as (_ & H & _).
  rewrite H. unfold accounted. cbn. lia.
Qed.

Lemma monitor_conserves_bytes_witness :
  accounted (run [OpIncrement 1; OpIncrement 70000; OpIncrement 5; OpTimerFired;
                  OpIncrement 9] (init, empty_world)) = 0 + 70015.
Proof.
  apply (monitor_conserves_bytes
           [OpIncrement 1; OpIncrement 70000; OpIncrement 5; OpTimerFired; OpIncrement 9]
           empty_world).
  unfold int_counts. repeat constructor; lia.
Defined.

(** X2: the high-water mark.  At every quiescent point the monitor holds at
    most 65535 unreported bytes, whatever was handed to [Increment]. *)
Theorem monitor_holds_at_most_threshold (h : list Op) (w : World) :
  0 <= bytes_ (fst (run h (init, w))) <= kActivityMonitorBytesThreshold.
Proof.
  pose proof (wf_grun h w) as Hwf.
  rewrite <- (grun_run h (mkGhost 0 0) (init, w)).
  unfold grun in Hwf.
  destruct (fold_left gstep h (mkGhost 0 0, (init, w))) as [g [m w']].
  cbn [fst snd]. destruct Hwf as (H & _). exact H.
Qed.

(** X3: closing reports everything.  After [OnClose] the monitor holds no
    bytes, its timer is stopped, and the process-wide counter has received
    every byte handed to [Increment] before. *)
Theorem monitor_close_reports_all (h : list Op) (w : World) :
  int_counts h ->
  let st := run (h ++ [OpClose]) (init, w) in
  bytes_ (fst st) = 0 /\ timer_running (fst st) = false /\
  bytes_received (snd st) = bytes_received w + increment_sum h.
Proof.
  intros Hh st.
  assert (int_counts (h ++ [OpClose])) as Hh'.
  { apply Forall_app. split; [exact Hh|]. repeat constructor. }
  destruct (run_accounts (h ++ [OpClose]) (init, w) ltac:(cbn; lia) Hh')
    as (_ & Hacc & _).
  assert (increment_sum (h ++ [OpClose]) = increment_sum h) as Hsum.
  { clear. induction h as [|op h IH]; [reflexivity|].
    destruct op; cbn [app increment_sum]; rewrite IH; reflexivity. }
  rewrite Hsum in Hacc. fold st in Hacc.
  assert (bytes_ (fst st) = 0 /\ timer_running (fst st) = false) as [Hb Ht].
  { unfold st, run. rewrite fold_left_app. cbn [fold_left step].
    pose proof (OnClose_outcome (fst (fold_left step h (init, w)))
                  (snd (fold_left step h (init, w)))) as H.
    destruct (OnClose _ _) as [m' w']. cbn [fst]. tauto. }
  split; [exact Hb|]. split; [exact Ht|].
  unfold accounted in Hacc. cbn [fst snd bytes_ init] in Hacc. lia.
Qed.

Lemma monitor_close_reports_all_witness :
  bytes_received
    (snd (run ([OpIncrement 1; OpIncrement 300; OpIncrement 4] ++ [OpClose])
            (init, empty_world))) = 0 + 305.
Proof.
  apply (monitor_close_reports_all [OpIncrement 1; OpIncrement 300; OpIncrement 4]
           empty_world).
  unfold int_counts. repeat constructor; lia.
Defined.

(** X4: idle shutdown.  When the timer is due twice with no increment in
    between, it is not running afterwards: the first fire flushes what
    there is, the second finds nothing and stops the timer. *)
Theorem monitor_idle_twice_stops (h : list Op) (w : World) :
  timer_running (fst (run (h ++ [OpTimerFired; OpTimerFired]) (init, w))) = false.
Proof.
  unfold run. rewrite fold_left_app. cbn [fold_left].
  destruct (fold_left step h (init, w)) as [m w0].
  unfold step at 2. cbn [fst snd].
  destruct (timer_running m) eqn:T.
  - unfold OnTimerFired, Update. cbn [bytes_ increments_ timer_running].
    destruct (bytes_ m =? 0) eqn:E; cbn [step fst snd timer_running].
    + reflexivity.
    + rewrite T. unfold OnTimerFired. cbn [bytes_ increments_ timer_running Z.eqb].
      reflexivity.
  - cbn [step fst snd]. rewrite T. exact T.
Qed.

(** One step of a monitor within its threshold, whatever is handed in:
    the threshold is kept and nothing empty is reported. *)
Lemma step_reports st op :
  0 <= bytes_ (fst st) <= 65535 ->
  0 <= bytes_ (fst (step st op)) <= 65535 /\
  exists new, trace (snd (step st op)) = trace (snd st) ++ new /\
              reports_positive new.
Proof.
  destruct st as [m w]. cbn [fst snd]. intros Hb. unfold reports_positive.
  destruct op as [bytes| |]; cbn [step fst snd].
  - set (b := u32 bytes). destruct (Z.eq_dec b 0) as [->|Hnz].
    + rewrite Increment_zero. cbn [fst snd]. split; [lia|].
      exists []. rewrite app_nil_r. split; [reflexivity|constructor].
    + rewrite (Increment_nonzero b m w Hnz). cbv zeta. cbn [fst snd bytes_].
      pose proof (u32_range (bytes_ m + b)) as Ht.
      set (total := u32 (bytes_ m + b)) in *. clearbody total.
      destruct ((u32 (increments_ m + 1) <? 2) || (total >? 65535)) eqn:F;
        destruct (total =? 0) eqn:Z0; destruct (timer_running m);
        cbn [andb negb]; wnorm.
      all: try (apply orb_false_iff in F; destruct F as [_ F]).
      all: split; [lia|].
      all: first
             [ exists []; rewrite app_nil_r; split; [reflexivity|constructor]
             | eexists; split; [rewrite <- ?app_assoc; reflexivity|];
               repeat constructor; lia ].
  - destruct (timer_running m) eqn:T; cbn [fst snd].
    + unfold OnTimerFired, Update. cbn [bytes_ increments_ timer_running].
      destruct (bytes_ m =? 0) eqn:E; cbn [fst snd bytes_]; wnorm.
      * split; [lia|]. eexists. split; [reflexivity|]. repeat constructor.
      * apply Z.eqb_neq in E. split; [lia|].
        eexists. split; [reflexivity|]. repeat constructor. lia.
    + split; [lia|]. exists []. rewrite app_nil_r. split; [reflexivity|constructor].
  - unfold OnClose, Update. cbn [bytes_ increments_ timer_running].
    destruct (bytes_ m =? 0) eqn:E; cbn [fst snd bytes_]; wnorm.
    + split; [lia|]. eexists. split; [reflexivity|]. repeat constructor.
    + apply Z.eqb_neq in E. split; [lia|].
      eexists. split; [rewrite <- app_assoc; reflexivity|]. repeat constructor. lia.
Qed.

(** X5: no empty report.  Whatever happens to a monitor, and whatever is
    handed to [Increment], every report it makes to the process-wide
    counter carries at least one byte. *)
Theorem monitor_never_reports_nothing (h : list Op) (w : World) :
  exists new,
    trace (snd (run h (init, w))) = trace w ++ new /\ reports_positive new.
Proof.
  assert (forall st, 0 <= bytes_ (fst st) <= 65535 ->
            exists new, trace (snd (run h st)) = trace (snd st) ++ new /\
                        reports_positive new) as H.
  { unfold run. induction h as [|op h IH]; intros st Hb; cbn [fold_left].
    - exists []. rewrite app_nil_r. split; [reflexivity|constructor].
    - destruct (step_reports st op Hb) as (Hb1 & new1 & T1 & P1).
      destruct (IH (step st op) Hb1) as (new2 & T2 & P2).
      exists (new1 ++ new2). rewrite T2, T1, <- app_assoc. split; [reflexivity|].
      apply Forall_app. split; assumption. }
  apply (H (init, w)). cbn. lia.
Qed.

End MonitorAccounting.

(** ** The life cycle of a socket: Open and Close *)

Lemma GetSocketFDHash_involutive fd : GetSocketFDHash (GetSocketFDHash fd) = fd.
Proof.
  unfold GetSocketFDHash. rewrite Z.lxor_assoc, Z.lxor_nilpotent, Z.lxor_0_r.
  reflexivity.
Qed.

Lemma GetSocketFDHash_injective a b :
  GetSocketFDHash a = GetSocketFDHash b -> a = b.
Proof.
  intros H. rewrite <- (GetSocketFDHash_involutive a), H.
  apply GetSocketFDHash_involutive.
Qed.

(** The world after [Open] has asked for the token, created the descriptor
    [fd] (guarding it where the platform guards descriptors) and asked for
    the non-blocking mode, which the kernel answered with [a]. *)
Lemma opening_facts cfg address_family w fd guard a rest :
  udp_socket_count w < max_udp_sockets cfg ->
  script w = SysOk fd :: (if fd_guarded cfg then [SysOk guard] else [])
               ++ a :: rest ->
  let w0 := snd (TryAcquireGlobalUDPSocketCount cfg w) in
  let call := c_socket (ConvertAddressFamily address_family) in
  let w1 := snd (sys_value call w0) in
  let w2 := if fd_guarded cfg
            then snd (sys_status (c_change_fdguard (Z.of_N fd)) w1) else w1 in
  let w3 := snd (sys_status (c_set_nonblocking (Z.of_N fd)) w2) in
  fst (TryAcquireGlobalUDPSocketCount cfg w) = true /\
  fst (sys_value call w0) = Z.of_N fd /\
  (fd_guarded cfg = true -> fst (sys_status (c_change_fdguard (Z.of_N fd)) w1) = 0) /\
  fst (sys_status (c_set_nonblocking (Z.of_N fd)) w2) = (if failed a then -1 else 0) /\
  script w3 = rest /\
  udp_socket_count w3 = udp_socket_count w + 1 /\
  bytes_received w3 = bytes_received w /\
  trace w3 =
    trace w ++ [EvSys call (SysOk fd)]
      ++ (if fd_guarded cfg
          then [EvSys (c_change_fdguard (Z.of_N fd)) (SysOk guard)] else [])
      ++ [EvSys (c_set_nonblocking (Z.of_N fd)) a].
Proof.
  intros Hgate Hscript w0 call w1 w2 w3.
  assert (fst (TryAcquireGlobalUDPSocketCount cfg w) = true /\
          script w0 = script w /\ trace w0 = trace w /\
          udp_socket_count w0 = udp_socket_count w + 1 /\
          bytes_received w0 = bytes_received w) as (Hacq & S0 & T0 & U0 & B0).
  { unfold w0, TryAcquireGlobalUDPSocketCount.
    assert ((udp_socket_count w <? max_udp_sockets cfg) = true) as -> by lia.
    repeat split. }
  rewrite Hscript in S0.
  destruct (syscall_scripted call w0 _ _ S0) as (A1 & S1 & T1 & U1 & _).
  destruct (syscall_trace call w0) as (_ & _ & B1 & _).
  assert (fst (sys_value call w0) = Z.of_N fd) as Hfd.
  { unfold sys_value. destruct (syscall call w0) as [a0 w']. cbn [fst] in *.
    rewrite A1. reflexivity. }
  assert (w1 = snd (syscall call w0)) as Ew1.
  { unfold w1, sys_value. destruct (syscall call w0). reflexivity. }
  rewrite <- Ew1 in S1, T1, U1, B1.
  assert ((fd_guarded cfg = true ->
           fst (sys_status (c_change_fdguard (Z.of_N fd)) w1) = 0) /\
          script w2 = a :: rest /\
          trace w2 = trace w1 ++ (if fd_guarded cfg
                                  then [EvSys (c_change_fdguard (Z.of_N fd)) (SysOk guard)]
                                  else []) /\
          udp_socket_count w2 = udp_socket_count w1 /\
          bytes_received w2 = bytes_received w1) as (Hg & S2 & T2 & U2 & B2).
  { unfold w2. destruct (fd_guarded cfg); cbn [app] in S1.
    - destruct (syscall_scripted (c_change_fdguard (Z.of_N fd)) w1 _ _ S1)
        as (A & S & T & U & _).
      destruct (syscall_trace (c_change_fdguard (Z.of_N fd)) w1) as (_ & _ & B & _).
      rewrite sys_status_spec. cbn [fst snd]. rewrite A. auto.
    - split; [discriminate|]. split; [exact S1|].
      split; [rewrite app_nil_r; reflexivity|]. split; reflexivity. }
  destruct (syscall_scripted (c_set_nonblocking (Z.of_N fd)) w2 _ _ S2)
    as (A3 & S3 & T3 & U3 & _).
  destruct (syscall_trace (c_set_nonblocking (Z.of_N fd)) w2) as (_ & _ & B3 & _).
  assert (w3 = snd (syscall (c_set_nonblocking (Z.of_N fd)) w2)) as Ew3.
  { unfold w3. rewrite sys_status_spec. reflexivity. }
  split; [exact Hacq|]. split; [exact Hfd|]. split; [exact Hg|]. split.
  { rewrite sys_status_spec. cbn [fst]. rewrite A3. reflexivity. }
  rewrite Ew3. split; [exact S3|]. split; [lia|]. split; [congruence|].
  rewrite T3, T2, T1, T0, <- !app_assoc. reflexivity.
Qed.

(** [Open] when the kernel grants everything. *)
Lemma Open_granted (cfg : Config) (address_family : AddressFamily)
    (s : UDPSocketPosix) (w : World) (fd guard nb : N) (rest : list SysAnswer) :
  udp_socket_count w < max_udp_sockets cfg ->
  script w = SysOk fd :: (if fd_guarded cfg then [SysOk guard] else [])
               ++ SysOk nb :: rest ->
  exists w',
    Open cfg address_family s w = Done OK (opened address_family (Z.of_N fd) s) w' /\
    socket_hash_ (opened address_family (Z.of_N fd) s) =
      GetSocketFDHash (socket_ (opened address_family (Z.of_N fd) s)) /\
    script w' = rest /\
    udp_socket_count w' =
      udp_socket_count w + 1 - (if owned_socket_count_ s then 1 else 0) /\
    bytes_received w' = bytes_received w /\
    trace w' =
      trace w ++ [EvSys (c_socket (ConvertAddressFamily address_family)) (SysOk fd)]
        ++ (if fd_guarded cfg
            then [EvSys (c_change_fdguard (Z.of_N fd)) (SysOk guard)] else [])
        ++ [EvSys (c_set_nonblocking (Z.of_N fd)) (SysOk nb)]
        ++ tag_applied (tag_ s) (Z.of_N fd).
Proof.
  intros Hgate Hscript.
  destruct (opening_facts cfg address_family w fd guard (SysOk nb) rest Hgate Hscript)
    as (Hacq & Hfd & Hguard & Hnb & S3 & U3 & B3 & T3).
  cbv zeta in *. cbn [failed] in Hnb.
  assert ((Z.of_N fd =? kInvalidSocket) = false) as Hvalid
    by (apply Z.eqb_neq; unfold kInvalidSocket; lia).
  set (w3 := snd (sys_status (c_set_nonblocking (Z.of_N fd)) _)) in *.
  exists (OwnedUDPSocketCount_Reset (owned_socket_count_ s)
            (if negb (SocketTag_eqb (tag_ s) SocketTag_default)
             then emit (EvTagApply (tag_ s) (Z.of_N fd)) w3 else w3)).
  split.
  { unfold Open, opened, partially_opened. destruct s. ssimpl.
    rewrite bind_liftW, Hacq. cbn [negb]. mpure. ssimpl.
    rewrite bind_liftW, Hfd. mpure. rewrite Hvalid. mpure.
    destruct (fd_guarded cfg).
    - mpure. rewrite bind_liftW, (Hguard eq_refl). mpure. cbn [Z.eqb]. mpure.
      rewrite bind_liftW, Hnb. cbn [Z.eqb negb]. mpure. ssimpl.
      fold w3. destruct (negb (SocketTag_eqb _ _)); mpure; ssimpl; reflexivity.
    - mpure. rewrite bind_liftW, Hnb. cbn [Z.eqb negb]. mpure. ssimpl.
      fold w3. destruct (negb (SocketTag_eqb _ _)); mpure; ssimpl; reflexivity. }
  split; [destruct s; reflexivity|].
  unfold tag_applied.
  destruct (SocketTag_eqb (tag_ s) SocketTag_default); cbn [negb];
    destruct (owned_socket_count_ s); wsimpl; rewrite ?S3, ?U3, ?B3, ?T3.
  all: repeat split; try lia; rewrite <- ?app_assoc; cbn [app];
    rewrite ?app_nil_r; reflexivity.
Qed.

(** X6: a successful [Open].  When the gate has capacity and the kernel
    creates the descriptor and grants the non-blocking mode, [Open] returns
    [OK]; the object holds the descriptor, its fingerprint, the address
    family and the token; the gate counts one more socket (less the token
    the object held before, which the assignment releases); a non-default
    tag is applied to the new descriptor, and a default one is not. *)
Theorem Open_succeeds (cfg : Config) (address_family : AddressFamily)
    (s : UDPSocketPosix) (w : World) (fd guard nb : N) (rest : list SysAnswer) :
  udp_socket_count w < max_udp_sockets cfg ->
  script w = SysOk fd :: (if fd_guarded cfg then [SysOk guard] else [])
               ++ SysOk nb :: rest ->
  exists w',
    Open cfg address_family s w = Done OK (opened address_family (Z.of_N fd) s) w' /\
    socket_hash_ (opened address_family (Z.of_N fd) s) =
      GetSocketFDHash (socket_ (opened address_family (Z.of_N fd) s)) /\
    script w' = rest /\
    udp_socket_count w' =
      udp_socket_count w + 1 - (if owned_socket_count_ s then 1 else 0) /\
    bytes_received w' = bytes_received w /\
    trace w' =
      trace w ++ [EvSys (c_socket (ConvertAddressFamily address_family)) (SysOk fd)]
        ++ (if fd_guarded cfg
            then [EvSys (c_change_fdguard (Z.of_N fd)) (SysOk guard)] else [])
        ++ [EvSys (c_set_nonblocking (Z.of_N fd)) (SysOk nb)]
        ++ tag_applied (tag_ s) (Z.of_N fd).
Proof. exact (Open_granted cfg address_family s w fd guard nb rest). Qed.

Lemma Open_succeeds_witness :
  exists w',
    Open example_config ADDRESS_FAMILY_IPV6
      (set_tag_ (mkSocketTag 10 20) (UDPSocketPosix_new DEFAULT_BIND false))
      (set_script [SysOk 7; SysOk 0] empty_world) =
    Done OK (opened ADDRESS_FAMILY_IPV6 7
               (set_tag_ (mkSocketTag 10 20) (UDPSocketPosix_new DEFAULT_BIND false))) w' /\
    udp_socket_count w' = 1 /\
    trace w' = [EvSys (c_socket AF_INET6) (SysOk 7);
                EvSys (c_set_nonblocking 7) (SysOk 0);
                EvTagApply (mkSocketTag 10 20) 7].
Proof.
  destruct (Open_succeeds example_config ADDRESS_FAMILY_IPV6
              (set_tag_ (mkSocketTag 10 20) (UDPSocketPosix_new DEFAULT_BIND false))
              (set_script [SysOk 7; SysOk 0] empty_world) 7 0 0 [])
    as (w' & HO & _ & _ & HU & _ & HT).
  - cbn. lia.
  - reflexivity.
  - exists w'. split; [exact HO|]. split; [exact HU|exact HT].
Defined.

(** X7: when the kernel refuses to create the descriptor, [Open] returns
    the mapped error, gives the token back to the gate and makes no further
    call; the object is left with the invalid descriptor and the address
    family already converted. *)
Theorem Open_socket_refused (cfg : Config) (address_family : AddressFamily)
    (s : UDPSocketPosix) (w : World) (e : positive) (rest : list SysAnswer) :
  udp_socket_count w < max_udp_sockets cfg ->
  script w = SysErr e :: rest ->
  exists w',
    Open cfg address_family s w =
      Done (MapSystemError cfg (Zpos e))
        (set_socket_ kInvalidSocket
           (set_addr_family_ (ConvertAddressFamily address_family) s)) w' /\
    udp_socket_count w' = udp_socket_count w /\
    script w' = rest /\
    trace w' =
      trace w ++ [EvSys (c_socket (ConvertAddressFamily address_family)) (SysErr e)].
Proof.
  intros Hgate Hscript.
  set (call := c_socket (ConvertAddressFamily address_family)).
  set (w0 := snd (TryAcquireGlobalUDPSocketCount cfg w)).
  assert (fst (TryAcquireGlobalUDPSocketCount cfg w) = true /\
          script w0 = script w /\ trace w0 = trace w /\
          udp_socket_count w0 = udp_socket_count w + 1) as (Hacq & S0 & T0 & U0).
  { unfold w0, TryAcquireGlobalUDPSocketCount.
    assert ((udp_socket_count w <? max_udp_sockets cfg) = true) as -> by lia.
    repeat split. }
  rewrite Hscript in S0.
  destruct (syscall_scripted call w0 _ _ S0) as (A1 & S1 & T1 & U1 & E1).
  assert (fst (sys_value call w0) = kInvalidSocket /\
          snd (sys_value call w0) = snd (syscall call w0)) as (Hfd & Ew1).
  { unfold sys_value. destruct (syscall call w0) as [a0 w']. cbn [fst snd] in *.
    rewrite A1. split; reflexivity. }
  exists (OwnedUDPSocketCount_Reset true (snd (syscall call w0))).
  split.
  { unfold Open. destruct s. ssimpl.
    rewrite bind_liftW. fold w0. rewrite Hacq. cbn [negb]. mpure. ssimpl.
    rewrite bind_liftW. fold call. rewrite Hfd, Ew1. mpure.
    rewrite Z.eqb_refl. mpure. rewrite (E1 e eq_refl). reflexivity. }
  wsimpl. rewrite U1, S1, T1, T0. repeat split. lia.
Qed.

Lemma Open_socket_refused_witness :
  exists w',
    Open example_config ADDRESS_FAMILY_IPV4 (UDPSocketPosix_new DEFAULT_BIND false)
      (set_script [SysErr 22] empty_world) =
    Done ERR_INVALID_ARGUMENT
      (set_socket_ kInvalidSocket
         (set_addr_family_ AF_INET (UDPSocketPosix_new DEFAULT_BIND false))) w' /\
    udp_socket_count w' = 0.
Proof.
  destruct (Open_socket_refused example_config ADDRESS_FAMILY_IPV4
              (UDPSocketPosix_new DEFAULT_BIND false)
              (set_script [SysErr 22] empty_world) 22 [])
    as (w' & HO & HU & _).
  - cbn. lia.
  - reflexivity.
  - exists w'. split; [exact HO|exact HU].
Defined.

Lemma watchers_stopped_script s w : script (watchers_stopped s w) = script w.
Proof.
  unfold watchers_stopped, OwnedUDPSocketCount_Reset.
  destruct (owned_socket_count_ s); reflexivity.
Qed.

(** X8: opening and closing is a round trip for the gate.  On a platform
    without descriptor guards, when the kernel grants the descriptor and the
    non-blocking mode and accepts the [close], [Open] followed by [Close]
    returns, the descriptor that was opened has been closed, the socket is
    closed and holds nothing pending, and the gate counts as many sockets as
    before [Open] (less the token the object held before). *)
Theorem Open_Close_round_trip (cfg : Config) (address_family : AddressFamily)
    (s : UDPSocketPosix) (w : World) (fd nb : N) (a : SysAnswer)
    (rest : list SysAnswer) :
  fd_guarded cfg = false ->
  dont_close_ s = false ->
  udp_socket_count w < max_udp_sockets cfg ->
  script w = SysOk fd :: SysOk nb :: a :: rest ->
  close_accepted a = true ->
  exists s' w',
    (Open cfg address_family ;; Close cfg) s w = Done tt s' w' /\
    connection_reset s' /\ pending_dropped s' /\
    udp_socket_count w' =
      udp_socket_count w - (if owned_socket_count_ s then 1 else 0) /\
    exists a', In (EvSys (c_close (Z.of_N fd)) a') (trace w').
Proof.
  intros Hg Hd Hgate Hscript Ha.
  assert (script w = SysOk fd :: (if fd_guarded cfg then [SysOk 0%N] else [])
                       ++ SysOk nb :: a :: rest) as Hscript'
    by (rewrite Hg; exact Hscript).
  destruct (Open_granted cfg address_family s w fd 0 nb (a :: rest) Hgate Hscript')
    as (w1 & HO & Hh & S1 & U1 & _ & _).
  set (s1 := opened address_family (Z.of_N fd) s) in *.
  assert (dont_close_ s1 = false) as Hd1 by (destruct s; exact Hd).
  assert (socket_ s1 = Z.of_N fd) as Hfd by (destruct s; reflexivity).
  assert (owned_socket_count_ s1 = true) as Ho by (destruct s; reflexivity).
  assert (socket_ s1 <> kInvalidSocket) as Hs
    by (rewrite Hfd; unfold kInvalidSocket; lia).
  pose proof (PlatformClose_plain cfg (socket_ s1) (pending_cleared s1)
                (watchers_stopped s1 w1) Hg) as HP.
  rewrite syscall_answer, watchers_stopped_script, S1 in HP. cbn [hd] in HP.
  rewrite Ha in HP.
  destruct (Close_open_done cfg s1 w1 _ _ Hd1 Hs Hh HP)
    as (s' & w' & HC & Hpend & Hreset & _ & Hcount & _ & (evs & a' & _ & Htrace) & _).
  exists s', w'. rewrite (bind_Done _ _ _ _ _ _ _ HO).
  split; [exact HC|]. split; [exact Hreset|]. split; [exact Hpend|]. split.
  - rewrite Hcount, Ho, U1. lia.
  - exists a'. rewrite Htrace. unfold close_call. rewrite Hg, Hfd.
    apply in_or_app. right. apply in_or_app. right. apply in_or_app. right.
    left. reflexivity.
Qed.

Lemma Open_Close_round_trip_witness :
  exists s' w',
    (Open example_config ADDRESS_FAMILY_IPV4 ;; Close example_config)
      (UDPSocketPosix_new DEFAULT_BIND false)
      (set_script [SysOk 3; SysOk 0; SysErr 4] empty_world) = Done tt s' w' /\
    socket_ s' = kInvalidSocket /\ udp_socket_count w' = 0.
Proof.
  destruct (Open_Close_round_trip example_config ADDRESS_FAMILY_IPV4
              (UDPSocketPosix_new DEFAULT_BIND false)
              (set_script [SysOk 3; SysOk 0; SysErr 4] empty_world)
              3 0 (SysErr 4) [])
    as (s' & w' & H & (Hs & _) & _ & Hc & _).
  - reflexivity.
  - reflexivity.
  - cbn. lia.
  - reflexivity.
  - reflexivity.
  - exists s', w'. split; [exact H|]. split; [exact Hs|exact Hc].
Defined.

(** How a [Close] that returns has left the object. *)
Lemma Close_done_inv cfg s w s' w' :
  dont_close_ s = false -> Close cfg s w = Done tt s' w' ->
  (socket_ s = kInvalidSocket /\ s' = set_owned_socket_count_ false s /\
   w' = OwnedUDPSocketCount_Reset (owned_socket_count_ s) w) \/
  (socket_ s <> kInvalidSocket /\ socket_hash_ s = GetSocketFDHash (socket_ s) /\
   exists r m,
     (fd_guarded cfg = false -> r = remote_address_ s) /\
     s' = set_received_activity_monitor_ m
            (set_tag_ SocketTag_default
               (set_is_connected_ false
                  (set_addr_family_ 0
                     (set_socket_ kInvalidSocket
                        (set_remote_address_ r (pending_cleared s))))))).
Proof.
  intros Hd HC. destruct (Z.eq_dec (socket_ s) kInvalidSocket) as [Hs|Hs].
  - left. rewrite (Close_closed cfg s w Hd Hs) in HC. injection HC as <- <-. auto.
  - right. rewrite (Close_open cfg s w Hd Hs) in HC. rewrite bind_CHECK in HC.
    destruct (socket_hash_ s =? GetSocketFDHash (socket_ s)) eqn:Hh; [|discriminate].
    apply Z.eqb_eq in Hh. split; [exact Hs|]. split; [exact Hh|].
    destruct (PlatformClose cfg (socket_ s) (pending_cleared s) (watchers_stopped s w))
      as [u s2 w2|wf] eqn:HP.
    2:{ rewrite (bind_Fatal _ _ _ _ _ HP) in HC. discriminate. }
    rewrite (bind_Done _ _ _ _ _ _ _ HP) in HC. destruct u.
    destruct (PlatformClose_outcome cfg _ _ _ _ _ HP) as (Hsame & _).
    assert (fd_guarded cfg = false -> s2 = pending_cleared s) as Hplain.
    { intros Hg. rewrite (PlatformClose_plain cfg _ _ _ Hg) in HP.
      destruct (close_accepted _); [|discriminate]. injection HP as <- _. reflexivity. }
    revert HC. mpure. unfold monitor_do.
    destruct (ReceivedActivityMonitor.OnClose _ _) as [m wm]. intros HC.
    injection HC as <- _.
    exists (remote_address_ s2), m. split.
    + intros Hg. rewrite (Hplain Hg). destruct s; reflexivity.
    + unfold same_but_remote in Hsame. rewrite <- Hsame. reflexivity.
Qed.

(** X9: what [Close] leaves alone.  A [Close] that returns keeps how the
    socket was configured (bind type, multicast settings, send flags,
    receive options) and the cached local endpoint; on a platform without
    descriptor guards it keeps the cached remote endpoint too. *)
Theorem Close_keeps_settings (cfg : Config) (s s' : UDPSocketPosix) (w w' : World) :
  dont_close_ s = false ->
  Close cfg s w = Done tt s' w' ->
  same_settings s s' /\
  (fd_guarded cfg = false -> remote_address_ s' = remote_address_ s).
Proof.
  intros Hd HC.
  destruct (Close_done_inv cfg s w s' w' Hd HC)
    as [(_ & -> & _)|(_ & _ & r & m & Hr & ->)].
  - destruct s. unfold same_settings. cbn. repeat split.
  - split.
    + destruct s. unfold same_settings. cbn. repeat split.
    + intros Hg. rewrite (Hr Hg). destruct s. reflexivity.
Qed.

Lemma Close_keeps_settings_witness :
  match Close example_config (fst example_connected_socket)
          (set_script [SysOk 0] (snd example_connected_socket)) with
  | Done _ s' _ =>
      multicast_time_to_live_ s' = 1 /\
      remote_address_ s' = Some (mkIPEndPoint [192; 0; 2; 1] 53)
  | Fatal _ => False
  end.
Proof.
  destruct (Close example_config (fst example_connected_socket)
              (set_script [SysOk 0] (snd example_connected_socket)))
    as [u s' w'|wf] eqn:HC.
  - destruct u.
    destruct (Close_keeps_settings example_config (fst example_connected_socket) s'
                (set_script [SysOk 0] (snd example_connected_socket)) w' eq_refl HC)
      as ((_ & _ & _ & _ & Httl & _) & Hr).
    split; [rewrite Httl; reflexivity|rewrite (Hr eq_refl); reflexivity].
  - vm_compute in HC. discriminate HC.
Defined.

(** X10: [Close] is idempotent.  After a [Close] that returns, a second
    [Close] returns too and changes neither the object nor the world: it
    makes no call and gives no token back a second time. *)
Theorem Close_idempotent (cfg : Config) (s s' : UDPSocketPosix) (w w' : World) :
  dont_close_ s = false ->
  Close cfg s w = Done tt s' w' ->
  Close cfg s' w' = Done tt s' w'.
Proof.
  intros Hd HC.
  assert (dont_close_ s' = false /\ socket_ s' = kInvalidSocket /\
          owned_socket_count_ s' = false /\ set_owned_socket_count_ false s' = s')
    as (Hd' & Hs' & Ho' & Hfix).
  { destruct (Close_done_inv cfg s w s' w' Hd HC)
      as [(Hs & -> & _)|(_ & _ & r & m & _ & ->)].
    - clear HC. destruct s. cbn in Hd, Hs.
      split; [|split; [|split]]; vm_compute; try reflexivity; assumption.
    - clear HC. destruct s. cbn in Hd.
      split; [|split; [|split]]; vm_compute; try reflexivity; assumption. }
  rewrite (Close_closed cfg s' w' Hd' Hs'), Ho', Hfix. reflexivity.
Qed.

Lemma Close_idempotent_witness :
  match Close example_config (fst example_bound_socket)
          (set_script [SysOk 0] (snd example_bound_socket)) with
  | Done _ s' w' => Close example_config s' w' = Done tt s' w'
  | Fatal _ => False
  end.
Proof.
  destruct (Close example_config (fst example_bound_socket)
              (set_script [SysOk 0] (snd example_bound_socket)))
    as [u s' w'|wf] eqn:HC.
  - destruct u.
    exact (Close_idempotent example_config (fst example_bound_socket) s'
             (set_script [SysOk 0] (snd example_bound_socket)) w' eq_refl HC).
  - vm_compute in HC. discriminate HC.
Defined.

(** X11: the fingerprint detects every overwritten descriptor.  If the
    descriptor of an open socket is replaced by any other descriptor after
    its fingerprint was taken, [Close] stops the program at the fingerprint
    check: the pending state has been dropped and the watchers stopped, but
    no call has reached the kernel, so no foreign descriptor is closed. *)
Theorem Close_detects_overwritten_descriptor (cfg : Config) (s : UDPSocketPosix)
    (w : World) (fd' : Z) :
  dont_close_ s = false ->
  socket_hash_ s = GetSocketFDHash (socket_ s) ->
  fd' <> socket_ s -> fd' <> kInvalidSocket ->
  exists w',
    Close cfg (set_socket_ fd' s) w = Fatal w' /\
    trace w' = trace w ++ [EvStopWatching WATCH_READ; EvStopWatching WATCH_WRITE].
Proof.
  intros Hd Hh Hne Hv.
  set (s2 := set_socket_ fd' s).
  assert (dont_close_ s2 = false) as Hd2 by (destruct s; exact Hd).
  assert (socket_ s2 = fd') as Hfd by (destruct s; reflexivity).
  assert (socket_hash_ s2 = socket_hash_ s) as Hh2 by (destruct s; reflexivity).
  assert (socket_ s2 <> kInvalidSocket) as Hs2 by (rewrite Hfd; exact Hv).
  exists (watchers_stopped s2 w). split.
  - rewrite (Close_open cfg s2 w Hd2 Hs2), bind_CHECK, Hh2, Hfd, Hh.
    assert ((GetSocketFDHash (socket_ s) =? GetSocketFDHash fd') = false) as ->.
    { apply Z.eqb_neq. intros E. apply Hne. symmetry.
      exact (GetSocketFDHash_injective _ _ E). }
    reflexivity.
  - destruct (watchers_stopped_facts s2 w) as (T & _). exact T.
Qed.

Lemma Close_detects_overwritten_descriptor_witness :
  exists w',
    Close example_config (set_socket_ 4 (fst example_bound_socket))
      (set_script [SysOk 0] (snd example_bound_socket)) = Fatal w'.
Proof.
  destruct (Close_detects_overwritten_descriptor example_config
              (fst example_bound_socket)
              (set_script [SysOk 0] (snd example_bound_socket)) 4)
    as (w' & H & _).
  - reflexivity.
  - reflexivity.
  - cbn. lia.
  - unfold kInvalidSocket. lia.
  - exists w'. exact H.
Defined.

(** ** Binding, connecting and the cached addresses *)

(** How [Bind] ends. *)
Lemma Bind_all_or_nothing_run (cfg : Config) (address : IPEndPoint)
    (s : UDPSocketPosix) (w : World) :
  exists rv s' w',
    Bind cfg address s w = Done rv s' w' /\
    (rv < 0 -> s' = s) /\
    (0 <= rv -> s' = set_local_address_ None (set_is_connected_ true s)) /\
    (ToSockAddr address = None -> rv < 0).
Proof.
  destruct (SetMulticastOptions_preserves cfg s w) as (rv0 & w0 & H0).
  destruct (DoBind_preserves cfg address s w0) as (rv1 & w1 & H1).
  unfold Bind. rewrite (bind_Done _ _ _ _ _ _ _ H0).
  destruct (rv0 <? 0) eqn:N0.
  { exists rv0, s, w0. split; [reflexivity|].
    split; [reflexivity|]. split; intros; lia. }
  rewrite (bind_Done _ _ _ _ _ _ _ H1).
  destruct (rv1 <? 0) eqn:N1.
  { exists rv1, s, w1. split; [reflexivity|].
    split; [reflexivity|]. split; intros; lia. }
  mpure. eexists _, _, _. split; [reflexivity|].
  split; [intros; lia|]. split; [reflexivity|].
  intros Hconv. exfalso. unfold DoBind in H1. rewrite Hconv in H1.
  injection H1 as <- _. discriminate N1.
Qed.

(** X12: [Bind] is all or nothing.  It always returns; when it fails (the
    multicast options, the conversion of the address or the kernel's [bind]
    failed) the object is as before, and when it succeeds the only changes
    are that the socket counts as connected and the cached local endpoint is
    dropped, so that the next [GetLocalAddress] asks the kernel.  An address
    that does not convert to a socket address makes it fail. *)
Theorem Bind_all_or_nothing (cfg : Config) (address : IPEndPoint)
    (s : UDPSocketPosix) (w : World) :
  exists rv s' w',
    Bind cfg address s w = Done rv s' w' /\
    (rv < 0 -> s' = s) /\
    (0 <= rv -> s' = set_local_address_ None (set_is_connected_ true s)) /\
    (ToSockAddr address = None -> rv < 0).
Proof. exact (Bind_all_or_nothing_run cfg address s w). Qed.

Lemma Bind_all_or_nothing_witness :
  exists w',
    Bind example_config (mkIPEndPoint [127; 0; 0; 1] 5000) (fst example_open_socket_v6)
      (set_script [SysErr 98] (snd example_open_socket_v6))
    = Done ERR_ADDRESS_IN_USE (fst example_open_socket_v6) w'.
Proof.
  destruct (Bind_all_or_nothing example_config (mkIPEndPoint [127; 0; 0; 1] 5000)
              (fst example_open_socket_v6)
              (set_script [SysErr 98] (snd example_open_socket_v6)))
    as (rv & s' & w' & H & Hfail & _).
  assert (rv = ERR_ADDRESS_IN_USE) as ->
    by (vm_compute in H; injection H as <- _ _; reflexivity).
  rewrite (Hfail ltac:(unfold ERR_ADDRESS_IN_USE; lia)) in H.
  exists w'. exact H.
Defined.

(** X13: the address queries.  A socket that is not connected answers
    [ERR_SOCKET_NOT_CONNECTED] without asking the kernel.  An endpoint that
    [GetLocalAddress] or [GetPeerAddress] has handed out came with [OK] and
    is cached: every later query returns it again with [OK], without a call
    and without changing the object. *)
Theorem address_queries_cached (cfg : Config) (s : UDPSocketPosix) (w : World) :
  (is_connected_ s = false ->
   GetLocalAddress cfg s w = Done (ERR_SOCKET_NOT_CONNECTED, None) s w /\
   GetPeerAddress cfg s w = Done (ERR_SOCKET_NOT_CONNECTED, None) s w) /\
  (forall rv ep s' w',
     GetLocalAddress cfg s w = Done (rv, Some ep) s' w' ->
     rv = OK /\ local_address_ s' = Some ep /\
     forall w2, GetLocalAddress cfg s' w2 = Done (OK, Some ep) s' w2) /\
  (forall rv ep s' w',
     GetPeerAddress cfg s w = Done (rv, Some ep) s' w' ->
     rv = OK /\ remote_address_ s' = Some ep /\
     forall w2, GetPeerAddress cfg s' w2 = Done (OK, Some ep) s' w2).
Proof.
  split; [|split].
  - intros C. unfold GetLocalAddress, GetPeerAddress. rewrite !bind_gets, C.
    split; reflexivity.
  - intros rv ep s' w'. unfold GetLocalAddress at 1. rewrite bind_gets.
    destruct (is_connected_ s) eqn:C; cbn [negb]; [|intros H; discriminate H].
    rewrite bind_gets. destruct (local_address_ s) as [cached|] eqn:L.
    { intros H. injection H as <- <- <- _. split; [reflexivity|].
      split; [exact L|]. intros w2. unfold GetLocalAddress.
      rewrite bind_gets, C. cbn [negb]. rewrite bind_gets, L. reflexivity. }
    rewrite bind_gets, bind_liftW.
    destruct (sys_getname (c_getsockname (socket_ s)) w) as [[st name] w1].
    cbn [fst snd]. destruct (st =? 0); cbn [negb].
    2:{ rewrite bind_get_errno. intros H. discriminate H. }
    destruct (option_bind FromSockAddr name) as [endpoint|];
      [|intros H; discriminate H].
    rewrite bind_modify. unfold ret. intros H. injection H as <- <- <- _.
    split; [reflexivity|]. split; [destruct s; reflexivity|].
    intros w2. unfold GetLocalAddress. rewrite !bind_gets.
    destruct s. cbn in C. subst. reflexivity.
  - intros rv ep s' w'. unfold GetPeerAddress at 1. rewrite bind_gets.
    destruct (is_connected_ s) eqn:C; cbn [negb]; [|intros H; discriminate H].
    rewrite bind_gets. destruct (remote_address_ s) as [cached|] eqn:L.
    { intros H. injection H as <- <- <- _. split; [reflexivity|].
      split; [exact L|]. intros w2. unfold GetPeerAddress.
      rewrite bind_gets, C. cbn [negb]. rewrite bind_gets, L. reflexivity. }
    rewrite bind_gets, bind_liftW.
    destruct (sys_getname (c_getpeername (socket_ s)) w) as [[st name] w1].
    cbn [fst snd]. destruct (st =? 0); cbn [negb].
    2:{ rewrite bind_get_errno. intros H. discriminate H. }
    destruct (option_bind FromSockAddr name) as [endpoint|];
      [|intros H; discriminate H].
    rewrite bind_modify. unfold ret. intros H. injection H as <- <- <- _.
    split; [reflexivity|]. split; [destruct s; reflexivity|].
    intros w2. unfold GetPeerAddress. rewrite !bind_gets.
    destruct s. cbn in C. subst. reflexivity.
Qed.

Lemma address_queries_cached_witness :
  match GetLocalAddress example_config (fst example_bound_socket)
          (set_script [SysMsg 16 (mkSockAddr AF_INET [127; 0; 0; 1] 5000)]
             (snd example_bound_socket)) with
  | Done r s' w' =>
      r = (OK, Some (mkIPEndPoint [127; 0; 0; 1] 5000)) /\
      GetLocalAddress example_config s' w' = Done r s' w'
  | Fatal _ => False
  end.
Proof.
  destruct (GetLocalAddress example_config (fst example_bound_socket)
              (set_script [SysMsg 16 (mkSockAddr AF_INET [127; 0; 0; 1] 5000)]
                 (snd example_bound_socket)))
    as [r s' w'|wf] eqn:H.
  - assert (r = (OK, Some (mkIPEndPoint [127; 0; 0; 1] 5000))) as ->
      by (vm_compute in H; injection H as <- _ _; reflexivity).
    split; [reflexivity|].
    destruct (address_queries_cached example_config (fst example_bound_socket)
                (set_script [SysMsg 16 (mkSockAddr AF_INET [127; 0; 0; 1] 5000)]
                   (snd example_bound_socket))) as (_ & HL & _).
    destruct (HL _ _ _ _ H) as (_ & _ & Hagain). apply Hagain.
  - vm_compute in H. discriminate H.
Defined.

(** X14: a connected socket knows its peer.  After a [Connect] that
    returned [OK] the socket counts as connected and [GetPeerAddress]
    returns the endpoint that was connected to, without asking the kernel.
    ([MapSystemError] is assumed to map no OS error to [OK].) *)
Theorem Connect_caches_peer (cfg : Config) (address : IPEndPoint)
    (s s' : UDPSocketPosix) (w w' : World) :
  (forall e, 0 < e -> MapSystemError cfg e <> OK) ->
  Connect cfg address s w = Done OK s' w' ->
  is_connected_ s' = true /\
  forall w2, GetPeerAddress cfg s' w2 = Done (OK, Some address) s' w2.
Proof.
  intros Hmap. unfold Connect.
  destruct (SetMulticastOptions_preserves cfg s w) as (rv0 & w0 & H0).
  rewrite (bind_Done _ _ _ _ _ _ _ H0).
  destruct (rv0 =? OK) eqn:E0; cbn [negb].
  2:{ intros H. injection H as -> _ _. discriminate E0. }
  destruct (InternalConnect_outcome cfg address s w0 Hmap)
    as (rv & s1 & w1 & H1 & Hok & _ & _).
  rewrite (bind_Done _ _ _ _ _ _ _ H1). rewrite bind_modify.
  destruct (rv =? OK) eqn:E1; cbn [negb].
  2:{ rewrite bind_modify. unfold ret. intros H. injection H as -> _ _.
      discriminate E1. }
  rewrite bind_ret. unfold ret. intros H. injection H as Hrv <- _.
  rewrite (Hok Hrv). split; [destruct s; reflexivity|].
  intros w2. unfold GetPeerAddress. rewrite !bind_gets. destruct s. reflexivity.
Qed.

Lemma Connect_caches_peer_witness :
  match Connect example_config (mkIPEndPoint [192; 0; 2; 1] 53)
          (fst example_open_socket_v6)
          (set_script [SysErr 4; SysOk 0] (snd example_open_socket_v6)) with
  | Done rv s' w' =>
      rv = OK /\
      GetPeerAddress example_config s' w' =
        Done (OK, Some (mkIPEndPoint [192; 0; 2; 1] 53)) s' w'
  | Fatal _ => False
  end.
Proof.
  destruct (Connect example_config (mkIPEndPoint [192; 0; 2; 1] 53)
              (fst example_open_socket_v6)
              (set_script [SysErr 4; SysOk 0] (snd example_open_socket_v6)))
    as [rv s' w'|wf] eqn:H.
  - assert (rv = OK) as -> by (vm_compute in H; injection H as <- _ _; reflexivity).
    split; [reflexivity|].
    apply (Connect_caches_peer example_config (mkIPEndPoint [192; 0; 2; 1] 53)
             (fst example_open_socket_v6) s'
             (set_script [SysErr 4; SysOk 0] (snd example_open_socket_v6)) w'
             example_MapSystemError_fails H).
  - vm_compute in H. discriminate H.
Defined.

(** ** The read path *)

Lemma monitor_only_refl s : monitor_only s s.
Proof. unfold monitor_only. destruct s. reflexivity. Qed.

Lemma monitor_only_fields s s' :
  monitor_only s s' ->
  read_callback_ s' = read_callback_ s /\ socket_ s' = socket_ s /\
  always_update_bytes_received_ s' = always_update_bytes_received_ s /\
  dont_close_ s' = dont_close_ s.
Proof.
  unfold monitor_only. intros H. rewrite H. destruct s. cbn. auto.
Qed.

Lemma is_syscall_quiet e : is_syscall e -> not_callback e.
Proof. destruct e; cbn; auto. Qed.

Lemma sys_extends_quiet w w' : sys_extends w w' -> trace_extends not_callback w w'.
Proof.
  intros (evs & T & F & _). exists evs. split; [exact T|].
  eapply Forall_impl; [|exact F]. exact is_syscall_quiet.
Qed.

Lemma emit_quiet e w : not_callback e -> trace_extends not_callback w (emit e w).
Proof. intros H. exists [e]. split; [reflexivity|]. constructor; [exact H|constructor]. Qed.

Lemma same_trace_quiet w w' : trace w' = trace w -> trace_extends not_callback w w'.
Proof. intros H. exists []. rewrite app_nil_r. split; [exact H|constructor]. Qed.

Lemma Update_quiet m w :
  trace_extends not_callback w (snd (ReceivedActivityMonitor.Update m w)).
Proof.
  unfold ReceivedActivityMonitor.Update.
  destruct (ReceivedActivityMonitor.bytes_ m =? 0); cbn [snd].
  - apply trace_extends_refl.
  - exists [EvBytesReceived (ReceivedActivityMonitor.bytes_ m)].
    split; [reflexivity|]. constructor; [exact I|constructor].
Qed.

Lemma Increment_quiet bytes m w :
  trace_extends not_callback w (snd (ReceivedActivityMonitor.Increment bytes m w)).
Proof.
  unfold ReceivedActivityMonitor.Increment.
  destruct (bytes =? 0); [apply trace_extends_refl|]. cbv zeta.
  match goal with
  | |- context [ReceivedActivityMonitor.Update ?m1 w] =>
      pose proof (Update_quiet m1 w) as HU;
      destruct (ReceivedActivityMonitor.Update m1 w) as [m' w']
  end.
  cbn [snd] in HU.
  destruct (_ || _); destruct (ReceivedActivityMonitor.timer_running m);
    cbn [negb snd].
  - eapply trace_extends_trans; [exact HU|]. apply emit_quiet. exact I.
  - eapply trace_extends_trans; [exact HU|]. apply emit_quiet. exact I.
  - apply trace_extends_refl.
  - apply emit_quiet. exact I.
Qed.

(** [LogRead]: it returns, touches only the monitor, runs no callback and
    leaves the callers' memory alone; an error result is not accounted, and
    a byte count is accounted exactly. *)
Lemma LogRead_quiet result s w :
  exists s' w',
    LogRead result s w = Done tt s' w' /\ monitor_only s s' /\
    trace_extends not_callback w w' /\ memory w' = memory w /\
    (result < 0 -> s' = s /\ w' = w) /\
    (monitor_bounded s -> 0 <= result < 2 ^ 31 ->
     monitor_bounded s' /\ bytes_accounted s' w' = bytes_accounted s w + result).
Proof.
  unfold LogRead. destruct (result <? 0) eqn:N.
  - exists s, w. split; [reflexivity|]. split; [apply monitor_only_refl|].
    split; [apply trace_extends_refl|]. split; [reflexivity|].
    split; [auto|]. intros _ H. lia.
  - rewrite bind_gets. destruct (always_update_bytes_received_ s).
    + eexists _, _. split; [reflexivity|]. split; [apply monitor_only_refl|].
      split; [exists [EvBytesReceived result]; split;
                [reflexivity|constructor; [exact I|constructor]]|].
      split; [reflexivity|].
      split; [intros H; lia|]. intros Hb _. split; [exact Hb|].
      unfold bytes_accounted. cbn. lia.
    + unfold monitor_do.
      pose proof (Increment_memory (u32 result) (received_activity_monitor_ s) w) as Hm.
      pose proof (Increment_quiet (u32 result) (received_activity_monitor_ s) w) as Hq.
      pose proof (step_accounts (received_activity_monitor_ s, w)
                    (ReceivedActivityMonitor.OpIncrement result)) as Ha.
      cbn [ReceivedActivityMonitor.step fst snd] in Ha.
      unfold MonitorAccounts.accounted in Ha.
      destruct (ReceivedActivityMonitor.Increment _ _ w) as [m' w'].
      cbn [fst snd] in *.
      eexists _, _. split; [reflexivity|].
      split; [unfold monitor_only; destruct s; reflexivity|].
      split; [exact Hq|]. split; [exact Hm|]. split; [intros H; lia|].
      intros Hb Hr. destruct (Ha Hb Hr) as (Hb' & Hacc & _).
      unfold monitor_bounded, bytes_accounted, kActivityMonitorBytesThreshold.
      destruct s. cbn in *. split; [exact Hb'|exact Hacc].
Qed.

Lemma trace_extends_same P w w1 w2 :
  trace_extends P w w1 -> trace w2 = trace w1 -> trace_extends P w w2.
Proof. intros (evs & T & F) H. exists evs. rewrite H. auto. Qed.

Lemma sys_transfer_extends c len w : sys_extends w (snd (sys_transfer c len w)).
Proof.
  unfold sys_transfer. pose proof (syscall_extends c w) as H.
  destruct (syscall c w) as [a w']. exact H.
Qed.

Lemma sys_recvmsg_extends fd buf len w :
  sys_extends w (snd (sys_recvmsg fd buf len w)).
Proof.
  unfold sys_recvmsg. pose proof (syscall_extends (c_recvmsg fd buf len) w) as H.
  destruct (syscall _ w) as [a w']. exact H.
Qed.

(** A retried transfer into a buffer of [len] bytes returns -1 with a
    positive [errno], or a byte count that is at most [len]. *)
Lemma HANDLE_EINTR_transfer c len w :
  0 <= len ->
  let '(n, w') := HANDLE_EINTR (sys_transfer c len) w in
  (n = -1 /\ 0 < errno w') \/ 0 <= n <= len.
Proof.
  intros Hlen. unfold HANDLE_EINTR.
  pose proof (eintr_loop_ind
                (fun n w' => (n = -1 /\ 0 < errno w') \/ 0 <= n <= len)
                (fun r => r) (sys_transfer c len)) as H.
  specialize (H ltac:(
    intros w0; unfold sys_transfer;
    destruct (syscall c w0) as [a w'] eqn:E; cbn [fst snd];
    destruct a as [e|v|size name];
    [ left; split; [reflexivity|rewrite (syscall_errno _ _ _ _ E); lia]
    | right; cbn [answer_size]; lia
    | right; cbn [answer_size]; lia ]) (length (script w)) w).
  destruct (eintr_loop _ _ _ w) as [n w']. exact H.
Qed.

Lemma HANDLE_EINTR_recvmsg_result fd buf len w :
  0 <= len ->
  let '(r, w') := HANDLE_EINTR_recvmsg (sys_recvmsg fd buf len) w in
  (fst (fst r) = -1 /\ 0 < errno w') \/ 0 <= fst (fst r) <= len.
Proof.
  intros Hlen. unfold HANDLE_EINTR_recvmsg.
  pose proof (eintr_loop_ind
                (fun (r : Z * option SockAddr * bool) w' =>
                   (fst (fst r) = -1 /\ 0 < errno w') \/ 0 <= fst (fst r) <= len)
                (fun r => fst (fst r)) (sys_recvmsg fd buf len)) as H.
  specialize (H ltac:(
    intros w0; unfold sys_recvmsg;
    destruct (syscall (c_recvmsg fd buf len) w0) as [a w'] eqn:E; cbn [fst snd];
    destruct a as [e|v|size name];
    [ left; split; [reflexivity|rewrite (syscall_errno _ _ _ _ E); lia]
    | right; cbn [fst snd]; lia
    | right; cbn [fst snd]; lia ]) (length (script w)) w).
  destruct (eintr_loop _ _ _ w) as [r w']. exact H.
Qed.

(** The end of every receive path: the result is logged and returned. *)
Lemma read_finish r buf_len s w w1 :
  trace_extends not_callback w w1 -> bytes_received w1 = bytes_received w ->
  exists s' w',
    (LogRead r ;; ret r) s w1 = Done r s' w' /\ monitor_only s s' /\
    trace_extends not_callback w w' /\ memory w' = memory w1 /\
    (r < 0 -> s' = s) /\
    (r < 0 \/ 0 <= r <= buf_len -> 0 <= buf_len < 2 ^ 31 -> monitor_bounded s ->
     r <= buf_len /\ monitor_bounded s' /\
     bytes_accounted s' w' = bytes_accounted s w + Z.max r 0).
Proof.
  intros Hq HB.
  destruct (LogRead_quiet r s w1) as (s' & w' & HL & Hm & Ht & Hmem & Hneg & Hacc).
  exists s', w'. rewrite (bind_Done _ _ _ _ _ _ _ HL).
  split; [reflexivity|]. split; [exact Hm|].
  split; [exact (trace_extends_trans _ _ _ _ Hq Ht)|]. split; [exact Hmem|].
  split; [intros H; apply (Hneg H)|].
  intros Hr Hlen Hb.
  assert (bytes_accounted s w1 = bytes_accounted s w) as E1
    by (unfold bytes_accounted; rewrite HB; reflexivity).
  destruct (Z.ltb_spec r 0) as [Hlt|Hge].
  - destruct (Hneg Hlt) as (-> & ->). split; [lia|]. split; [exact Hb|]. lia.
  - destruct (Hacc Hb ltac:(lia)) as (Hb' & Ha). split; [lia|]. split; [exact Hb'|]. lia.
Qed.

(** How [InternalRecvFrom] ends: it always returns, touches only the
    activity monitor, runs no callback, writes the callers' memory only for
    an address that was asked for, changes nothing when it would block, and
    accounts for exactly the bytes it returns. *)
Lemma InternalRecvFrom_run cfg buf buf_len address s w :
  exists rv s' w',
    InternalRecvFrom cfg buf buf_len address s w = Done rv s' w' /\
    monitor_only s s' /\ trace_extends not_callback w w' /\
    (address = None -> memory w' = memory w) /\
    (rv = ERR_IO_PENDING -> s' = s) /\
    ((forall e, 0 < e -> MapSystemError cfg e < 0) -> 0 <= buf_len < 2 ^ 31 ->
     monitor_bounded s ->
     rv <= buf_len /\ monitor_bounded s' /\
     bytes_accounted s' w' = bytes_accounted s w + Z.max rv 0).
Proof.
  unfold InternalRecvFrom. rewrite !bind_gets.
  destruct (_ && _ && _).
  - unfold InternalRecvFromConnectedSocket. rewrite bind_gets, bind_liftW.
    pose proof (HANDLE_EINTR_extends
                  (sys_transfer (c_read (socket_ s) buf buf_len) buf_len) w
                  (sys_transfer_extends _ _)) as Hext.
    pose proof (HANDLE_EINTR_transfer (c_read (socket_ s) buf buf_len) buf_len w) as Hres.
    destruct (HANDLE_EINTR _ w) as [n w1]. cbn [fst snd] in *.
    pose proof (sys_extends_quiet _ _ Hext) as Hq.
    destruct Hext as (_ & _ & _ & _ & HB & HM).
    destruct (n <? 0) eqn:Hn.
    + rewrite bind_get_errno. cbv zeta.
      destruct (MapSystemError cfg (errno w1) =? ERR_IO_PENDING) eqn:E.
      * apply Z.eqb_eq in E. rewrite E. exists ERR_IO_PENDING, s, w1.
        split; [reflexivity|]. split; [apply monitor_only_refl|].
        split; [exact Hq|]. split; [intros _; exact HM|]. split; [reflexivity|].
        intros _ Hlen Hb. unfold bytes_accounted, ERR_IO_PENDING. rewrite HB.
        split; [lia|]. split; [exact Hb|]. lia.
      * destruct (read_finish (MapSystemError cfg (errno w1)) buf_len s w w1 Hq HB)
          as (s' & w' & HL & Hm & Ht & Hmem & Hneg & Hacc).
        exists (MapSystemError cfg (errno w1)), s', w'.
        split; [exact HL|]. split; [exact Hm|]. split; [exact Ht|].
        split; [intros _; congruence|].
        split; [intros H; apply Hneg; rewrite H; reflexivity|].
        intros Hmap Hlen Hb. apply Hacc; [left|exact Hlen|exact Hb].
        apply Hmap. destruct (Hres ltac:(lia)) as [[_ He]|Hc]; [exact He|lia].
    + destruct (n =? buf_len) eqn:Hfull.
      * destruct (read_finish ERR_MSG_TOO_BIG buf_len s w w1 Hq HB)
          as (s' & w' & HL & Hm & Ht & Hmem & Hneg & Hacc).
        exists ERR_MSG_TOO_BIG, s', w'.
        split; [exact HL|]. split; [exact Hm|]. split; [exact Ht|].
        split; [intros _; congruence|].
        split; [intros H; discriminate H|].
        intros _ Hlen Hb. apply Hacc; [left; reflexivity|exact Hlen|exact Hb].
      * rewrite bind_gets.
        assert (exists w2, trace w2 = trace w1 /\ bytes_received w2 = bytes_received w1 /\
                  (address = None -> memory w2 = memory w1) /\
                  (match address, remote_address_ s with
                   | Some loc, Some ep => effect (store_endpoint loc ep)
                   | _, _ => ret tt
                   end ;; LogRead n ;; ret n) s w1 = (LogRead n ;; ret n) s w2)
          as (w2 & T2 & B2 & M2 & ->).
        { destruct address as [loc|]; [destruct (remote_address_ s) as [ep|]|].
          - exists (store_endpoint loc ep w1). rewrite bind_effect.
            repeat split. intros H; discriminate H.
          - exists w1. rewrite bind_ret. repeat split.
          - exists w1. rewrite bind_ret. repeat split. }
        destruct (read_finish n buf_len s w w2 (trace_extends_same _ _ _ _ Hq T2)
                    ltac:(congruence))
          as (s' & w' & HL & Hm & Ht & Hmem & Hneg & Hacc).
        exists n, s', w'.
        split; [exact HL|]. split; [exact Hm|]. split; [exact Ht|].
        split; [intros H; rewrite Hmem, (M2 H); exact HM|].
        split; [unfold ERR_IO_PENDING; intros H; lia|].
        intros _ Hlen Hb. apply Hacc; [right|exact Hlen|exact Hb].
           destruct (Hres ltac:(lia)) as [[Hc _]|Hc]; lia.
  - unfold InternalRecvFromNonConnectedSocket. rewrite bind_gets, bind_liftW.
    assert (sys_extends w (snd (HANDLE_EINTR_recvmsg
                                  (sys_recvmsg (socket_ s) buf buf_len) w))) as Hext.
    { unfold HANDLE_EINTR_recvmsg. apply eintr_loop_extends.
      intros w0. apply sys_recvmsg_extends. }
    pose proof (HANDLE_EINTR_recvmsg_result (socket_ s) buf buf_len w) as Hres.
    destruct (HANDLE_EINTR_recvmsg _ w) as [[[n name] trunc] w1]. cbn [fst snd] in *.
    pose proof (sys_extends_quiet _ _ Hext) as Hq.
    destruct Hext as (_ & _ & _ & _ & HB & HM).
    destruct (n <? 0) eqn:Hn.
    + rewrite bind_get_errno. cbv zeta.
      destruct (MapSystemError cfg (errno w1) =? ERR_IO_PENDING) eqn:E.
      * apply Z.eqb_eq in E. rewrite E. exists ERR_IO_PENDING, s, w1.
        split; [reflexivity|]. split; [apply monitor_only_refl|].
        split; [exact Hq|]. split; [intros _; exact HM|]. split; [reflexivity|].
        intros _ Hlen Hb. unfold bytes_accounted, ERR_IO_PENDING. rewrite HB.
        split; [lia|]. split; [exact Hb|]. lia.
      * destruct (read_finish (MapSystemError cfg (errno w1)) buf_len s w w1 Hq HB)
          as (s' & w' & HL & Hm & Ht & Hmem & Hneg & Hacc).
        exists (MapSystemError cfg (errno w1)), s', w'.
        split; [exact HL|]. split; [exact Hm|]. split; [exact Ht|].
        split; [intros _; congruence|].
        split; [intros H; apply Hneg; rewrite H; reflexivity|].
        intros Hmap Hlen Hb. apply Hacc; [left|exact Hlen|exact Hb].
        apply Hmap. destruct (Hres ltac:(lia)) as [[_ He]|Hc]; [exact He|lia].
    + destruct trunc.
      * destruct (read_finish ERR_MSG_TOO_BIG buf_len s w w1 Hq HB)
          as (s' & w' & HL & Hm & Ht & Hmem & Hneg & Hacc).
        exists ERR_MSG_TOO_BIG, s', w'.
        split; [exact HL|]. split; [exact Hm|]. split; [exact Ht|].
        split; [intros _; congruence|].
        split; [intros H; discriminate H|].
        intros _ Hlen Hb. apply Hacc; [left; reflexivity|exact Hlen|exact Hb].
      * destruct address as [loc|]; [destruct (option_bind FromSockAddr name) as [ep|]|].
        -- rewrite bind_effect.
           destruct (read_finish n buf_len s w (store_endpoint loc ep w1)
                       (trace_extends_same _ _ _ _ Hq eq_refl) HB)
             as (s' & w' & HL & Hm & Ht & Hmem & Hneg & Hacc).
           exists n, s', w'.
           split; [exact HL|]. split; [exact Hm|]. split; [exact Ht|].
           split; [intros H; discriminate H|].
           split; [unfold ERR_IO_PENDING; intros H; lia|].
           intros _ Hlen Hb. apply Hacc; [right|exact Hlen|exact Hb].
           destruct (Hres ltac:(lia)) as [[Hc _]|Hc]; lia.
        -- destruct (read_finish ERR_ADDRESS_INVALID buf_len s w w1 Hq HB)
             as (s' & w' & HL & Hm & Ht & Hmem & Hneg & Hacc).
           exists ERR_ADDRESS_INVALID, s', w'.
           split; [exact HL|]. split; [exact Hm|]. split; [exact Ht|].
           split; [intros H; discriminate H|].
           split; [intros H; discriminate H|].
           intros _ Hlen Hb. apply Hacc; [left; reflexivity|exact Hlen|exact Hb].
        -- destruct (read_finish n buf_len s w w1 Hq HB)
             as (s' & w' & HL & Hm & Ht & Hmem & Hneg & Hacc).
           exists n, s', w'.
           split; [exact HL|]. split; [exact Hm|]. split; [exact Ht|].
           split; [intros _; congruence|].
           split; [unfold ERR_IO_PENDING; intros H; lia|].
           intros _ Hlen Hb. apply Hacc; [right|exact Hlen|exact Hb].
           destruct (Hres ltac:(lia)) as [[Hc _]|Hc]; lia.
Qed.

(** X15: what [RecvFrom] does to the object.  With no read pending it
    always returns and runs no callback.  Unless it returns
    [ERR_IO_PENDING] it stores nothing: the object changes at most in the
    activity monitor.  When it returns [ERR_IO_PENDING] the last thing it
    did was to ask for the descriptor to be watched; if that was granted
    the buffer, its length, the address and the callback are stored and the
    watcher is registered, and if it was refused nothing is stored.  A read
    without an address does not write the callers' memory. *)
Theorem RecvFrom_outcome (cfg : Config) (buf : option nat) (buf_len : Z)
    (address callback : option nat) (s : UDPSocketPosix) (w : World) :
  read_callback_ s = None ->
  exists rv s' w',
    RecvFrom cfg buf buf_len address callback s w = Done rv s' w' /\
    trace_extends not_callback w w' /\
    (rv <> ERR_IO_PENDING -> monitor_only s s') /\
    (rv = ERR_IO_PENDING ->
     exists before a,
       trace w' = before ++ [EvSys (c_watch (socket_ s) WATCH_READ) a] /\
       s' = if failed a then s
            else read_pending buf buf_len address callback s) /\
    (address = None -> memory w' = memory w).
Proof.
  intros Hnone. unfold RecvFrom. rewrite bind_gets, Hnone. cbn [is_some negb].
  rewrite bind_CHECK.
  destruct (InternalRecvFrom_run cfg buf buf_len address s w)
    as (rv & s1 & w1 & HI & Hm & Ht & Hmem & Hpend & _).
  rewrite (bind_Done _ _ _ _ _ _ _ HI).
  destruct (rv =? ERR_IO_PENDING) eqn:E; cbn [negb].
  2:{ apply Z.eqb_neq in E. exists rv, s1, w1. split; [reflexivity|].
      split; [exact Ht|]. split; [intros _; exact Hm|].
      split; [intros H; contradiction|exact Hmem]. }
  apply Z.eqb_eq in E. subst rv. rewrite (Hpend eq_refl) in *. clear HI Hm Hpend.
  rewrite bind_gets, bind_liftW, sys_status_spec. cbn [fst snd].
  destruct (syscall_trace (c_watch (socket_ s) WATCH_READ) w1) as (T & _ & _ & M).
  pose proof (sys_extends_quiet _ _ (syscall_extends (c_watch (socket_ s) WATCH_READ) w1))
    as Hq.
  set (a := fst (syscall (c_watch (socket_ s) WATCH_READ) w1)) in *.
  set (w2 := snd (syscall (c_watch (socket_ s) WATCH_READ) w1)) in *.
  destruct (failed a) eqn:F; cbn [Z.eqb negb].
  - rewrite bind_get_errno. cbv zeta.
    destruct (LogRead_quiet (MapSystemError cfg (errno w2)) s w2)
      as (s' & w' & HL & Hm & Hlt & Hlm & Hneg & _).
    rewrite (bind_Done _ _ _ _ _ _ _ HL).
    exists (MapSystemError cfg (errno w2)), s', w'. split; [reflexivity|].
    split; [exact (trace_extends_trans _ _ _ _ Ht (trace_extends_trans _ _ _ _ Hq Hlt))|].
    split; [intros _; exact Hm|]. split.
    + intros H. destruct (Hneg ltac:(rewrite H; reflexivity)) as (-> & ->).
      exists (trace w1), a. rewrite F. split; [exact T|reflexivity].
    + intros H. rewrite Hlm, M. exact (Hmem H).
  - mpure. eexists _, _, _. split; [reflexivity|].
    split; [exact (trace_extends_trans _ _ _ _ Ht Hq)|].
    split; [intros H; contradiction H; reflexivity|]. split.
    + intros _. exists (trace w1), a. rewrite F. split; [exact T|reflexivity].
    + intros H. rewrite M. exact (Hmem H).
Qed.

Lemma RecvFrom_outcome_witness :
  exists rv s' w',
    RecvFrom example_config (Some 1%nat) 512 None (Some 9%nat)
      (fst example_open_socket_v6)
      (set_script [SysErr 11; SysOk 0] (snd example_open_socket_v6)) = Done rv s' w' /\
    trace_extends not_callback
      (set_script [SysErr 11; SysOk 0] (snd example_open_socket_v6)) w'.
Proof.
  destruct (RecvFrom_outcome example_config (Some 1%nat) 512 None (Some 9%nat)
              (fst example_open_socket_v6)
              (set_script [SysErr 11; SysOk 0] (snd example_open_socket_v6)) eq_refl)
    as (rv & s' & w' & H & Ht & _).
  exists rv, s', w'. split; [exact H|exact Ht].
Defined.

(** X16: how a pending read completes.  A readiness event with no read
    pending does nothing.  With a read pending the receive is retried with
    the stored buffer, length and address: if it would still block, the
    read stays pending and no callback runs; otherwise the pending read is
    dropped, the watcher is stopped, the callback is taken out of the
    object and run exactly once, last, with the result of the retry. *)
Theorem read_completion (cfg : Config) (s : UDPSocketPosix) (w : World) :
  (read_callback_ s = None -> OnFileCanReadWithoutBlocking cfg s w = Done tt s w) /\
  (forall c, read_callback_ s = Some c ->
   exists rv s1 w1,
     InternalRecvFrom cfg (read_buf_ s) (read_buf_len_ s) (recv_from_address_ s) s w
       = Done rv s1 w1 /\
     trace_extends not_callback w w1 /\
     (rv = ERR_IO_PENDING ->
      OnFileCanReadWithoutBlocking cfg s w = Done tt s w1) /\
     (rv <> ERR_IO_PENDING ->
      exists w',
        OnFileCanReadWithoutBlocking cfg s w = Done tt (read_completed s1) w' /\
        trace w' = trace w1 ++ [EvStopWatching WATCH_READ; EvRunCallback c rv])).
Proof.
  split.
  - intros Hnone. unfold OnFileCanReadWithoutBlocking. rewrite bind_gets, Hnone.
    reflexivity.
  - intros c Hc.
    destruct (InternalRecvFrom_run cfg (read_buf_ s) (read_buf_len_ s)
                (recv_from_address_ s) s w)
      as (rv & s1 & w1 & HI & Hm & Ht & _ & Hpend & _).
    exists rv, s1, w1. split; [exact HI|]. split; [exact Ht|].
    assert (OnFileCanReadWithoutBlocking cfg s w =
            if rv =? ERR_IO_PENDING then Done tt s1 w1
            else Done tt (read_completed s1)
                   (emit (EvRunCallback c rv) (emit (EvStopWatching WATCH_READ) w1)))
      as Hrun.
    { unfold OnFileCanReadWithoutBlocking. rewrite bind_gets, Hc. cbn [is_some].
      unfold DidCompleteRead. rewrite !bind_gets, (bind_Done _ _ _ _ _ _ _ HI).
      destruct (rv =? ERR_IO_PENDING); cbn [negb]; [reflexivity|].
      destruct (monitor_only_fields s s1 Hm) as (Hc1 & _). rewrite Hc in Hc1.
      clear HI Hm Hpend. unfold DoReadCallback, read_completed.
      destruct s1. cbn in Hc1. subst. mpure. ssimpl. reflexivity. }
    split.
    + intros E. rewrite Hrun, E, Z.eqb_refl, (Hpend E). reflexivity.
    + intros E. apply Z.eqb_neq in E. rewrite Hrun, E. eexists. split; [reflexivity|].
      cbn. rewrite <- app_assoc. reflexivity.
Qed.

Lemma read_completion_witness :
  exists rv s1 w1 w',
    InternalRecvFrom example_config (read_buf_ (fst example_pending_read))
      (read_buf_len_ (fst example_pending_read))
      (recv_from_address_ (fst example_pending_read)) (fst example_pending_read)
      (set_script [SysOk 100] (snd example_pending_read)) = Done rv s1 w1 /\
    rv = 100 /\
    OnFileCanReadWithoutBlocking example_config (fst example_pending_read)
      (set_script [SysOk 100] (snd example_pending_read))
      = Done tt (read_completed s1) w' /\
    trace w' = trace w1 ++ [EvStopWatching WATCH_READ; EvRunCallback 9 100].
Proof.
  destruct (read_completion example_config (fst example_pending_read)
              (set_script [SysOk 100] (snd example_pending_read))) as (_ & H).
  destruct (H 9%nat eq_refl) as (rv & s1 & w1 & HI & _ & _ & Hdone).
  assert (rv = 100) as -> by (vm_compute in HI; injection HI as <- _ _; reflexivity).
  destruct (Hdone ltac:(discriminate)) as (w' & HO & HT).
  exists 100, s1, w1, w'. auto.
Defined.

(** X17: every byte handed to the caller is accounted once.  Whatever the
    kernel answers, [InternalRecvFrom] returns at most the buffer length,
    and the received bytes the socket has accounted for (reported to the
    process-wide counter or still held by its monitor) grow by exactly the
    byte count returned, and by nothing when an error is returned; the
    monitor stays within its threshold.  ([MapSystemError] is assumed to
    map OS errors to negative codes, the buffer length to be an [int] that
    is not negative, and the monitor to hold at most its threshold.) *)
Theorem received_bytes_accounted (cfg : Config) (buf : option nat) (buf_len : Z)
    (address : option nat) (s : UDPSocketPosix) (w : World) :
  (forall e, 0 < e -> MapSystemError cfg e < 0) ->
  0 <= buf_len < 2 ^ 31 ->
  monitor_bounded s ->
  exists rv s' w',
    InternalRecvFrom cfg buf buf_len address s w = Done rv s' w' /\
    rv <= buf_len /\ monitor_bounded s' /\
    bytes_accounted s' w' = bytes_accounted s w + Z.max rv 0.
Proof.
  intros Hmap Hlen Hb.
  destruct (InternalRecvFrom_run cfg buf buf_len address s w)
    as (rv & s' & w' & HI & _ & _ & _ & _ & Hacc).
  exists rv, s', w'. split; [exact HI|]. exact (Hacc Hmap Hlen Hb).
Qed.

Lemma example_MapSystemError_negative e : 0 < e -> example_MapSystemError e < 0.
Proof.
  intros H. unfold example_MapSystemError.
  assert ((e =? 0) = false) as -> by lia.
  unfold ERR_IO_PENDING, ERR_ADDRESS_IN_USE, ERR_INVALID_ARGUMENT.
  destruct (e =? EAGAIN); [lia|]. destruct (e =? EADDRINUSE); [lia|].
  destruct (e =? EINVAL); lia.
Qed.

Lemma received_bytes_accounted_witness :
  exists rv s' w',
    InternalRecvFrom example_config (Some 1%nat) 512 None
      (fst example_connected_socket)
      (set_script [SysOk 100] (snd example_connected_socket)) = Done rv s' w' /\
    bytes_accounted s' w' = 0 + Z.max rv 0.
Proof.
  destruct (received_bytes_accounted example_config (Some 1%nat) 512 None
              (fst example_connected_socket)
              (set_script [SysOk 100] (snd example_connected_socket))
              example_MapSystemError_negative)
    as (rv & s' & w' & HI & _ & _ & Hacc).
  - lia.
  - unfold monitor_bounded, kActivityMonitorBytesThreshold. cbn. lia.
  - exists rv, s', w'. split; [exact HI|exact Hacc].
Defined.

Lemma HANDLE_EINTR_recvmsg_once
    (x : World -> (Z * option SockAddr * bool) * World) w r w' :
  x w = (r, w') ->
  (fst (fst r) =? -1) && (errno w' =? EINTR) = false ->
  HANDLE_EINTR_recvmsg x w = (r, w').
Proof.
  intros Hx Hc. unfold HANDLE_EINTR_recvmsg.
  destruct (length (script w)); cbn [eintr_loop]; rewrite Hx; [reflexivity|].
  rewrite Hc. reflexivity.
Qed.

(** X18: the results of the general receive path.  When the fast path is
    not taken and the kernel delivers a datagram, [InternalRecvFrom]
    returns [ERR_MSG_TOO_BIG] exactly when the datagram is longer than the
    buffer (a datagram of exactly the buffer length is a success here),
    [ERR_ADDRESS_INVALID] when an address was asked for and the sender's
    address does not parse, and the size of the datagram otherwise, after
    storing the sender's endpoint where it was asked for. *)
Theorem general_receive_outcome (cfg : Config) (buf : option nat) (buf_len : Z)
    (address : option nat) (s : UDPSocketPosix) (w : World)
    (size : N) (name : SockAddr) (rest : list SysAnswer) :
  experimental_recv_optimization_enabled_ s && is_connected_ s
    && is_some (remote_address_ s) = false ->
  0 <= buf_len ->
  script w = SysMsg size name :: rest ->
  exists s' w',
    InternalRecvFrom cfg buf buf_len address s w =
      Done (general_receive_result buf_len address size name) s' w' /\
    (forall loc ep,
       address = Some loc -> Z.of_N size <= buf_len -> FromSockAddr name = Some ep ->
       load_endpoint loc (memory w') = Some ep).
Proof.
  intros Hsel Hlen Hscript.
  unfold InternalRecvFrom. rewrite !bind_gets, Hsel.
  unfold InternalRecvFromNonConnectedSocket. rewrite bind_gets, bind_liftW.
  set (w1 := snd (syscall (c_recvmsg (socket_ s) buf buf_len) w)).
  assert (HANDLE_EINTR_recvmsg (sys_recvmsg (socket_ s) buf buf_len) w =
          ((Z.min (Z.of_N size) buf_len, Some name, buf_len <? Z.of_N size), w1))
    as ->.
  { apply HANDLE_EINTR_recvmsg_once.
    - unfold sys_recvmsg, w1.
      destruct (syscall_scripted (c_recvmsg (socket_ s) buf buf_len) w _ _ Hscript)
        as (A & _).
      destruct (syscall _ w) as [a w']. cbn [fst snd] in *. subst a. reflexivity.
    - cbn [fst]. assert ((Z.min (Z.of_N size) buf_len =? -1) = false) as ->
        by (apply Z.eqb_neq; lia).
      reflexivity. }
  cbn [fst snd]. assert ((Z.min (Z.of_N size) buf_len <? 0) = false) as ->
    by (apply Z.ltb_ge; lia).
  unfold general_receive_result.
  destruct (buf_len <? Z.of_N size) eqn:T.
  - destruct (LogRead_quiet ERR_MSG_TOO_BIG s w1) as (s' & w' & HL & _).
    exists s', w'. rewrite (bind_Done _ _ _ _ _ _ _ HL).
    split; [reflexivity|]. intros loc ep _ H. lia.
  - assert (Z.min (Z.of_N size) buf_len = Z.of_N size) as -> by lia.
    destruct address as [loc|]; cbn [option_bind].
    + destruct (FromSockAddr name) as [ep|].
      * rewrite bind_effect.
        destruct (LogRead_quiet (Z.of_N size) s (store_endpoint loc ep w1))
          as (s' & w' & HL & _ & _ & Hmem & _).
        exists s', w'. rewrite (bind_Done _ _ _ _ _ _ _ HL).
        split; [reflexivity|]. intros loc0 ep0 Hloc _ Hep.
        injection Hloc as <-. injection Hep as <-. rewrite Hmem. cbn.
        rewrite Nat.eqb_refl. reflexivity.
      * destruct (LogRead_quiet ERR_ADDRESS_INVALID s w1) as (s' & w' & HL & _).
        exists s', w'. rewrite (bind_Done _ _ _ _ _ _ _ HL).
        split; [reflexivity|]. intros loc0 ep0 _ _ H. discriminate H.
    + destruct (LogRead_quiet (Z.of_N size) s w1) as (s' & w' & HL & _).
      exists s', w'. rewrite (bind_Done _ _ _ _ _ _ _ HL).
      split; [reflexivity|]. intros loc ep H. discriminate H.
Qed.

Lemma general_receive_outcome_witness :
  exists s' w',
    InternalRecvFrom example_config (Some 1%nat) 8 (Some 7%nat)
      (fst example_bound_socket)
      (set_script [SysMsg 8 (mkSockAddr AF_INET [192; 0; 2; 1] 53)]
         (snd example_bound_socket)) = Done 8 s' w' /\
    load_endpoint 7 (memory w') = Some (mkIPEndPoint [192; 0; 2; 1] 53).
Proof.
  destruct (general_receive_outcome example_config (Some 1%nat) 8 (Some 7%nat)
              (fst example_bound_socket)
              (set_script [SysMsg 8 (mkSockAddr AF_INET [192; 0; 2; 1] 53)]
                 (snd example_bound_socket))
              8 (mkSockAddr AF_INET [192; 0; 2; 1] 53) [])
    as (s' & w' & HI & Hmem).
  - reflexivity.
  - lia.
  - reflexivity.
  - exists s', w'. split; [exact HI|].
    apply (Hmem 7%nat _ eq_refl); [lia|reflexivity].
Defined.

(** ** The write path *)

(** How [InternalSendTo] ends: it always returns and leaves the object as
    it found it; the world changes by system calls only. *)
Lemma InternalSendTo_run cfg buf buf_len address s w :
  exists rv w',
    InternalSendTo cfg buf buf_len address s w = Done rv s w' /\
    sys_extends w w' /\
    (option_bind ToSockAddr address = None -> address <> None ->
     rv = ERR_ADDRESS_INVALID /\ w' = w).
Proof.
  unfold InternalSendTo. rewrite !bind_gets.
  assert (forall dest, exists rv w',
            (result <- liftW (HANDLE_EINTR
                                (sys_transfer
                                   (c_sendto (socket_ s) buf buf_len (sendto_flags_ s) dest)
                                   buf_len)) ;;
             if result <? 0 then fail_with_errno cfg else ret result) s w = Done rv s w' /\
            sys_extends w w') as Hsend.
  { intros dest. rewrite bind_liftW.
    pose proof (HANDLE_EINTR_extends
                  (sys_transfer (c_sendto (socket_ s) buf buf_len (sendto_flags_ s) dest)
                     buf_len) w (sys_transfer_extends _ _)) as Hext.
    destruct (HANDLE_EINTR _ w) as [n w1]. cbn [fst snd] in *.
    destruct (n <? 0).
    - unfold fail_with_errno. rewrite bind_get_errno. eexists _, _.
      split; [reflexivity|exact Hext].
    - eexists _, _. split; [reflexivity|exact Hext]. }
  destruct address as [ep|]; cbn [option_bind].
  - destruct (ToSockAddr ep) as [sa|].
    + destruct (Hsend (Some sa)) as (rv & w' & H & Hext).
      exists rv, w'. split; [exact H|]. split; [exact Hext|].
      intros Hc. discriminate Hc.
    + exists ERR_ADDRESS_INVALID, w. split; [reflexivity|].
      split; [apply sys_extends_refl|]. auto.
  - destruct (Hsend None) as (rv & w' & H & Hext).
    exists rv, w'. split; [exact H|]. split; [exact Hext|].
    intros _ Hc. contradiction Hc. reflexivity.
Qed.

(** X19: what a send does.  With no write pending, [SendToOrWrite] always
    returns; it makes system calls only (it runs no callback and touches no
    counter of received bytes, no token and no memory of the caller).
    Unless it returns [ERR_IO_PENDING] the object is as before.  When it
    returns [ERR_IO_PENDING] the last thing it did was to ask for the
    descriptor to be watched; if that was granted the buffer, its length,
    the destination and the callback are stored and the watcher is
    registered, and if it was refused nothing is stored.  A destination
    that does not convert to a socket address gives [ERR_ADDRESS_INVALID]
    without any call. *)
Theorem SendToOrWrite_outcome (cfg : Config) (buf : option nat) (buf_len : Z)
    (address : option IPEndPoint) (callback : option nat)
    (s : UDPSocketPosix) (w : World) :
  write_callback_ s = None ->
  exists rv s' w',
    SendToOrWrite cfg buf buf_len address callback s w = Done rv s' w' /\
    sys_extends w w' /\
    (rv <> ERR_IO_PENDING -> s' = s) /\
    (rv = ERR_IO_PENDING ->
     exists before a,
       trace w' = before ++ [EvSys (c_watch (socket_ s) WATCH_WRITE) a] /\
       s' = if failed a then s
            else write_pending buf buf_len address callback s) /\
    (option_bind ToSockAddr address = None -> address <> None ->
     rv = ERR_ADDRESS_INVALID /\ s' = s /\ w' = w).
Proof.
  intros Hnone. unfold SendToOrWrite. rewrite bind_gets, Hnone. cbn [is_some negb].
  rewrite bind_CHECK.
  destruct (InternalSendTo_run cfg buf buf_len address s w)
    as (rv & w1 & HI & Hext & Hinv).
  rewrite (bind_Done _ _ _ _ _ _ _ HI).
  destruct (rv =? ERR_IO_PENDING) eqn:E; cbn [negb].
  2:{ apply Z.eqb_neq in E. exists rv, s, w1. split; [reflexivity|].
      split; [exact Hext|]. split; [reflexivity|].
      split; [intros H; contradiction|].
      intros H1 H2. destruct (Hinv H1 H2) as (-> & ->). auto. }
  apply Z.eqb_eq in E. subst rv.
  assert (option_bind ToSockAddr address = None -> address <> None -> False) as Hvalid.
  { intros H1 H2. destruct (Hinv H1 H2) as (Hc & _). discriminate Hc. }
  rewrite bind_gets, bind_liftW, sys_status_spec. cbn [fst snd].
  destruct (syscall_trace (c_watch (socket_ s) WATCH_WRITE) w1) as (T & _).
  pose proof (sys_extends_trans _ _ _ Hext
                (syscall_extends (c_watch (socket_ s) WATCH_WRITE) w1)) as Hext2.
  set (a := fst (syscall (c_watch (socket_ s) WATCH_WRITE) w1)) in *.
  set (w2 := snd (syscall (c_watch (socket_ s) WATCH_WRITE) w1)) in *.
  destruct (failed a) eqn:F; cbn [Z.eqb negb].
  - unfold fail_with_errno. rewrite bind_get_errno.
    exists (MapSystemError cfg (errno w2)), s, w2. split; [reflexivity|].
    split; [exact Hext2|]. split; [reflexivity|]. split.
    + intros _. exists (trace w1), a. rewrite F. split; [exact T|reflexivity].
    + intros H1 H2. destruct (Hvalid H1 H2).
  - exists ERR_IO_PENDING, (write_pending buf buf_len address callback s), w2.
    split; [unfold write_pending; destruct address; mpure; reflexivity|].
    split; [exact Hext2|].
    split; [intros H; contradiction H; reflexivity|]. split.
    + intros _. exists (trace w1), a. rewrite F. split; [exact T|reflexivity].
    + intros H1 H2. destruct (Hvalid H1 H2).
Qed.

Lemma SendToOrWrite_outcome_witness :
  exists s' w',
    SendTo example_config (Some 1%nat) 16 (mkIPEndPoint [1; 2; 3] 53) (Some 4%nat)
      (fst example_bound_socket) (snd example_bound_socket)
    = Done ERR_ADDRESS_INVALID s' w' /\
    s' = fst example_bound_socket /\ w' = snd example_bound_socket.
Proof.
  destruct (SendToOrWrite_outcome example_config (Some 1%nat) 16
              (Some (mkIPEndPoint [1; 2; 3] 53)) (Some 4%nat)
              (fst example_bound_socket) (snd example_bound_socket) eq_refl)
    as (rv & s' & w' & H & _ & _ & _ & Hinv).
  destruct (Hinv eq_refl ltac:(discriminate)) as (-> & Hs & Hw).
  exists s', w'. split; [exact H|]. split; [exact Hs|exact Hw].
Defined.

(** X20: how a pending write completes.  A readiness event with no write
    pending does nothing.  With a write pending the send is retried with
    the stored buffer, length and destination: if it would still block, the
    write stays pending, the object is unchanged and no callback runs;
    otherwise the pending write is dropped, the watcher is stopped, the
    callback is taken out of the object and run exactly once, last, with
    the result of the retry. *)
Theorem write_completion (cfg : Config) (s : UDPSocketPosix) (w : World) :
  (write_callback_ s = None -> OnFileCanWriteWithoutBlocking cfg s w = Done tt s w) /\
  (forall c, write_callback_ s = Some c ->
   exists rv w1,
     InternalSendTo cfg (write_buf_ s) (write_buf_len_ s) (send_to_address_ s) s w
       = Done rv s w1 /\
     sys_extends w w1 /\
     (rv = ERR_IO_PENDING ->
      OnFileCanWriteWithoutBlocking cfg s w = Done tt s w1) /\
     (rv <> ERR_IO_PENDING ->
      exists w',
        OnFileCanWriteWithoutBlocking cfg s w = Done tt (write_completed s) w' /\
        trace w' = trace w1 ++ [EvStopWatching WATCH_WRITE; EvRunCallback c rv])).
Proof.
  split.
  - intros Hnone. unfold OnFileCanWriteWithoutBlocking. rewrite bind_gets, Hnone.
    reflexivity.
  - intros c Hc.
    destruct (InternalSendTo_run cfg (write_buf_ s) (write_buf_len_ s)
                (send_to_address_ s) s w) as (rv & w1 & HI & Hext & _).
    exists rv, w1. split; [exact HI|]. split; [exact Hext|].
    assert (OnFileCanWriteWithoutBlocking cfg s w =
            if rv =? ERR_IO_PENDING then Done tt s w1
            else Done tt (write_completed s)
                   (emit (EvRunCallback c rv) (emit (EvStopWatching WATCH_WRITE) w1)))
      as Hrun.
    { unfold OnFileCanWriteWithoutBlocking. rewrite bind_gets, Hc. cbn [is_some].
      unfold DidCompleteWrite. rewrite !bind_gets, (bind_Done _ _ _ _ _ _ _ HI).
      destruct (rv =? ERR_IO_PENDING); cbn [negb]; [reflexivity|].
      clear HI. unfold DoWriteCallback, write_completed.
      destruct s. cbn in Hc. subst. mpure. ssimpl. reflexivity. }
    split.
    + intros E. rewrite Hrun, E, Z.eqb_refl. reflexivity.
    + intros E. apply Z.eqb_neq in E. rewrite Hrun, E. eexists. split; [reflexivity|].
      cbn. rewrite <- app_assoc. reflexivity.
Qed.

Lemma write_completion_witness :
  exists rv w1 w',
    InternalSendTo example_config (write_buf_ (fst example_pending_write))
      (write_buf_len_ (fst example_pending_write))
      (send_to_address_ (fst example_pending_write)) (fst example_pending_write)
      (set_script [SysOk 16] (snd example_pending_write))
      = Done rv (fst example_pending_write) w1 /\
    rv = 16 /\
    OnFileCanWriteWithoutBlocking example_config (fst example_pending_write)
      (set_script [SysOk 16] (snd example_pending_write))
      = Done tt (write_completed (fst example_pending_write)) w' /\
    trace w' = trace w1 ++ [EvStopWatching WATCH_WRITE; EvRunCallback 4 16].
Proof.
  destruct (write_completion example_config (fst example_pending_write)
              (set_script [SysOk 16] (snd example_pending_write))) as (_ & H).
  destruct (H 4%nat eq_refl) as (rv & w1 & HI & _ & _ & Hdone).
  assert (rv = 16) as -> by (vm_compute in HI; injection HI as <- _; reflexivity).
  destruct (Hdone ltac:(discriminate)) as (w' & HO & HT).
  exists 16, w1, w'. auto.
Defined.

(** ** The socket options *)

Ltac smo_call :=
  rewrite bind_liftW, sys_status_spec; cbn [fst snd attempt_calls];
  match goal with
  | |- context [syscall ?c ?w] =>
      let E := fresh "E" in
      destruct (syscall c w) as [[?|?|? ?] ?] eqn:E;
      cbn [failed attempt_calls fst snd];
      [ change (-1 <? 0) with true; change (negb (-1 =? 0)) with true; cbv iota;
        unfold fail_with_errno; rewrite bind_get_errno, (syscall_errno _ _ _ _ E)
      | change (0 <? 0) with false; change (negb (0 =? 0)) with false; cbv iota
      | change (0 <? 0) with false; change (negb (0 =? 0)) with false; cbv iota ]
  end.

(** X21: [SetMulticastOptions] applies the settings in order and stops at
    the first failure.  For an IPv4 or IPv6 socket (or any socket with the
    default interface) it makes exactly the option calls that the settings
    of the socket ask for, in the order loopback, time to live, interface
    (for IPv4 with the interface index converted to the [int] of
    [imr_ifindex]), up to the first call that fails; it returns the mapped
    error of that call, or [OK] when none fails, and leaves the object as it
    found it.  With the settings of a new socket it makes no call at all. *)
Theorem SetMulticastOptions_calls (cfg : Config) (s : UDPSocketPosix) (w : World) :
  addr_family_ s = AF_INET \/ addr_family_ s = AF_INET6 \/ multicast_interface_ s = 0 ->
  SetMulticastOptions cfg s w =
    Done (fst (attempt_calls cfg (multicast_calls s) w)) s
      (snd (attempt_calls cfg (multicast_calls s) w)) /\
  (Z.land (socket_options_ s) SOCKET_OPTION_MULTICAST_LOOP <> 0 ->
   multicast_time_to_live_ s = IP_DEFAULT_MULTICAST_TTL ->
   multicast_interface_ s = 0 ->
   SetMulticastOptions cfg s w = Done OK s w).
Proof.
  intros Hfam.
  assert (SetMulticastOptions cfg s w =
          Done (fst (attempt_calls cfg (multicast_calls s) w)) s
            (snd (attempt_calls cfg (multicast_calls s) w))) as Hrun.
  { unfold SetMulticastOptions, multicast_calls. rewrite !bind_gets. cbv zeta.
    destruct (Z.land (socket_options_ s) SOCKET_OPTION_MULTICAST_LOOP =? 0);
      destruct (multicast_time_to_live_ s =? IP_DEFAULT_MULTICAST_TTL);
      destruct (multicast_interface_ s =? 0) eqn:I;
      destruct (addr_family_ s =? AF_INET) eqn:F4;
      destruct (addr_family_ s =? AF_INET6) eqn:F6;
      cbn [negb app];
      try (exfalso; unfold AF_INET, AF_INET6 in *; lia);
      repeat first [reflexivity | smo_call]. }
  split; [exact Hrun|].
  intros HL HT HI. rewrite Hrun. unfold multicast_calls.
  apply Z.eqb_neq in HL. rewrite HL, HT, HI. reflexivity.
Qed.

Lemma SetMulticastOptions_calls_witness :
  let s := set_multicast_interface_ 4294967295
             (set_multicast_time_to_live_ 5 (fst example_bound_socket)) in
  let w := set_script [SysOk 0; SysErr 22] (snd example_bound_socket) in
  exists w',
    SetMulticastOptions example_config s w = Done ERR_INVALID_ARGUMENT s w' /\
    trace w' = trace w ++
      [EvSys (c_setsockopt 3 IPPROTO_IP IP_MULTICAST_TTL (OptUChar 5)) (SysOk 0);
       EvSys (c_setsockopt 3 IPPROTO_IP IP_MULTICAST_IF
                (OptMreqn [0; 0; 0; 0] INADDR_ANY (-1))) (SysErr 22)].
Proof.
  intros s w.
  destruct (SetMulticastOptions_calls example_config s w) as (H & _).
  - left. reflexivity.
  - eexists. split; [exact H|]. reflexivity.
Defined.

Lemma testbit_one n : 0 <= n -> Z.testbit 1 n = (n =? 0).
Proof.
  intros H. change 1 with (2 ^ 0). rewrite Z.pow2_bits_eqb by lia.
  apply Z.eqb_sym.
Qed.

(** X22: the loopback mode is one bit.  On a socket that is not connected
    [SetMulticastLoopbackMode] returns [OK], makes no call, and changes
    only the socket options: bit 0 becomes the mode asked for and every
    other bit stays.  [SetMulticastOptions] (and so [Bind] and [Connect])
    afterwards starts by turning the kernel's loopback off exactly when the
    mode is off.  On a connected socket the mode is refused with
    [ERR_SOCKET_IS_CONNECTED] and nothing changes. *)
Theorem loopback_mode_bit (cfg : Config) (loopback : bool)
    (s : UDPSocketPosix) (w : World) :
  (is_connected_ s = true ->
   SetMulticastLoopbackMode loopback s w = Done ERR_SOCKET_IS_CONNECTED s w) /\
  (is_connected_ s = false ->
   exists s',
     SetMulticastLoopbackMode loopback s w = Done OK s' w /\
     s' = set_socket_options_ (socket_options_ s') s /\
     Z.testbit (socket_options_ s') 0 = loopback /\
     (forall n, 0 < n ->
        Z.testbit (socket_options_ s') n = Z.testbit (socket_options_ s) n) /\
     (Z.land (socket_options_ s') SOCKET_OPTION_MULTICAST_LOOP =? 0) = negb loopback).
Proof.
  split; intros C; unfold SetMulticastLoopbackMode; rewrite bind_gets, C;
    [reflexivity|].
  rewrite bind_gets, bind_modify. eexists. split; [reflexivity|].
  assert (forall x, socket_options_ (set_socket_options_ x s) = x) as Hget
    by (intros x; destruct s; reflexivity).
  split; [rewrite Hget; reflexivity|]. rewrite Hget.
  change SOCKET_OPTION_MULTICAST_LOOP with 1.
  assert (forall x, Z.testbit x 0 = loopback ->
            (Z.land x 1 =? 0) = negb loopback) as Hbit.
  { intros x Hx. destruct (Z.land x 1 =? 0) eqn:E.
    - apply Z.eqb_eq in E. apply (f_equal (fun z => Z.testbit z 0)) in E.
      rewrite Z.land_spec, Hx, Z.bits_0 in E. cbn in E.
      rewrite andb_true_r in E. rewrite E. reflexivity.
    - apply Z.eqb_neq in E. destruct loopback; [reflexivity|]. exfalso. apply E.
      apply Z.bits_inj'. intros n Hn. rewrite Z.land_spec, Z.bits_0, testbit_one by lia.
      destruct (n =? 0) eqn:N0; [|apply andb_false_r].
      apply Z.eqb_eq in N0. subst n. rewrite Hx. reflexivity. }
  destruct loopback.
  - assert (Z.testbit (Z.lor (socket_options_ s) 1) 0 = true) as H0
      by (rewrite Z.lor_spec; apply orb_true_r).
    split; [exact H0|]. split; [|exact (Hbit _ H0)].
    intros n Hn. rewrite Z.lor_spec, testbit_one by lia.
    assert ((n =? 0) = false) as -> by lia. apply orb_false_r.
  - assert (Z.testbit (Z.land (socket_options_ s) (Z.lnot 1)) 0 = false) as H0
      by (rewrite Z.land_spec; apply andb_false_r).
    split; [exact H0|]. split; [|exact (Hbit _ H0)].
    intros n Hn. rewrite Z.land_spec, Z.lnot_spec, testbit_one by lia.
    assert ((n =? 0) = false) as -> by lia. apply andb_true_r.
Qed.

Lemma loopback_mode_bit_witness :
  exists s',
    SetMulticastLoopbackMode false (fst example_open_socket_v6)
      (snd example_open_socket_v6) = Done OK s' (snd example_open_socket_v6) /\
    Z.testbit (socket_options_ s') 0 = false /\
    SetMulticastLoopbackMode true (fst example_bound_socket) (snd example_bound_socket)
      = Done ERR_SOCKET_IS_CONNECTED (fst example_bound_socket)
          (snd example_bound_socket).
Proof.
  destruct (loopback_mode_bit example_config false (fst example_open_socket_v6)
              (snd example_open_socket_v6)) as (_ & H).
  destruct (H eq_refl) as (s' & HS & _ & Hbit & _).
  destruct (loopback_mode_bit example_config true (fst example_bound_socket)
              (snd example_bound_socket)) as (Hc & _).
  exists s'. split; [exact HS|]. split; [exact Hbit|exact (Hc eq_refl)].
Defined.

Lemma SocketTag_eqb_refl tag : SocketTag_eqb tag tag = true.
Proof. unfold SocketTag_eqb. rewrite !Z.eqb_refl. reflexivity. Qed.

(** X23: applying a tag.  [ApplySocketTag] always stores the tag; it
    applies it to the descriptor exactly when the socket is open and the
    tag differs from the one stored before.  Applying the same tag again
    therefore does nothing, and a closed socket only remembers the tag. *)
Theorem ApplySocketTag_outcome (tag : SocketTag) (s : UDPSocketPosix) (w : World) :
  exists w',
    ApplySocketTag tag s w = Done tt (set_tag_ tag s) w' /\
    w' = (if (socket_ s =? kInvalidSocket) || SocketTag_eqb tag (tag_ s)
          then w else emit (EvTagApply tag (socket_ s)) w) /\
    ApplySocketTag tag (set_tag_ tag s) w' = Done tt (set_tag_ tag s) w'.
Proof.
  assert (forall s0 w0,
            ApplySocketTag tag s0 w0 =
            Done tt (set_tag_ tag s0)
              (if (socket_ s0 =? kInvalidSocket) || SocketTag_eqb tag (tag_ s0)
               then w0 else emit (EvTagApply tag (socket_ s0)) w0)) as Hrun.
  { intros s0 w0. unfold ApplySocketTag. rewrite !bind_gets.
    destruct (socket_ s0 =? kInvalidSocket); destruct (SocketTag_eqb tag (tag_ s0));
      cbn [negb andb orb]; mpure; reflexivity. }
  eexists. split; [apply Hrun|]. split; [reflexivity|].
  rewrite Hrun.
  assert (tag_ (set_tag_ tag s) = tag) as -> by (destruct s; reflexivity).
  rewrite SocketTag_eqb_refl, orb_true_r.
  assert (set_tag_ tag (set_tag_ tag s) = set_tag_ tag s) as ->
    by (destruct s; reflexivity).
  reflexivity.
Qed.

Lemma set_bit_spec x k (b : bool) n :
  0 <= k -> 0 <= n ->
  Z.testbit (if b then Z.lor x (2 ^ k) else Z.land x (Z.lnot (2 ^ k))) n =
  if n =? k then b else Z.testbit x n.
Proof.
  intros Hk Hn. destruct b.
  - rewrite Z.lor_spec, Z.pow2_bits_eqb by lia. rewrite (Z.eqb_sym k n).
    destruct (n =? k); [apply orb_true_r|apply orb_false_r].
  - rewrite Z.land_spec, Z.lnot_spec, Z.pow2_bits_eqb by lia. rewrite (Z.eqb_sym k n).
    destruct (n =? k); [apply andb_false_r|apply andb_true_r].
Qed.

Lemma InternalSendTo_flags cfg buf buf_len address s w :
  exists rv w',
    InternalSendTo cfg buf buf_len address s w = Done rv s w' /\
    trace_extends (sends_with (sendto_flags_ s)) w w'.
Proof.
  unfold InternalSendTo. rewrite !bind_gets.
  assert (forall dest, exists rv w',
            (result <- liftW (HANDLE_EINTR
                                (sys_transfer
                                   (c_sendto (socket_ s) buf buf_len (sendto_flags_ s) dest)
                                   buf_len)) ;;
             if result <? 0 then fail_with_errno cfg else ret result) s w = Done rv s w' /\
            trace_extends (sends_with (sendto_flags_ s)) w w') as Hsend.
  { intros dest. rewrite bind_liftW.
    assert (trace_extends (sends_with (sendto_flags_ s)) w
              (snd (HANDLE_EINTR
                      (sys_transfer
                         (c_sendto (socket_ s) buf buf_len (sendto_flags_ s) dest)
                         buf_len) w))) as Hext.
    { unfold HANDLE_EINTR. apply eintr_loop_trace_extends. intros w0.
      unfold sys_transfer.
      destruct (syscall_trace
                  (c_sendto (socket_ s) buf buf_len (sendto_flags_ s) dest) w0)
        as (T & _).
      destruct (syscall _ w0) as [a w1]. cbn [fst snd] in *.
      eexists. split; [exact T|]. constructor; [reflexivity|constructor]. }
    destruct (HANDLE_EINTR _ w) as [n w1]. cbn [fst snd] in *.
    destruct (n <? 0).
    - unfold fail_with_errno. rewrite bind_get_errno. eexists _, _.
      split; [reflexivity|exact Hext].
    - eexists _, _. split; [reflexivity|exact Hext]. }
  destruct address as [ep|]; cbn [option_bind].
  - destruct (ToSockAddr ep) as [sa|].
    + apply Hsend.
    + exists ERR_ADDRESS_INVALID, w. split; [reflexivity|apply trace_extends_refl].
  - apply Hsend.
Qed.

(** X24: the confirm flag is one bit of the send flags.  On a platform
    other than Apple's, [SetMsgConfirm] changes only the send flags: bit 11
    ([MSG_CONFIRM]) becomes what was asked for and every other bit stays;
    every [sendto] a later send makes carries exactly these flags, and a
    send makes no other call.  On Apple platforms [SetMsgConfirm] does
    nothing. *)
Theorem SetMsgConfirm_flag (cfg : Config) (confirm : bool)
    (s : UDPSocketPosix) (w : World) :
  (IS_APPLE cfg = true -> SetMsgConfirm cfg confirm s w = Done tt s w) /\
  (IS_APPLE cfg = false ->
   exists s',
     SetMsgConfirm cfg confirm s w = Done tt s' w /\
     s' = set_sendto_flags_ (sendto_flags_ s') s /\
     Z.testbit (sendto_flags_ s') 11 = confirm /\
     (forall n, 0 <= n -> n <> 11 ->
        Z.testbit (sendto_flags_ s') n = Z.testbit (sendto_flags_ s) n) /\
     (forall buf buf_len address w2,
        exists rv w3,
          InternalSendTo cfg buf buf_len address s' w2 = Done rv s' w3 /\
          trace_extends (sends_with (sendto_flags_ s')) w2 w3)).
Proof.
  split; intros A; unfold SetMsgConfirm; rewrite A; [reflexivity|].
  rewrite bind_gets. eexists. split; [reflexivity|].
  assert (forall x, sendto_flags_ (set_sendto_flags_ x s) = x) as Hget
    by (intros x; destruct s; reflexivity).
  split; [rewrite Hget; reflexivity|].
  split; [|split].
  - rewrite Hget. change MSG_CONFIRM with (2 ^ 11).
    rewrite set_bit_spec by lia. reflexivity.
  - intros n Hn Hne. rewrite Hget. change MSG_CONFIRM with (2 ^ 11).
    rewrite set_bit_spec by lia.
    assert ((n =? 11) = false) as -> by lia. reflexivity.
  - intros buf buf_len address w2. apply InternalSendTo_flags.
Qed.

Lemma SetMsgConfirm_flag_witness :
  exists s',
    SetMsgConfirm example_config true (fst example_bound_socket)
      (snd example_bound_socket) = Done tt s' (snd example_bound_socket) /\
    Z.testbit (sendto_flags_ s') 11 = true.
Proof.
  destruct (SetMsgConfirm_flag example_config true (fst example_bound_socket)
              (snd example_bound_socket)) as (_ & H).
  destruct (H eq_refl) as (s' & HS & _ & Hbit & _).
  exists s'. split; [exact HS|exact Hbit].
Defined.

(** X25: the multicast settings are frozen once the socket is bound.
    After a [Bind] that succeeded, [SetMulticastInterface],
    [SetMulticastTimeToLive] and [SetMulticastLoopbackMode] are refused
    with [ERR_SOCKET_IS_CONNECTED], whatever their argument, and change
    nothing; the settings that [Bind] applied stay the settings of the
    socket. *)
Theorem settings_frozen_after_Bind (cfg : Config) (address : IPEndPoint)
    (s s' : UDPSocketPosix) (w w' : World) (rv : Z) :
  Bind cfg address s w = Done rv s' w' ->
  0 <= rv ->
  multicast_calls s' = multicast_calls s /\
  forall interface_index time_to_live loopback w2,
    SetMulticastInterface interface_index s' w2 = Done ERR_SOCKET_IS_CONNECTED s' w2 /\
    SetMulticastTimeToLive time_to_live s' w2 = Done ERR_SOCKET_IS_CONNECTED s' w2 /\
    SetMulticastLoopbackMode loopback s' w2 = Done ERR_SOCKET_IS_CONNECTED s' w2.
Proof.
  intros HB Hrv.
  destruct (Bind_all_or_nothing_run cfg address s w) as (rv0 & s0 & w0 & H0 & _ & Hok & _).
  rewrite H0 in HB. injection HB as -> -> ->.
  rewrite (Hok Hrv). split; [destruct s; reflexivity|].
  intros i ttl lb w2.
  unfold SetMulticastInterface, SetMulticastTimeToLive, SetMulticastLoopbackMode.
  rewrite !bind_gets. destruct s. cbn. auto.
Qed.

Lemma settings_frozen_after_Bind_witness :
  match Bind example_config (mkIPEndPoint [127; 0; 0; 1] 5000)
          (fst example_open_socket_v6)
          (set_script [SysOk 0] (snd example_open_socket_v6)) with
  | Done rv s' w' =>
      rv = OK /\
      SetMulticastTimeToLive 7 s' w' = Done ERR_SOCKET_IS_CONNECTED s' w'
  | Fatal _ => False
  end.
Proof.
  destruct (Bind example_config (mkIPEndPoint [127; 0; 0; 1] 5000)
              (fst example_open_socket_v6)
              (set_script [SysOk 0] (snd example_open_socket_v6)))
    as [rv s' w'|wf] eqn:H.
  - assert (rv = OK) as -> by (vm_compute in H; injection H as <- _ _; reflexivity).
    split; [reflexivity|].
    destruct (settings_frozen_after_Bind example_config _ _ _ _ _ _ H ltac:(unfold OK; lia))
      as (_ & Hf).
    destruct (Hf 0 7 true w') as (_ & Httl & _). exact Httl.
  - vm_compute in H. discriminate H.
Defined.

(** ** How the operations compose *)

(** X26: a socket with the default bind type is never bound by
    [InternalConnect].  Whatever the kernel answers, the only calls made
    are [connect] calls (no port is drawn and no [bind] is made), and an
    address that does not convert to a socket address gives
    [ERR_ADDRESS_INVALID] without any call. *)
Theorem DEFAULT_BIND_connects_only (cfg : Config) (address : IPEndPoint)
    (s : UDPSocketPosix) (w : World) :
  bind_type_ s = DEFAULT_BIND ->
  exists rv s' w',
    InternalConnect cfg address s w = Done rv s' w' /\
    trace_extends is_connect_call w w' /\
    (ToSockAddr address = None -> rv = ERR_ADDRESS_INVALID /\ s' = s /\ w' = w).
Proof.
  intros Hb. unfold InternalConnect. rewrite bind_gets, Hb. cbn [BindType_eqb].
  rewrite bind_ret. change (0 <? 0) with false. cbv iota.
  destruct (ToSockAddr address) as [storage|].
  - rewrite bind_gets, bind_liftW.
    pose proof (HANDLE_EINTR_connect_trace (socket_ s) storage w) as Ht.
    destruct (HANDLE_EINTR _ w) as [rv w1]. cbn [fst snd] in *.
    destruct (rv <? 0).
    + unfold fail_with_errno. rewrite bind_get_errno. eexists _, _, _.
      split; [reflexivity|]. split; [exact Ht|]. intros H. discriminate H.
    + rewrite bind_modify. eexists _, _, _.
      split; [reflexivity|]. split; [exact Ht|]. intros H. discriminate H.
  - exists ERR_ADDRESS_INVALID, s, w. split; [reflexivity|].
    split; [apply trace_extends_refl|]. auto.
Qed.

Lemma DEFAULT_BIND_connects_only_witness :
  exists rv s' w',
    InternalConnect example_config (mkIPEndPoint [192; 0; 2; 1] 53)
      (fst example_open_socket_v6)
      (set_script [SysErr 4; SysOk 0] (snd example_open_socket_v6)) = Done rv s' w' /\
    trace_extends is_connect_call
      (set_script [SysErr 4; SysOk 0] (snd example_open_socket_v6)) w'.
Proof.
  destruct (DEFAULT_BIND_connects_only example_config (mkIPEndPoint [192; 0; 2; 1] 53)
              (fst example_open_socket_v6)
              (set_script [SysErr 4; SysOk 0] (snd example_open_socket_v6)) eq_refl)
    as (rv & s' & w' & H & Ht & _).
  exists rv, s', w'. split; [exact H|exact Ht].
Defined.

(** A [Close] of an open socket that returns has done what [closed_from]
    says. *)
Lemma Close_done_closed_from cfg s w s' w' :
  dont_close_ s = false -> socket_ s <> kInvalidSocket ->
  Close cfg s w = Done tt s' w' ->
  closed_from cfg s w s' w'.
Proof.
  intros Hd Hs HC.
  destruct (Close_done_inv cfg s w s' w' Hd HC) as [(Hc & _)|(_ & Hh & _)];
    [contradiction|].
  pose proof HC as HC'.
  rewrite (Close_open cfg s w Hd Hs), bind_CHECK, Hh, Z.eqb_refl in HC'.
  destruct (PlatformClose cfg (socket_ s) (pending_cleared s) (watchers_stopped s w))
    as [u s2 w2|wf] eqn:HP.
  2:{ rewrite (bind_Fatal _ _ _ _ _ HP) in HC'. discriminate. }
  destruct u.
  destruct (Close_open_done cfg s w s2 w2 Hd Hs Hh HP) as (s'' & w'' & HC2 & Hcl).
  rewrite HC in HC2. injection HC2 as <- <-. exact Hcl.
Qed.

(** X27: a closed socket ignores readiness events.  After a [Close] of an
    open socket has returned, a read or write readiness event delivered to
    the object does nothing: no receive or send is retried and no callback
    runs, whatever was pending before the [Close]. *)
Theorem closed_socket_ignores_readiness (cfg : Config) (s s' : UDPSocketPosix)
    (w w' : World) :
  dont_close_ s = false -> socket_ s <> kInvalidSocket ->
  Close cfg s w = Done tt s' w' ->
  forall w2,
    OnFileCanReadWithoutBlocking cfg s' w2 = Done tt s' w2 /\
    OnFileCanWriteWithoutBlocking cfg s' w2 = Done tt s' w2.
Proof.
  intros Hd Hs HC w2.
  destruct (Close_done_closed_from cfg s w s' w' Hd Hs HC)
    as ((_ & _ & _ & Hr & _ & _ & _ & Hw & _) & _).
  unfold OnFileCanReadWithoutBlocking, OnFileCanWriteWithoutBlocking.
  rewrite !bind_gets, Hr, Hw. split; reflexivity.
Qed.

Lemma closed_socket_ignores_readiness_witness :
  match Close example_config (fst example_pending_read)
          (set_script [SysOk 0] (snd example_pending_read)) with
  | Done _ s' w' =>
      OnFileCanReadWithoutBlocking example_config s' (set_script [SysOk 100] w')
        = Done tt s' (set_script [SysOk 100] w')
  | Fatal _ => False
  end.
Proof.
  destruct (Close example_config (fst example_pending_read)
              (set_script [SysOk 0] (snd example_pending_read)))
    as [u s' w'|wf] eqn:HC.
  - destruct u.
    apply (closed_socket_ignores_readiness example_config (fst example_pending_read) s'
             (set_script [SysOk 0] (snd example_pending_read)) w' eq_refl).
    + cbn. unfold kInvalidSocket. lia.
    + exact HC.
  - vm_compute in HC. discriminate HC.
Defined.

(** X28: no received byte is lost at [Close].  When a receive on an open
    socket is followed by a [Close] that returns, the process-wide counter
    has received every byte the socket had accounted for before, and the
    bytes the receive returned; the monitor holds nothing any more.
    ([MapSystemError] is assumed to map OS errors to negative codes, the
    buffer length to be an [int] that is not negative, and the monitor to
    hold at most its threshold.) *)
Theorem Close_reports_received_bytes (cfg : Config) (buf : option nat) (buf_len : Z)
    (address : option nat) (s s1 s2 : UDPSocketPosix) (w w1 w2 : World) (rv : Z) :
  (forall e, 0 < e -> MapSystemError cfg e < 0) ->
  0 <= buf_len < 2 ^ 31 ->
  monitor_bounded s ->
  dont_close_ s = false -> socket_ s <> kInvalidSocket ->
  InternalRecvFrom cfg buf buf_len address s w = Done rv s1 w1 ->
  Close cfg s1 w1 = Done tt s2 w2 ->
  bytes_received w2 = bytes_accounted s w + Z.max rv 0 /\ monitor_flushed s2.
Proof.
  intros Hmap Hlen Hb Hd Hs HI HC.
  destruct (InternalRecvFrom_run cfg buf buf_len address s w)
    as (rv0 & s0 & w0 & HI0 & Hm & _ & _ & _ & Hacc).
  rewrite HI in HI0. injection HI0 as <- <- <-.
  destruct (Hacc Hmap Hlen Hb) as (_ & _ & Ha).
  destruct (monitor_only_fields s s1 Hm) as (_ & Hfd & _ & Hdc).
  rewrite <- Hdc in Hd. rewrite <- Hfd in Hs.
  destruct (Close_done_closed_from cfg s1 w1 s2 w2 Hd Hs HC)
    as (_ & _ & Hflushed & _ & HB & _).
  split; [|exact Hflushed]. rewrite HB. unfold bytes_accounted in *. lia.
Qed.

Lemma Close_reports_received_bytes_witness :
  match InternalRecvFrom example_config (Some 1%nat) 512 None
          (fst example_connected_socket)
          (set_script [SysOk 100; SysOk 0] (snd example_connected_socket)) with
  | Done rv s1 w1 =>
      match Close example_config s1 w1 with
      | Done _ s2 w2 => bytes_received w2 = 0 + Z.max rv 0 /\ monitor_flushed s2
      | Fatal _ => False
      end
  | Fatal _ => False
  end.
Proof.
  destruct (InternalRecvFrom example_config (Some 1%nat) 512 None
              (fst example_connected_socket)
              (set_script [SysOk 100; SysOk 0] (snd example_connected_socket)))
    as [rv s1 w1|wf] eqn:HI; [|vm_compute in HI; discriminate HI].
  destruct (Close example_config s1 w1) as [u s2 w2|wf] eqn:HC.
  - destruct u.
    apply (Close_reports_received_bytes example_config (Some 1%nat) 512 None
             (fst example_connected_socket) s1 s2
             (set_script [SysOk 100; SysOk 0] (snd example_connected_socket)) w1 w2 rv
             example_MapSystemError_negative).
    + lia.
    + unfold monitor_bounded, kActivityMonitorBytesThreshold. cbn. lia.
    + reflexivity.
    + cbn. unfold kInvalidSocket. lia.
    + exact HI.
    + exact HC.
  - vm_compute in HI. injection HI as <- <- <-. vm_compute in HC. discriminate HC.
Defined.
